(** * flex_extract_helper: the batch downloader, embedded and verified

    A shallow embedding of [downloader.py]: the date-range partitioner
    [breakDownDates], the CONTROL-file rewriter [replaceControlDates], the
    job builder [prepareJobList] with its skip test [isSkip], the job runner
    [launchJob], the summary printer [printJobSummary] and the entry point
    [main].

    Modelling conventions.
    - Python [str] is [string] (ASCII); Python [int] is [Z].
    - A [datetime] produced by [strptime(s, '%Y%m%d')] is a midnight, so it is
      represented by its proleptic Gregorian ordinal (what [toordinal()]
      returns), a [Z] between 1 and [MAXORDINAL]; the conversions are those
      of the datetime module.
    - The file system is a finite map from paths to nodes; [open(p, 'w')]
      always succeeds and replaces the node at [p] (permissions are not
      modelled).
    - An external process is an oracle: the n-th process launched has a
      behaviour (how its launch and wait end, and what it does to the file
      system).
    - The console is the list of the lines printed; the two renderings that
      depend on Python's [repr] ([str(job_dates)] and the message of a
      [TimeoutExpired]) are parameters.
    - Exceptions, a wait that never returns and exhausted loop fuel are the
      three ways a computation does not return a value; both loops are given
      enough fuel ([breakDownDates_total], [launchJob_total]). *)

From Stdlib Require Import ZArith String Ascii List Lia Bool.
From stdpp Require Import base gmap strings list pretty.

Open Scope string_scope.
Open Scope Z_scope.

(** ** Results of fallible computations *)

Inductive exn : Type :=
| Exception (msg : string)
| ValueError
| OverflowError
| IndexError
| FileNotFoundError
| IsADirectoryError
| OSError.

Inductive res (A : Type) : Type :=
| Val (a : A)
| Err (e : exn)
| Hang
| NoFuel.
Arguments Val {A} a.
Arguments Err {A} e.
Arguments Hang {A}.
Arguments NoFuel {A}.

Definition res_bind {A B} (r : res A) (f : A -> res B) : res B :=
  match r with
  | Val a => f a
  | Err e => Err e
  | Hang => Hang
  | NoFuel => NoFuel
  end.

Notation "x <-? r ; k" := (res_bind r (fun x => k))
  (at level 100, r at next level, right associativity, only parsing).

(** ** Python string helpers *)

Module Py.

(** [str(n)] for an [int]. *)
Definition str (n : Z) : string := pretty n.

Fixpoint replicate_char (n : nat) (c : ascii) : string :=
  match n with
  | O => ""
  | S n' => String c (replicate_char n' c)
  end.

(** [s.rjust(width, fill)] *)
Definition rjust (s : string) (width : nat) (fill : ascii) : string :=
  replicate_char (width - String.length s) fill +:+ s.

Definition zero : ascii := "0"%char.
Definition slash : ascii := "/"%char.
Definition newline : ascii := "010"%char.
Definition space : ascii := " "%char.
Definition nl : string := String newline EmptyString.

Definition is_digit (c : ascii) : bool :=
  let n := nat_of_ascii c in (48 <=? n)%nat && (n <=? 57)%nat.

Definition digit_val (c : ascii) : Z := Z.of_nat (nat_of_ascii c) - 48.

(** The value of a string of decimal digits, [None] if some character is
    not an ASCII digit. *)
Fixpoint parse_digits (acc : Z) (s : string) : option Z :=
  match s with
  | EmptyString => Some acc
  | String c s' =>
      if is_digit c then parse_digits (10 * acc + digit_val c) s' else None
  end.

Fixpoint ends_with_char (s : string) (c : ascii) : bool :=
  match s with
  | EmptyString => false
  | String a EmptyString => if ascii_dec a c then true else false
  | String _ s' => ends_with_char s' c
  end.

Definition starts_with_char (s : string) (c : ascii) : bool :=
  match s with
  | String a _ => if ascii_dec a c then true else false
  | EmptyString => false
  end.

(** [os.path.join(a, b)] of posixpath, for two components. *)
Definition path_join (a b : string) : string :=
  if starts_with_char b slash then b
  else if (String.length a =? 0)%nat || ends_with_char a slash then a +:+ b
  else a +:+ "/" +:+ b.

(** [s.rstrip('/')] *)
Fixpoint rstrip_slash (s : string) : string :=
  match s with
  | EmptyString => EmptyString
  | String c s' =>
      match rstrip_slash s' with
      | EmptyString => if ascii_dec c slash then EmptyString else String c EmptyString
      | r => String c r
      end
  end.

Fixpoint all_slashes (s : string) : bool :=
  match s with
  | EmptyString => true
  | String c s' => (if ascii_dec c slash then true else false) && all_slashes s'
  end.

(** Cuts [p] after its last slash: [(p[:i], p[i:])] with
    [i = p.rfind('/') + 1]. *)
Fixpoint cut_last_slash (p : string) : string * string :=
  match p with
  | EmptyString => (EmptyString, EmptyString)
  | String c p' =>
      let '(h, t) := cut_last_slash p' in
      match h with
      | EmptyString =>
          if ascii_dec c slash then (String c EmptyString, t)
          else (EmptyString, String c t)
      | _ => (String c h, t)
      end
  end.

(** [os.path.split(p)] of posixpath. *)
Definition path_split (p : string) : string * string :=
  let '(head, tail) := cut_last_slash p in
  if negb (String.length head =? 0)%nat && negb (all_slashes head)
  then (rstrip_slash head, tail)
  else (head, tail).

(** [l.index(x)]: the position of the first occurrence. *)
Fixpoint index (l : list string) (x : string) : res nat :=
  match l with
  | [] => Err ValueError
  | y :: l' => if String.eqb y x then Val O
               else i <-? index l' x; Val (S i)
  end.

(** [l[i]] for a non-negative [i]. *)
Definition item (l : list string) (i : nat) : res string :=
  match nth_error l i with
  | Some x => Val x
  | None => Err IndexError
  end.

End Py.

(** ** The datetime module, restricted to midnights

    The calendar arithmetic is the one of the module's reference
    implementation ([_ymd2ord], [_ord2ymd]). *)

Module Datetime.

Definition MAXORDINAL : Z := 3652059.   (* date.max.toordinal() *)
Definition MAX_DELTA_DAYS : Z := 999999999.

Definition is_leap (year : Z) : bool :=
  (year mod 4 =? 0) && (negb (year mod 100 =? 0) || (year mod 400 =? 0)).

Definition days_before_year (year : Z) : Z :=
  let y := year - 1 in y * 365 + y / 4 - y / 100 + y / 400.

Definition DAYS_IN_MONTH (month : Z) : Z :=
  match month with
  | 1 => 31 | 2 => 28 | 3 => 31 | 4 => 30 | 5 => 31 | 6 => 30
  | 7 => 31 | 8 => 31 | 9 => 30 | 10 => 31 | 11 => 30 | 12 => 31
  | _ => -1
  end.

Definition DAYS_BEFORE_MONTH (month : Z) : Z :=
  match month with
  | 1 => 0 | 2 => 31 | 3 => 59 | 4 => 90 | 5 => 120 | 6 => 151
  | 7 => 181 | 8 => 212 | 9 => 243 | 10 => 273 | 11 => 304 | 12 => 334
  | _ => -1
  end.

Definition days_in_month (year month : Z) : Z :=
  if (month =? 2) && is_leap year then 29 else DAYS_IN_MONTH month.

Definition days_before_month (year month : Z) : Z :=
  DAYS_BEFORE_MONTH month + (if (month >? 2) && is_leap year then 1 else 0).

Definition ymd2ord (year month day : Z) : Z :=
  days_before_year year + days_before_month year month + day.

Definition DI400Y : Z := 146097.
Definition DI100Y : Z := 36524.
Definition DI4Y : Z := 1461.

Definition ord2ymd (ordinal : Z) : Z * Z * Z :=
  let n := ordinal - 1 in
  let n400 := n / DI400Y in
  let n := n mod DI400Y in
  let year := n400 * 400 + 1 in
  let n100 := n / DI100Y in
  let n := n mod DI100Y in
  let n4 := n / DI4Y in
  let n := n mod DI4Y in
  let n1 := n / 365 in
  let n := n mod 365 in
  let year := year + n100 * 100 + n4 * 4 + n1 in
  if (n1 =? 4) || (n100 =? 4) then (year - 1, 12, 31)
  else
    let leapyear := (n1 =? 3) && (negb (n4 =? 24) || (n100 =? 3)) in
    let month := Z.shiftr (n + 50) 5 in
    let preceding :=
      DAYS_BEFORE_MONTH month + (if (month >? 2) && leapyear then 1 else 0) in
    if preceding >? n then
      let month := month - 1 in
      let preceding :=
        preceding
        - (DAYS_IN_MONTH month + (if (month =? 2) && leapyear then 1 else 0)) in
      (year, month, n - preceding + 1)
    else (year, month, n - preceding + 1).

(** [datetime.strptime(s, '%Y%m%d')] on the documented input format, eight
    ASCII digits YYYYMMDD; the result is the ordinal of the day.  (The
    shorter spellings with one-digit month or day that strptime also takes
    are outside the model and rejected.) *)
Definition strptime (s : string) : res Z :=
  if negb (String.length s =? 8)%nat then Err ValueError
  else
    match Py.parse_digits 0 (substring 0 4 s),
          Py.parse_digits 0 (substring 4 2 s),
          Py.parse_digits 0 (substring 6 2 s) with
    | Some y, Some m, Some d =>
        if (1 <=? y) && (1 <=? m) && (m <=? 12)
           && (1 <=? d) && (d <=? days_in_month y m)
        then Val (ymd2ord y m d)
        else Err ValueError
    | _, _, _ => Err ValueError
    end.

(** [t.strftime('%Y%m%d')]: four-digit year (0001 to 9999, as documented
    for [%Y]), two-digit month and day. *)
Definition strftime (t : Z) : string :=
  let '(y, m, d) := ord2ymd t in
  Py.rjust (Py.str y) 4 Py.zero
  +:+ Py.rjust (Py.str m) 2 Py.zero
  +:+ Py.rjust (Py.str d) 2 Py.zero.

(** [timedelta(days=n)] *)
Definition timedelta (days : Z) : res Z :=
  if Z.abs days >? MAX_DELTA_DAYS then Err OverflowError else Val days.

(** [t + delta]: fails when the result leaves the range of [datetime]. *)
Definition add (t delta : Z) : res Z :=
  let r := t + delta in
  if (0 <? r) && (r <=? MAXORDINAL) then Val r else Err OverflowError.

End Datetime.

(** ** breakDownDates *)

Definition date_pair : Type := string * string.

(** The [while t1<=t_end] loop.  [fuel] bounds the number of iterations. *)
Fixpoint breakDownDates_loop (fuel : nat) (t_end d1 dt t1 t2 : Z)
    (date_list : list date_pair) : res (list date_pair) :=
  match fuel with
  | O => NoFuel
  | S fuel' =>
      if t1 <=? t_end then
        let t2 := if t2 >? t_end then t_end else t2 in
        let t1_str := Datetime.strftime t1 in
        let t2_str := Datetime.strftime t2 in
        let date_list := (date_list ++ [(t1_str, t2_str)])%list in
        t1 <-? Datetime.add t2 d1;
        t2 <-? Datetime.add t1 dt;
        breakDownDates_loop fuel' t_end d1 dt t1 t2 date_list
      else Val date_list
  end.

Definition breakDownDates (start_date end_date : string) (days_per_job : Z)
    : res (list date_pair) :=
  if days_per_job <? 1 then Err (Exception "<days_per_job> should be >=1.")
  else
    t_start <-? Datetime.strptime start_date;
    t_end <-? Datetime.strptime end_date;
    if t_start >? t_end then Err (Exception "<start_date> is later than <end_date>.")
    else
      d1 <-? Datetime.timedelta 1;
      dt <-? Datetime.timedelta (days_per_job - 1);
      let date_list := [] in
      let t1 := t_start in
      t2 <-? Datetime.add t1 dt;
      breakDownDates_loop (Z.to_nat (t_end - t_start + 2)) t_end d1 dt t1 t2 date_list.

(** ** The world: file system, console, external processes *)

Inductive node : Type :=
| Dir
| File (content : string).

(** How the n-th external process ends. *)
Inductive proc_end : Type :=
| LaunchFails                 (* [Popen] raises [OSError]: nothing was started *)
| Overruns                    (* still running whenever the wait gives up *)
| WaitFails (msg : string)    (* [wait] raises another exception *)
| Exits (code : Z).           (* [wait] returns the exit status *)

Record behaviour : Type := {
  ending : proc_end;
  effect : gmap string node -> gmap string node
}.

Inductive event : Type :=
| Launched (pid : nat) (cmd : list string) (log : string)
| Killed (pid : nat)
| Written (path content : string).

Record World : Type := {
  fs : gmap string node;
  stdout : list string;
  popen_calls : nat;
  history : list event
}.

Definition M (A : Type) : Type := World -> res A * World.

Definition pure {A} (a : A) : M A := fun w => (Val a, w).

Definition raise {A} (e : exn) : M A := fun w => (Err e, w).

Definition bind {A B} (m : M A) (f : A -> M B) : M B :=
  fun w =>
    match m w with
    | (Val a, w') => f a w'
    | (Err e, w') => (Err e, w')
    | (Hang, w') => (Hang, w')
    | (NoFuel, w') => (NoFuel, w')
    end.

Definition lift {A} (r : res A) : M A := fun w => (r, w).

Notation "x <- m ;; k" := (bind m (fun x => k))
  (at level 100, m at next level, right associativity, only parsing).
Notation "m ;;; k" := (bind m (fun _ => k))
  (at level 100, right associativity, only parsing).

Definition log_event (e : event) : M unit :=
  fun w => (Val tt, {| fs := fs w; stdout := stdout w;
                       popen_calls := popen_calls w;
                       history := (history w ++ [e])%list |}).

(** [print(s)] *)
Definition print (s : string) : M unit :=
  fun w => (Val tt, {| fs := fs w; stdout := (stdout w ++ [s])%list;
                       popen_calls := popen_calls w;
                       history := history w |}).

(** [os.path.exists(p)] *)
Definition path_exists (p : string) : M bool :=
  fun w => (Val (bool_decide (is_Some (fs w !! p))), w).

(** [open(p, 'r').read()] *)
Definition read_file (p : string) : M string :=
  fun w =>
    match fs w !! p with
    | Some (File s) => (Val s, w)
    | Some Dir => (Err IsADirectoryError, w)
    | None => (Err FileNotFoundError, w)
    end.

(** [with open(p, 'w') as f: f.write(content)]; with [content = ""] it is
    the bare [open(p, 'w')], which creates or truncates the file. *)
Definition write_file (p content : string) : M unit :=
  fun w => (Val tt, {| fs := <[p := File content]> (fs w); stdout := stdout w;
                       popen_calls := popen_calls w;
                       history := (history w ++ [Written p content])%list |}).

Inductive waited : Type :=
| Returned (code : Z)
| TimeoutExpired
| OtherException (msg : string).

(** ** The two CONTROL-file patterns

    [re.compile(r'^FIELD +(\d{8})', re.MULTILINE)] for a literal [FIELD]: a
    match starts at the beginning of a line and is the field name, one or
    more spaces and eight digits; it never spans a line break, so searching
    and substituting work line by line. *)

Module Re.

(** [s.split('\n')], as the first line and the following ones. *)
Fixpoint lines (s : string) : string * list string :=
  match s with
  | EmptyString => (EmptyString, [])
  | String c s' =>
      let '(l, ls) := lines s' in
      if ascii_dec c Py.newline then (EmptyString, l :: ls)
      else (String c l, ls)
  end.

(** ['\n'.join(l :: ls)] *)
Fixpoint unlines (l : string) (ls : list string) : string :=
  match ls with
  | [] => l
  | l' :: ls' => l +:+ String Py.newline (unlines l' ls')
  end.

(** [Some r] when [s] is [p] followed by [r]. *)
Fixpoint strip_prefix (p s : string) : option string :=
  match p, s with
  | EmptyString, _ => Some s
  | String a p', String b s' =>
      if ascii_dec a b then strip_prefix p' s' else None
  | String _ _, EmptyString => None
  end.

Fixpoint skip_spaces (s : string) : string :=
  match s with
  | String c s' => if ascii_dec c Py.space then skip_spaces s' else s
  | EmptyString => EmptyString
  end.

(** [\d{n}] at the head of [s]: the text after the [n] digits. *)
Fixpoint take_digits (n : nat) (s : string) : option string :=
  match n, s with
  | O, _ => Some s
  | S n', String c s' => if Py.is_digit c then take_digits n' s' else None
  | S _, EmptyString => None
  end.

(** The pattern matched at the head of a line: the text after the match. *)
Definition match_line (field line : string) : option string :=
  match strip_prefix field line with
  | Some (String c r) =>
      if ascii_dec c Py.space then take_digits 8 (skip_spaces r) else None
  | _ => None
  end.

(** [pattern.search(s)] finds a match. *)
Definition search (field s : string) : bool :=
  let '(l, ls) := lines s in
  existsb (fun x => bool_decide (is_Some (match_line field x))) (l :: ls).

Definition sub_line (field repl line : string) : string :=
  match match_line field line with
  | Some rest => repl +:+ rest
  | None => line
  end.

(** [pattern.sub(repl, s)] for a replacement text without backslash. *)
Definition sub (field repl s : string) : string :=
  let '(l, ls) := lines s in
  unlines (sub_line field repl l) (map (sub_line field repl) ls).

End Re.

(** ** Jobs *)

Record job : Type := {
  args : list string;
  job_dates : string * string * string;
  timeout : option Z;
  logfile : string;
  retry : Z
}.

Section Engine.

(** The behaviour of the external processes, in launch order. *)
Variable procs : nat -> behaviour.
(** [str(job_dates)], the rendering of a tuple of three strings. *)
Variable str_job_dates : string * string * string -> string.
(** [str(e)] of the [TimeoutExpired] raised for a command and a timeout. *)
Variable str_timeout_expired : list string -> Z -> string.
(** [os.path.abspath] *)
Variable abspath : string -> string.
(** The module-level constant [DRY]. *)
Variable DRY : bool.

(** [subprocess.Popen(args, stdout=logfile, ...)] *)
Definition Popen (cmd : list string) (log : string) : M nat :=
  fun w =>
    let pid := popen_calls w in
    match ending (procs pid) with
    | LaunchFails => (Err OSError, {| fs := fs w; stdout := stdout w;
                                      popen_calls := S pid;
                                      history := history w |})
    | _ => (Val pid, {| fs := fs w; stdout := stdout w; popen_calls := S pid;
                        history := (history w ++ [Launched pid cmd log])%list |})
    end.

Definition run_effect (pid : nat) (w : World) : World :=
  {| fs := effect (procs pid) (fs w); stdout := stdout w;
     popen_calls := popen_calls w; history := history w |}.

(** [proc.wait(timeout=timeout)], with its three ways of ending told
    apart; without a timeout an overrunning process is waited for
    forever. *)
Definition wait (pid : nat) (timeout : option Z) : M waited :=
  fun w =>
    match ending (procs pid), timeout with
    | Exits code, _ => (Val (Returned code), run_effect pid w)
    | Overruns, Some _ => (Val TimeoutExpired, run_effect pid w)
    | Overruns, None => (Hang, run_effect pid w)
    | WaitFails msg, _ => (Val (OtherException msg), run_effect pid w)
    | LaunchFails, _ => (Err OSError, w)
    end.

(** [proc.kill()] *)
Definition kill (pid : nat) : M unit := log_event (Killed pid).

(** *** launchJob *)

Definition MARKER : string := "job_done".
Definition MARKER_TEXT : string := "job done.".

Definition timeout_seconds (timeout : option Z) : Z :=
  match timeout with Some t => t | None => 0 end.

(** The [while tried<=retry] loop. *)
Fixpoint launchJob_loop (fuel : nat) (args : list string)
    (job_dates : string * string * string) (logfilename : string)
    (timeout : option Z) (retry tried ret : Z) : M Z :=
  match fuel with
  | O => lift NoFuel
  | S fuel' =>
      if tried <=? retry then
        proc <- Popen args logfilename ;;
        print (Py.nl +:+ "# <serial_batch_job>: launch of job " +:+ str_job_dates job_dates
               +:+ " try # " +:+ Py.str (tried + 1)) ;;;
        r <- wait proc timeout ;;
        match r with
        | TimeoutExpired =>
            print (Py.nl +:+ "# <serial_batch_job>: try #" +:+ Py.str (tried + 1) +:+ " for job "
                   +:+ str_job_dates job_dates +:+ " timed out.") ;;;
            print (str_timeout_expired args (timeout_seconds timeout)) ;;;
            kill proc ;;;
            launchJob_loop fuel' args job_dates logfilename timeout retry
              (tried + 1) ret
        | OtherException msg =>
            print (Py.nl +:+ "# <serial_batch_job>: job failed: " +:+ str_job_dates job_dates) ;;;
            print msg ;;;
            pure ret
        | Returned ret =>
            (if ret =? 0 then
               i <- lift (Py.index args "--outputdir") ;;
               outputdir <- lift (Py.item args (i + 1)) ;;
               found <- path_exists outputdir ;;
               if found
               then write_file (Py.path_join outputdir MARKER) MARKER_TEXT
               else pure tt
             else pure tt) ;;;
            pure ret
        end
      else pure ret
  end.

Definition launchJob (args : list string)
    (job_dates : string * string * string) (logfilename : string)
    (timeout : option Z) (retry : Z) : M Z :=
  write_file logfilename "" ;;;
  let tried := 0 in
  let ret := 1 in
  launchJob_loop (S (Z.to_nat (retry + 1))) args job_dates logfilename timeout
    retry tried ret.

Definition launchJobUnpack (arg_dict : job) : M Z :=
  launchJob (args arg_dict) (job_dates arg_dict) (logfile arg_dict)
    (timeout arg_dict) (retry arg_dict).

(** *** Locating the installation *)

Definition checkControlFile (flex_extract_folder control_file : string)
    : M (string * string) :=
  let ctrl_folder := Py.path_join flex_extract_folder "Run/Control" in
  let ctrl_file := Py.path_join ctrl_folder control_file in
  found <- path_exists ctrl_file ;;
  if negb found
  then raise (Exception ("CONTROL file " +:+ ctrl_file +:+ " not found."))
  else pure (ctrl_folder, ctrl_file).

Definition checkExeFile (flex_extract_folder : string) : M string :=
  let exe_file := Py.path_join flex_extract_folder "Source/Python/submit.py" in
  let exe_file := abspath exe_file in
  found <- path_exists exe_file ;;
  if negb found
  then raise (Exception ("submit.py file " +:+ exe_file
                         +:+ " not found at here:"))
  else pure exe_file.

(** *** replaceControlDates

    The replacement texts ['END_DATE %s' %end_date] and
    ['START_DATE %s' %start_date] are taken literally, which is what
    [pattern.sub] does with them when the dates hold no backslash. *)

Definition replaceControlDates (ctrl_str start_date end_date : string)
    : M string :=
  ctrl_str <-
    (if Re.search "END_DATE" ctrl_str
     then pure (Re.sub "END_DATE" ("END_DATE " +:+ end_date) ctrl_str)
     else
       print "END_DATE line not in CONTROL file. Add line." ;;;
       pure ("END_DATE " +:+ end_date +:+ Py.nl +:+ ctrl_str)) ;;
  ctrl_str <-
    (if Re.search "START_DATE" ctrl_str
     then pure (Re.sub "START_DATE" ("START_DATE " +:+ start_date) ctrl_str)
     else
       print "START_DATE line not in CONTROL file. Add line." ;;;
       pure ("START_DATE " +:+ start_date +:+ Py.nl +:+ ctrl_str)) ;;
  pure ctrl_str.

(** *** isSkip *)

Definition isSkip (outputdir : string) : M bool :=
  let rec_file := Py.path_join outputdir MARKER in
  path_exists rec_file.

(** *** prepareJobList *)

Section PrepareJobList.

Variables (exe_file ctrl_file : string) (date_list : list date_pair)
  (outputdir : string) (time_out : option Z) (time_out_retry : Z)
  (job_prefix : string) (copy_control verbose : bool).

(** The zero-padded id of the job at position [idii]. *)
Definition job_id (idii : nat) : string :=
  Py.rjust (Py.str (Z.of_nat idii))
    (String.length (Py.str (Z.of_nat (List.length date_list)))) Py.zero.

(** ['%s_%s_%s-%s' %(job_prefix, idii, t1ii, t2ii)] under [outputdir]. *)
Definition job_dir (idii t1ii t2ii : string) : string :=
  Py.path_join outputdir
    (job_prefix +:+ "_" +:+ idii +:+ "_" +:+ t1ii +:+ "-" +:+ t2ii).

(** ['%s_%s_%s' %(ctrl_fname, job_prefix, idii)] under [ctrl_folder]. *)
Definition job_control_file (ctrl_folder ctrl_fname idii : string) : string :=
  Py.path_join ctrl_folder
    (ctrl_fname +:+ "_" +:+ job_prefix +:+ "_" +:+ idii).

(** The body of [for idii, dateii in enumerate(date_list)], on the
    items from position [pos] on. *)
Fixpoint prepareJobList_loop (ctrl_folder ctrl_fname ctrl_str : string)
    (pos : nat) (items : list date_pair) (job_list : list job)
    : M (list job) :=
  match items with
  | [] => pure job_list
  | dateii :: items' =>
      let '(t1ii, t2ii) := dateii in
      let idii := job_id pos in
      let outputdirii := job_dir idii t1ii t2ii in
      let outputdir_tmpii := outputdirii +:+ "_tmp" in
      let outputdir_outii := outputdirii +:+ "_out" in
      skip <- isSkip outputdir_outii ;;
      if skip then
        print ("# <prepareJobList>: Skip job #" +:+ idii +:+ ": "
               +:+ t1ii +:+ "-" +:+ t2ii) ;;;
        prepareJobList_loop ctrl_folder ctrl_fname ctrl_str (S pos) items'
          job_list
      else
        print ("# <prepareJobList>: Add job #" +:+ idii +:+ ": "
               +:+ t1ii +:+ "-" +:+ t2ii) ;;;
        ctrl_fileii <-
          (if copy_control then
             let ctrl_fileii := job_control_file ctrl_folder ctrl_fname idii in
             ctrl_strii <- replaceControlDates ctrl_str t1ii t2ii ;;
             write_file ctrl_fileii ctrl_strii ;;;
             pure ctrl_fileii
           else pure ctrl_file) ;;
        let jobii := ["python"; "-u"; exe_file; "--controlfile"; ctrl_fileii;
                      "--inputdir"; outputdir_tmpii;
                      "--outputdir"; outputdir_outii] in
        let job_list :=
          (job_list ++ [{| args := jobii;
                           job_dates := (idii, t1ii, t2ii);
                           timeout := time_out;
                           logfile := job_prefix +:+ "_" +:+ idii +:+ ".txt";
                           retry := time_out_retry |}])%list in
        prepareJobList_loop ctrl_folder ctrl_fname ctrl_str (S pos) items'
          job_list
  end.

Definition prepareJobList : M (list job) :=
  let '(ctrl_folder, ctrl_fname) := Py.path_split ctrl_file in
  ctrl_str <- read_file ctrl_file ;;
  (if verbose then
     print (Py.nl +:+ "# <prepareJobList>: Default CONTROL file:") ;;;
     print ctrl_str
   else pure tt) ;;;
  let job_list := [] in
  prepareJobList_loop ctrl_folder ctrl_fname ctrl_str O date_list job_list.

End PrepareJobList.

(** *** printJobSummary *)

Definition str_timeout (timeout : option Z) : string :=
  match timeout with
  | Some t => Py.str t
  | None => "None"
  end.

Definition printJobSummary_job (jobii : job) : M unit :=
  let '(idii, t1ii, t2ii) := job_dates jobii in
  let logii := logfile jobii in
  let retryii := retry jobii in
  let timeoutii := timeout jobii in
  let argsii := args jobii in
  i <- lift (Py.index argsii "--controlfile") ;;
  ctrlii <- lift (Py.item argsii (i + 1)) ;;
  i <- lift (Py.index argsii "--inputdir") ;;
  inputii <- lift (Py.item argsii (i + 1)) ;;
  i <- lift (Py.index argsii "--outputdir") ;;
  outii <- lift (Py.item argsii (i + 1)) ;;
  print (Py.nl +:+ "#### Summary of job #" +:+ idii +:+ ":") ;;;
  print ("Time period: " +:+ t1ii +:+ " - " +:+ t2ii) ;;;
  print ("CONTROL file: " +:+ ctrlii) ;;;
  print ("Log file: " +:+ logii) ;;;
  print ("inputdir: " +:+ inputii) ;;;
  print ("outputdir: " +:+ outii) ;;;
  print ("Time-out (seconds): " +:+ str_timeout timeoutii) ;;;
  print ("Time-out retries: " +:+ Py.str retryii).

Fixpoint for_each {A} (f : A -> M unit) (l : list A) : M unit :=
  match l with
  | [] => pure tt
  | x :: l' => f x ;;; for_each f l'
  end.

Definition printJobSummary (start_date end_date : string) (days_per_job : Z)
    (job_list : list job) (n_workers : Z) : M unit :=
  print (Py.nl +:+ "# <downloader>: ####### Job summary #######") ;;;
  print ("Time period: " +:+ start_date +:+ " - " +:+ end_date) ;;;
  t_start <- lift (Datetime.strptime start_date) ;;
  t_end <- lift (Datetime.strptime end_date) ;;
  let n_days := t_end - t_start in
  print ("Total number of days = " +:+ Py.str n_days) ;;;
  print ("Number of days for each job = " +:+ Py.str days_per_job) ;;;
  print ("Number of jobs = " +:+ Py.str (Z.of_nat (List.length job_list))) ;;;
  print ("Maximum number of parallel jobs = " +:+ Py.str n_workers) ;;;
  print (Py.nl +:+ "######### Loop through jobs ##############") ;;;
  for_each printJobSummary_job job_list.

(** *** main *)

(** [Pool(n_workers).map(f, l)]: the results come in the order of [l].
    The interleaving of the workers is not modelled; the jobs run one
    after the other. *)
Fixpoint pool_map {A B} (f : A -> M B) (l : list A) : M (list B) :=
  match l with
  | [] => pure []
  | x :: l' => y <- f x ;; ys <- pool_map f l' ;; pure (y :: ys)
  end.

Definition Pool_map {A B} (n_workers : Z) (f : A -> M B) (l : list A)
    : M (list B) :=
  if n_workers <? 1 then raise ValueError else pool_map f l.

Fixpoint join_with (sep : string) (l : list string) : string :=
  match l with
  | [] => ""
  | [x] => x
  | x :: l' => x +:+ sep +:+ join_with sep l'
  end.

(** [str(results)] for a list of integers. *)
Definition str_int_list (l : list Z) : string :=
  "[" +:+ join_with ", " (map Py.str l) +:+ "]".

Definition main (flex_extract_folder control_file start_date end_date : string)
    (days_per_job n_workers : Z) (outputdir : string) (time_out : option Z)
    (time_out_retry : Z) (job_prefix : string) (copy_control dry : bool)
    : M unit :=
  date_list <- lift (breakDownDates start_date end_date days_per_job) ;;
  exe_file <- checkExeFile flex_extract_folder ;;
  cf <- checkControlFile flex_extract_folder control_file ;;
  let '(ctrl_folder, ctrl_file) := cf in
  job_list <- prepareJobList exe_file ctrl_file date_list outputdir time_out
                time_out_retry job_prefix copy_control true ;;
  if DRY then
    printJobSummary start_date end_date days_per_job job_list n_workers
  else
    results <- Pool_map n_workers launchJobUnpack job_list ;;
    for_each (fun rii => print (Py.str rii)) results ;;;
    print (Py.nl +:+ "# <serial_batch_job>: Results: " +:+ str_int_list results).

End Engine.

(** ** Vocabulary of the statements *)



(** The lines of a text, [s.split('\n')] as one list. *)
Definition line_list (s : string) : list string :=
  let '(l, ls) := Re.lines s in l :: ls.

(** Eight ASCII digits. *)
Definition is_date (s : string) : Prop := Re.take_digits 8 s = Some "".

(** The line assigns the field: the pattern of the field matches it. *)
Definition assigns (field line : string) : bool :=
  bool_decide (is_Some (Re.match_line field line)).

(** The line put on top when no line assigns the field. *)
Definition inserted (field value : string) (L : list string) : list string :=
  if existsb (assigns field) L then [] else [field +:+ " " +:+ value].

(** What becomes of one line of the base document. *)
Definition rewrite_line (start_date end_date line : string) : string :=
  match Re.match_line "END_DATE" line with
  | Some rest => "END_DATE " +:+ end_date +:+ rest
  | None =>
      match Re.match_line "START_DATE" line with
      | Some rest => "START_DATE " +:+ start_date +:+ rest
      | None => line
      end
  end.

Fixpoint has_newline (s : string) : bool :=
  match s with
  | EmptyString => false
  | String c s' => (if ascii_dec c Py.newline then true else false) || has_newline s'
  end.

Definition first_char (s : string) : option ascii :=
  match s with
  | EmptyString => None
  | String c _ => Some c
  end.

(** The text [replaceControlDates] returns. *)
Definition control_text (ctrl_str start_date end_date : string) : string :=
  let ctrl_str :=
    if Re.search "END_DATE" ctrl_str
    then Re.sub "END_DATE" ("END_DATE " +:+ end_date) ctrl_str
    else "END_DATE " +:+ end_date +:+ Py.nl +:+ ctrl_str in
  if Re.search "START_DATE" ctrl_str
  then Re.sub "START_DATE" ("START_DATE " +:+ start_date) ctrl_str
  else "START_DATE " +:+ start_date +:+ Py.nl +:+ ctrl_str.

Section JobSpec.

Variables (exe_file ctrl_file : string) (date_list : list date_pair)
  (outputdir : string) (time_out : option Z) (time_out_retry : Z)
  (job_prefix : string) (copy_control : bool).

(** The CONTROL file the job at position [pos] is given. *)
Definition control_path (pos : nat) : string :=
  if copy_control then
    let '(ctrl_folder, ctrl_fname) := Py.path_split ctrl_file in
    job_control_file job_prefix ctrl_folder ctrl_fname (job_id date_list pos)
  else ctrl_file.

Definition out_dir (pos : nat) (d : date_pair) : string :=
  job_dir outputdir job_prefix (job_id date_list pos) d.1 d.2 +:+ "_out".

(** The job the loop of [prepareJobList] builds for the interval at
    position [pos]. *)
Definition job_at (pos : nat) (d : date_pair) : job :=
  let idii := job_id date_list pos in
  let outputdirii := job_dir outputdir job_prefix idii d.1 d.2 in
  {| args := ["python"; "-u"; exe_file; "--controlfile"; control_path pos;
              "--inputdir"; outputdirii +:+ "_tmp";
              "--outputdir"; outputdirii +:+ "_out"];
     job_dates := (idii, d.1, d.2);
     timeout := time_out;
     logfile := job_prefix +:+ "_" +:+ idii +:+ ".txt";
     retry := time_out_retry |}.

(** Where [isSkip] looks for the job at position [pos]. *)
Definition marker_path (pos : nat) (d : date_pair) : string :=
  Py.path_join (out_dir pos d) MARKER.

(** The line reporting a skipped job. *)
Definition skip_line (pos : nat) (d : date_pair) : string :=
  "# <prepareJobList>: Skip job #" +:+ job_id date_list pos +:+ ": "
  +:+ d.1 +:+ "-" +:+ d.2.

(** The positions and intervals the loop goes through. *)
Definition candidates (pos : nat) (items : list date_pair)
    : list (nat * date_pair) :=
  zip (seq pos (List.length items)) items.

Definition put_control (ctrl_str : string) (f : gmap string node)
    (x : nat * date_pair) : gmap string node :=
  if copy_control
  then <[control_path x.1 := File (control_text ctrl_str x.2.1 x.2.2)]> f
  else f.

Definition control_events (ctrl_str : string) (K : list (nat * date_pair))
    : list event :=
  if copy_control
  then map (fun x => Written (control_path x.1)
                       (control_text ctrl_str x.2.1 x.2.2)) K
  else [].

(** What a run of [prepareJobList] that kept the positions [K] did to the
    world. *)
Definition prepared (base : string) (w : World) (K : list (nat * date_pair))
    (w' : World) (out : list string) : Prop :=
  sublist K (candidates O date_list)
  /\ fs w' = foldl (put_control base) (fs w) K
  /\ history w' = (history w ++ control_events base K)%list
  /\ popen_calls w' = popen_calls w
  /\ stdout w' = (stdout w ++ out)%list
  /\ (forall x, x ∈ candidates O date_list ->
        is_Some (fs w !! marker_path x.1 x.2) ->
        (x ∉ K) /\ (skip_line x.1 x.2 ∈ out)).

End JobSpec.

(** One timed-out attempt in the history. *)
Definition attempt_events (args : list string) (logfilename : string)
    (pid : nat) : list event :=
  [Launched pid args logfilename; Killed pid].

(** The write of the completion marker under [d]. *)
Definition marker_of (d : string) : event :=
  Written (Py.path_join d MARKER) MARKER_TEXT.

Definition is_launch (e : event) : bool :=
  match e with
  | Launched _ _ _ => true
  | _ => false
  end.

Definition is_kill (e : event) : bool :=
  match e with
  | Killed _ => true
  | _ => false
  end.

Definition is_written (e : event) : Prop :=
  match e with
  | Written _ _ => True
  | _ => False
  end.

(** When the marker is written in a run that added [new] to the history
    and ended in [w'] with result [r]. *)
Definition marker_written_iff (procs : nat -> behaviour) (args : list string)
    (logfilename d : string) (new : list event) (r : res Z) (w' : World)
    : Prop :=
  (marker_of d ∈ new <->
     exists pid, Launched pid args logfilename ∈ new
                 /\ ending (procs pid) = Exits 0
                 /\ is_Some (fs w' !! d))
  /\ (marker_of d ∈ new ->
        r = Val 0 /\ fs w' !! Py.path_join d MARKER = Some (File MARKER_TEXT)).

(** Computations that only print. *)
Definition quiet {A} (m : M A) : Prop :=
  forall w r w', m w = (r, w') ->
    fs w' = fs w /\ history w' = history w /\ popen_calls w' = popen_calls w.

(** Computations that launch and kill nothing. *)
Definition launchless {A} (m : M A) : Prop :=
  forall w r w', m w = (r, w') ->
    popen_calls w' = popen_calls w
    /\ exists new, history w' = (history w ++ new)%list /\ Forall is_written new.

(** ** Sample inputs *)

Definition sample_control : string :=
  "A 1" +:+ Py.nl +:+ "START_DATE   20000101" +:+ Py.nl +:+ "Z".

Definition sample_fs : gmap string node :=
  <["/fx/Run/Control/CTRL" := File sample_control]>
    (<["/fx/Source/Python/submit.py" := File ""]>
       (<["/out/EI_1_20130205-20130206_out/job_done" := File "job done."]> ∅)).

Definition sample_world : World :=
  {| fs := sample_fs; stdout := []; popen_calls := O; history := [] |}.

(** Every job of the sample batch already done. *)
Definition sample_done_world : World :=
  {| fs := <["/out/EI_0_20130203-20130204_out/job_done" := File "job done."]>
             (<["/out/EI_2_20130207-20130207_out/job_done" := File "job done."]>
                sample_fs);
     stdout := []; popen_calls := O; history := [] |}.

Definition sample_dates : list date_pair :=
  [("20130203", "20130204"); ("20130205", "20130206"); ("20130207", "20130207")].

Definition sample_args : list string :=
  ["python"; "-u"; "/fx/Source/Python/submit.py"; "--controlfile";
   "/fx/Run/Control/CTRL_EI_0"; "--inputdir"; "/out/EI_0_20130203-20130204_tmp";
   "--outputdir"; "/out/EI_0_20130203-20130204_out"].

Definition sample_job_dates : string * string * string :=
  ("0", "20130203", "20130204").

Definition sample_str_job_dates (j : string * string * string) : string :=
  "('" +:+ j.1.1 +:+ "', '" +:+ j.1.2 +:+ "', '" +:+ j.2 +:+ "')".

Definition sample_str_timeout_expired (cmd : list string) (t : Z) : string :=
  "Command timed out after " +:+ Py.str t +:+ " seconds".

(** Processes that create the output directory; how they end is given. *)
Definition sample_procs (e : proc_end) (n : nat) : behaviour :=
  {| ending := e;
     effect := fun f => <["/out/EI_0_20130203-20130204_out" := Dir]> f |}.

(** ** Vocabulary of the further properties *)


(** The events of a run of the runner: launches of the job's command,
    kills of launched processes that overran a finite timeout, and
    marker writes. *)
Definition runner_event (procs : nat -> behaviour) (args : list string)
    (logfilename : string) (timeout : option Z) (lo hi : nat)
    (new : list event) (e : event) : Prop :=
  match e with
  | Launched pid cmd log =>
      cmd = args /\ log = logfilename /\ (lo <= pid < hi)%nat
  | Killed pid =>
      ending (procs pid) = Overruns /\ timeout <> None
      /\ Launched pid args logfilename ∈ new
  | Written p content =>
      exists d, p = Py.path_join d "job_done" /\ content = "job done."
  end.

(** Processes that create the output directory; the first two overrun
    the timeout, the later ones exit with code 0. *)
Definition sample_flaky_procs (n : nat) : behaviour :=
  {| ending := if (n <? 2)%nat then Overruns else Exits 0;
     effect := fun f => <["/out/EI_0_20130203-20130204_out" := Dir]> f |}.

(** The option names of the command line of a job. *)
Definition job_flags : list string :=
  ["--controlfile"; "--inputdir"; "--outputdir"].

(** The marker of the job at position [x.1] is absent from [f]. *)
Definition unmarked (date_list : list date_pair) (outputdir job_prefix : string)
    (f : gmap string node) (x : nat * date_pair) : bool :=
  negb (bool_decide (is_Some (f !! marker_path date_list outputdir job_prefix x.1 x.2))).

(** The lines [printJobSummary] prints for one job. *)
Definition summary_lines (j : job) (ctrlii inputii outii : string)
    : list string :=
  [Py.nl +:+ "#### Summary of job #" +:+ (job_dates j).1.1 +:+ ":";
   "Time period: " +:+ (job_dates j).1.2 +:+ " - " +:+ (job_dates j).2;
   "CONTROL file: " +:+ ctrlii;
   "Log file: " +:+ logfile j;
   "inputdir: " +:+ inputii;
   "outputdir: " +:+ outii;
   "Time-out (seconds): " +:+ str_timeout (timeout j);
   "Time-out retries: " +:+ Py.str (retry j)].

(** Where [checkExeFile] looks for [submit.py]. *)
Definition exe_path (abspath : string -> string) (flex_extract_folder : string)
    : string :=
  abspath (Py.path_join flex_extract_folder "Source/Python/submit.py").

(** Where [checkControlFile] looks for the base CONTROL file. *)
Definition base_control_path (flex_extract_folder control_file : string)
    : string :=
  Py.path_join (Py.path_join flex_extract_folder "Run/Control") control_file.









(** * Proofs *)

#[local] Arguments String.append !_ _ / : simpl nomatch.

Ltac unfold_m :=
  unfold bind, print, Popen, wait, kill, log_event, write_file, path_exists,
    run_effect, lift, pure, raise.

(** ** Strings and decimal numerals *)

Lemma append_assoc (a b c : string) : a +:+ (b +:+ c) = (a +:+ b) +:+ c.
Proof. induction a as [|x a IH]; simpl; [reflexivity|]. rewrite IH. reflexivity. Qed.

Lemma length_append (a b : string) :
  String.length (a +:+ b) = (String.length a + String.length b)%nat.
Proof. induction a as [|x a IH]; simpl; [reflexivity|]. rewrite IH. reflexivity. Qed.

Lemma length_replicate_char n c : String.length (Py.replicate_char n c) = n.
Proof. induction n as [|n IH]; simpl; [reflexivity|]. rewrite IH. reflexivity. Qed.

Lemma replicate_char_add a b c :
  Py.replicate_char (a + b) c = Py.replicate_char a c +:+ Py.replicate_char b c.
Proof. induction a as [|a IH]; simpl; [reflexivity|]. rewrite IH. reflexivity. Qed.

Lemma pretty_N_char_nonzero x :
  (0 < x < 10)%N -> pretty_N_char x <> Py.zero.
Proof.
  intros H.
  assert (x = 1 \/ x = 2 \/ x = 3 \/ x = 4 \/ x = 5 \/ x = 6 \/ x = 7
          \/ x = 8 \/ x = 9)%N as Hc by lia.
  repeat (destruct Hc as [->|Hc]; [discriminate|]). subst. discriminate.
Qed.

Lemma pretty_N_go_first x : forall s,
  (0 < x)%N ->
  exists c r, pretty_N_go x s = String c r /\ c <> Py.zero.
Proof.
  induction (N.lt_wf_0 x) as [x _ IH]; intros s Hx.
  rewrite pretty_N_go_step by exact Hx.
  destruct (N.eq_dec (x `div` 10)%N 0%N) as [Hz|Hnz].
  - rewrite Hz, pretty_N_go_0. do 2 eexists. split; [reflexivity|].
    assert (x < 10)%N by (apply N.div_small_iff in Hz; lia).
    rewrite N.mod_small by assumption. apply pretty_N_char_nonzero. lia.
  - apply IH; [|apply N.neq_0_lt_0; exact Hnz]. apply N.div_lt; lia.
Qed.

Lemma pretty_N_go_length_ge x : forall s,
  (String.length s <= String.length (pretty_N_go x s))%nat.
Proof.
  induction (N.lt_wf_0 x) as [x _ IH]; intros s.
  destruct (N.eq_dec x 0%N) as [->|Hx]; [rewrite pretty_N_go_0; lia|].
  rewrite pretty_N_go_step by lia.
  etransitivity; [|apply IH; apply N.div_lt; lia]. simpl. lia.
Qed.

Lemma pretty_N_go_length_le x : forall y s s',
  (x <= y)%N -> String.length s = String.length s' ->
  (String.length (pretty_N_go x s) <= String.length (pretty_N_go y s'))%nat.
Proof.
  induction (N.lt_wf_0 x) as [x _ IH]; intros y s s' Hxy Hlen.
  destruct (N.eq_dec x 0%N) as [->|Hx].
  - rewrite pretty_N_go_0, Hlen. apply pretty_N_go_length_ge.
  - rewrite (pretty_N_go_step x) by lia. rewrite (pretty_N_go_step y) by lia.
    apply IH.
    + apply N.div_lt; lia.
    + apply N.Div0.div_le_mono. exact Hxy.
    + simpl. lia.
Qed.

Lemma str_of_nat (n : nat) : Py.str (Z.of_nat n) = pretty (N.of_nat n).
Proof. unfold Py.str. destruct n; reflexivity. Qed.

Lemma str_nat_length_mono (i n : nat) :
  (i <= n)%nat ->
  (1 <= String.length (Py.str (Z.of_nat i))
   <= String.length (Py.str (Z.of_nat n)))%nat.
Proof.
  intros Hin. rewrite !str_of_nat. unfold pretty, pretty_N.
  destruct (decide (N.of_nat i = 0)%N) as [Hi|Hi];
    destruct (decide (N.of_nat n = 0)%N) as [Hn|Hn]; simpl.
  - lia.
  - split; [lia|].
    destruct (pretty_N_go_first (N.of_nat n) "" ltac:(lia)) as (c & r & -> & _).
    simpl. lia.
  - lia.
  - destruct (pretty_N_go_first (N.of_nat i) "" ltac:(lia)) as (c & r & Hc & _).
    split; [rewrite Hc; simpl; lia|].
    apply (pretty_N_go_length_le (N.of_nat i) (N.of_nat n) "" ""); [lia|reflexivity].
Qed.

Lemma str_nat_first (i : nat) :
  first_char (Py.str (Z.of_nat i)) = Some Py.zero -> i = O.
Proof.
  rewrite str_of_nat. unfold pretty, pretty_N.
  destruct (decide (N.of_nat i = 0)%N) as [Hi|Hi]; [lia|].
  destruct (pretty_N_go_first (N.of_nat i) "" ltac:(lia)) as (c & r & -> & Hc).
  simpl. congruence.
Qed.

Lemma str_nat_inj (i j : nat) :
  Py.str (Z.of_nat i) = Py.str (Z.of_nat j) -> i = j.
Proof.
  rewrite !str_of_nat. intros H. apply (inj pretty) in H. lia.
Qed.

Lemma rjust_inj (i j : nat) (w : nat) :
  (String.length (Py.str (Z.of_nat i)) <= w)%nat ->
  (String.length (Py.str (Z.of_nat j)) <= w)%nat ->
  Py.rjust (Py.str (Z.of_nat i)) w Py.zero
  = Py.rjust (Py.str (Z.of_nat j)) w Py.zero ->
  i = j.
Proof.
  assert (Hwlog : forall i j : nat,
    (String.length (Py.str (Z.of_nat i)) <= String.length (Py.str (Z.of_nat j)))%nat ->
    (String.length (Py.str (Z.of_nat j)) <= w)%nat ->
    Py.rjust (Py.str (Z.of_nat i)) w Py.zero
    = Py.rjust (Py.str (Z.of_nat j)) w Py.zero ->
    i = j).
  { clear i j. intros i j Hij Hj. unfold Py.rjust.
    set (si := Py.str (Z.of_nat i)). set (sj := Py.str (Z.of_nat j)).
    fold si sj in Hij, Hj.
    replace (w - String.length si)%nat
      with ((w - String.length sj) + (String.length sj - String.length si))%nat
      by lia.
    rewrite replicate_char_add, <- append_assoc. intros H.
    apply (inj (String.append _)) in H.
    destruct (String.length sj - String.length si)%nat as [|d] eqn:Hd.
    - simpl in H. apply str_nat_inj. exact H.
    - exfalso. assert (j = O).
      { apply str_nat_first. fold sj. rewrite <- H. reflexivity. }
      subst j. pose proof (str_nat_length_mono i i ltac:(lia)) as [Hl _].
      fold si in Hl. unfold sj in Hd. simpl in Hd. lia. }
  intros Hi Hj H.
  destruct (Nat.le_ge_cases (String.length (Py.str (Z.of_nat i)))
              (String.length (Py.str (Z.of_nat j)))).
  - apply Hwlog; assumption.
  - symmetry. apply Hwlog; auto.
Qed.

(** *** Paths *)

Lemma append_nil_r (a : string) : a +:+ "" = a.
Proof. induction a as [|x a IH]; simpl; [reflexivity|]. rewrite IH. reflexivity. Qed.

Lemma append_longer (a b : string) : a +:+ b = a -> b = "".
Proof.
  intros H. apply (f_equal String.length) in H. rewrite length_append in H.
  destruct b; [reflexivity|simpl in H; lia].
Qed.

Lemma starts_with_char_app x b c :
  x <> "" -> Py.starts_with_char (x +:+ b) c = Py.starts_with_char x c.
Proof. destruct x; [contradiction|reflexivity]. Qed.

Lemma path_join_cases a b :
  exists pre, forall b', Py.starts_with_char b' Py.slash = Py.starts_with_char b Py.slash ->
    Py.path_join a b' = pre +:+ b'.
Proof.
  unfold Py.path_join. destruct (Py.starts_with_char b Py.slash) eqn:Hb.
  - exists "". intros b' ->. reflexivity.
  - destruct ((String.length a =? 0)%nat || Py.ends_with_char a Py.slash).
    + exists a. intros b' ->. reflexivity.
    + exists (a +:+ "/"). intros b' ->. rewrite <- append_assoc. reflexivity.
Qed.

Lemma path_join_suffix_inj a x b1 b2 :
  x <> "" -> Py.path_join a (x +:+ b1) = Py.path_join a (x +:+ b2) -> b1 = b2.
Proof.
  intros Hx. destruct (path_join_cases a (x +:+ b1)) as [pre Hpre].
  rewrite (Hpre (x +:+ b1)) by reflexivity.
  rewrite (Hpre (x +:+ b2)) by (rewrite !starts_with_char_app by exact Hx; reflexivity).
  intros H. apply (inj (String.append pre)) in H.
  apply (inj (String.append x)) in H. exact H.
Qed.

Lemma cut_last_slash_spec p h t :
  Py.cut_last_slash p = (h, t) ->
  p = h +:+ t
  /\ Py.starts_with_char t Py.slash = false
  /\ (h = "" \/ Py.ends_with_char h Py.slash = true).
Proof.
  revert h t. induction p as [|c p IH]; simpl; intros h t H.
  - injection H as <- <-. auto.
  - destruct (Py.cut_last_slash p) as [h' t'].
    destruct (IH h' t' eq_refl) as (-> & Ht & Hh).
    destruct h' as [|c' h'].
    + destruct (ascii_dec c Py.slash) as [->|Hc]; injection H as <- <-.
      * simpl. auto.
      * simpl. destruct (ascii_dec c Py.slash); [contradiction|]. auto.
    + injection H as <- <-. split; [reflexivity|]. split; [exact Ht|].
      right. destruct Hh as [?|Hh]; [discriminate|]. exact Hh.
Qed.

Lemma rstrip_slash_spec h :
  exists k, h = Py.rstrip_slash h +:+ Py.replicate_char k Py.slash
            /\ Py.ends_with_char (Py.rstrip_slash h) Py.slash = false.
Proof.
  induction h as [|c h (k & IH & He)]; simpl.
  - exists O. auto.
  - destruct (Py.rstrip_slash h) as [|c' r] eqn:Hr.
    + destruct (ascii_dec c Py.slash) as [->|Hc].
      * exists (S k). simpl in *. rewrite IH at 1. auto.
      * exists k. simpl in *. rewrite IH at 1.
        destruct (ascii_dec c Py.slash); [contradiction|]. auto.
    + exists k. rewrite IH at 1. split; [reflexivity|]. exact He.
Qed.

Lemma rstrip_slash_nonempty h :
  Py.all_slashes h = false -> Py.rstrip_slash h <> "".
Proof.
  induction h as [|c h IH]; simpl; [discriminate|].
  destruct (ascii_dec c Py.slash) as [->|Hc]; simpl.
  - intros H. destruct (Py.rstrip_slash h); [exfalso; apply (IH H); reflexivity|discriminate].
  - intros _. destruct (Py.rstrip_slash h); discriminate.
Qed.

Lemma path_join_plain a b :
  Py.starts_with_char b Py.slash = false ->
  a <> "" -> Py.ends_with_char a Py.slash = false ->
  Py.path_join a b = a +:+ "/" +:+ b.
Proof.
  intros Hb Ha He. unfold Py.path_join. rewrite Hb, He.
  destruct a; [contradiction|reflexivity].
Qed.

Lemma path_join_bare a b :
  Py.starts_with_char b Py.slash = false ->
  a = "" \/ Py.ends_with_char a Py.slash = true ->
  Py.path_join a b = a +:+ b.
Proof.
  intros Hb Ha. unfold Py.path_join. rewrite Hb.
  destruct Ha as [-> | ->]; [reflexivity|]. rewrite orb_true_r. reflexivity.
Qed.

(** A file put next to [p] under a longer name is not [p]. *)
Lemma sibling_differs p x :
  x <> "" -> Py.starts_with_char x Py.slash = false ->
  let '(folder, fname) := Py.path_split p in
  Py.path_join folder (fname +:+ x) <> p.
Proof.
  intros Hx Hxs. unfold Py.path_split.
  destruct (Py.cut_last_slash p) as [h t] eqn:Hcut.
  destruct (cut_last_slash_spec _ _ _ Hcut) as (Hp & Ht & Hh).
  assert (Hb : Py.starts_with_char (t +:+ x) Py.slash = false).
  { destruct t; [exact Hxs|exact Ht]. }
  destruct (negb (String.length h =? 0)%nat && negb (Py.all_slashes h)) eqn:Hc.
  - apply andb_prop in Hc as [Hne Hns].
    apply negb_true_iff in Hns.
    destruct (rstrip_slash_spec h) as (k & Hk & He).
    pose proof (rstrip_slash_nonempty h Hns) as Hr.
    rewrite path_join_plain by assumption.
    rewrite Hp. rewrite Hk at 2. rewrite <- !append_assoc.
    intros H. apply (inj (String.append _)) in H.
    destruct k as [|k].
    + destruct Hh as [->|Hh]; [discriminate|].
      rewrite Hk, append_nil_r in Hh. congruence.
    + simpl in H. injection H as H.
      destruct k as [|k]; simpl in H.
      * apply append_longer in H. contradiction.
      * rewrite H in Hb. simpl in Hb.
        destruct (ascii_dec Py.slash Py.slash); [discriminate|contradiction].
  - assert (Hh' : h = "" \/ Py.ends_with_char h Py.slash = true) by exact Hh.
    rewrite path_join_bare by assumption.
    rewrite Hp. intros H. apply (inj (String.append _)) in H.
    apply append_longer in H. contradiction.
Qed.

(** ** The partitioner *)











(** ** The runner *)

Section Runner.
Variable procs : nat -> behaviour.
Variable str_job_dates : string * string * string -> string.
Variable str_timeout_expired : list string -> Z -> string.
Variables (args : list string) (job_dates : string * string * string)
  (logfilename : string).

Local Notation loop := (launchJob_loop procs str_job_dates str_timeout_expired).
Local Notation run := (launchJob procs str_job_dates str_timeout_expired).
Local Notation attempt := (attempt_events args logfilename).
Local Notation marker_spec := (marker_written_iff procs args logfilename).

Lemma loop_all_timeouts fuel : forall t retry tried ret w,
  (forall n, (popen_calls w <= n)%nat -> ending (procs n) = Overruns) ->
  tried <= retry + 1 ->
  (Z.to_nat (retry - tried + 2) <= fuel)%nat ->
  exists w',
    loop fuel args job_dates logfilename (Some t) retry tried ret w = (Val ret, w')
    /\ popen_calls w' = (popen_calls w + Z.to_nat (retry - tried + 1))%nat
    /\ history w'
       = (history w
          ++ flat_map attempt (seq (popen_calls w) (Z.to_nat (retry - tried + 1))))%list.
Proof.
  induction fuel as [|fuel IH]; intros t retry tried ret w Hall Htr Hfuel; [lia|].
  simpl. destruct (Z.leb_spec tried retry) as [Hgo|Hstop].
  - unfold_m. rewrite (Hall (popen_calls w)) by lia. simpl.
    rewrite (Hall (popen_calls w)) by lia. simpl.
    match goal with
    | |- context [launchJob_loop _ _ _ fuel _ _ _ _ _ _ _ ?w1] =>
        destruct (IH t retry (tried + 1) ret w1) as (w' & Hrun & Hpc & Hh)
    end.
    + simpl. intros n Hn. apply Hall. lia.
    + lia.
    + lia.
    + exists w'. split; [exact Hrun|]. simpl in Hpc, Hh. split.
      * rewrite Hpc. lia.
      * rewrite Hh.
        replace (Z.to_nat (retry - tried + 1))
          with (S (Z.to_nat (retry - (tried + 1) + 1))) by lia.
        simpl. rewrite <- !app_assoc. reflexivity.
  - exists w. unfold pure. replace (Z.to_nat (retry - tried + 1)) with O by lia.
    simpl. rewrite app_nil_r. split; [reflexivity|]. split; [lia|reflexivity].
Qed.

Lemma launchJob_all_timeouts t retry w :
  0 <= retry ->
  (forall n, (popen_calls w <= n)%nat -> ending (procs n) = Overruns) ->
  exists w',
    run args job_dates logfilename (Some t) retry w = (Val 1, w')
    /\ Z.of_nat (popen_calls w') = Z.of_nat (popen_calls w) + retry + 1
    /\ history w'
       = (history w ++ Written logfilename ""
            :: flat_map attempt (seq (popen_calls w) (Z.to_nat (retry + 1))))%list.
Proof.
  intros Hr Hall. unfold launchJob. unfold bind at 1. unfold write_file at 1.
  match goal with
  | |- context [launchJob_loop _ _ _ ?f _ _ _ _ _ _ _ ?w1] =>
      destruct (loop_all_timeouts f t retry 0 1 w1) as (w' & Hrun & Hpc & Hh)
  end.
  - exact Hall.
  - lia.
  - lia.
  - exists w'. split; [exact Hrun|]. simpl in Hpc, Hh. split.
    + rewrite Hpc. lia.
    + rewrite Hh. rewrite <- app_assoc.
      replace (retry - 0 + 1) with (retry + 1) by lia. reflexivity.
Qed.

(** What a single step of the loop does, by the way the process ends. *)
Lemma launchJob_nonzero_exit timeout retry w c :
  0 <= retry -> ending (procs (popen_calls w)) = Exits c -> c <> 0 ->
  exists w',
    run args job_dates logfilename timeout retry w = (Val c, w')
    /\ popen_calls w' = S (popen_calls w)
    /\ history w'
       = (history w ++ [Written logfilename "";
                        Launched (popen_calls w) args logfilename])%list
    /\ fs w' = effect (procs (popen_calls w)) (<[logfilename := File ""]> (fs w)).
Proof.
  intros Hr He Hc. unfold launchJob.
  unfold bind at 1. unfold write_file at 1. simpl.
  destruct (Z.leb_spec 0 retry); [|lia].
  unfold_m. simpl. rewrite He. simpl. rewrite He.
  destruct (Z.eqb_spec c 0); [contradiction|]. simpl.
  eexists. split; [reflexivity|]. simpl. rewrite <- app_assoc. auto.
Qed.

Lemma launchJob_wait_failure timeout retry w msg :
  0 <= retry -> ending (procs (popen_calls w)) = WaitFails msg ->
  exists w',
    run args job_dates logfilename timeout retry w = (Val 1, w')
    /\ popen_calls w' = S (popen_calls w)
    /\ history w'
       = (history w ++ [Written logfilename "";
                        Launched (popen_calls w) args logfilename])%list.
Proof.
  intros Hr He. unfold launchJob.
  unfold bind at 1. unfold write_file at 1. simpl.
  destruct (Z.leb_spec 0 retry); [|lia].
  unfold_m. simpl. rewrite He. simpl. rewrite He. simpl.
  eexists. split; [reflexivity|]. simpl. rewrite <- app_assoc. auto.
Qed.

Lemma loop_marker fuel : forall timeout retry tried ret w r w' i d,
  Py.index args "--outputdir" = Val i ->
  Py.item args (i + 1) = Val d ->
  loop fuel args job_dates logfilename timeout retry tried ret w = (r, w') ->
  exists new, history w' = (history w ++ new)%list /\ marker_spec d new r w'.
Proof.
  induction fuel as [|fuel IH]; intros timeout retry tried ret w r w' i d Hi Hd Hrun.
  { simpl in Hrun. injection Hrun as <- <-. exists []. rewrite app_nil_r.
    split; [reflexivity|]. split; [split|]; [inversion 1| |inversion 1].
    intros (pid & Hin & _). inversion Hin. }
  simpl in Hrun. destruct (Z.leb_spec tried retry) as [Hgo|Hstop].
  2:{ injection Hrun as <- <-. exists []. rewrite app_nil_r.
      split; [reflexivity|]. split; [split|]; [inversion 1| |inversion 1].
      intros (pid & Hin & _). inversion Hin. }
  revert Hrun. unfold_m. simpl.
  destruct (ending (procs (popen_calls w))) as [| |msg|c] eqn:He; simpl.
  - (* the launch fails *)
    intros [= <- <-]. exists []. simpl. rewrite app_nil_r.
    split; [reflexivity|]. split; [split|]; [inversion 1| |inversion 1].
    intros (pid & Hin & _). inversion Hin.
  - (* the process overruns *)
    rewrite He. destruct timeout as [t|]; simpl.
    + intros Hrun. apply (IH _ _ _ _ _ _ _ i d Hi Hd) in Hrun.
      destruct Hrun as (new & Hh & [Hiff Hw]). simpl in Hh.
      exists (attempt (popen_calls w) ++ new)%list. split.
      { rewrite Hh. unfold attempt_events. rewrite <- !app_assoc. reflexivity. }
      split.
      * rewrite elem_of_app. split.
        -- intros [Hin|Hin].
           { unfold attempt_events, marker_of in Hin.
             apply elem_of_cons in Hin as [?|Hin]; [discriminate|].
             apply elem_of_cons in Hin as [?|Hin]; [discriminate|inversion Hin]. }
           apply Hiff in Hin as (pid & Hin & Hex). exists pid.
           split; [apply elem_of_app; right; exact Hin|exact Hex].
        -- intros (pid & Hin & Hex & Hsome). right. apply Hiff.
           exists pid. split; [|auto].
           apply elem_of_app in Hin as [Hin|Hin]; [|exact Hin].
           unfold attempt_events in Hin.
           apply elem_of_cons in Hin as [Heq|Hin];
             [injection Heq as ->; congruence|].
           apply elem_of_cons in Hin as [?|Hin]; [discriminate|inversion Hin].
      * rewrite elem_of_app. intros [Hin|Hin]; [|auto].
        unfold attempt_events, marker_of in Hin.
        apply elem_of_cons in Hin as [?|Hin]; [discriminate|].
        apply elem_of_cons in Hin as [?|Hin]; [discriminate|inversion Hin].
    + intros [= <- <-]. simpl.
      exists [Launched (popen_calls w) args logfilename].
      split; [reflexivity|]. split; [split|].
      * intros Hin. apply list_elem_of_singleton in Hin. discriminate.
      * intros (pid & Hin & Hex & _).
        apply list_elem_of_singleton in Hin. injection Hin as ->. congruence.
      * intros Hin. apply list_elem_of_singleton in Hin. discriminate.
  - (* the wait fails *)
    rewrite He. simpl. intros [= <- <-]. simpl.
    exists [Launched (popen_calls w) args logfilename].
    split; [reflexivity|]. split; [split|].
    * intros Hin. apply list_elem_of_singleton in Hin. discriminate.
    * intros (pid & Hin & Hex & _).
      apply list_elem_of_singleton in Hin. injection Hin as ->. congruence.
    * intros Hin. apply list_elem_of_singleton in Hin. discriminate.
  - (* the process exits *)
    rewrite He. simpl. destruct (Z.eqb_spec c 0) as [->|Hc].
    + rewrite Hi. simpl. rewrite Hd. simpl.
      destruct (bool_decide _) eqn:Hfound; simpl.
      * intros [= <- <-]. simpl.
        exists [Launched (popen_calls w) args logfilename; marker_of d].
        split; [rewrite <- app_assoc; reflexivity|].
        apply bool_decide_eq_true in Hfound.
        split; [split|].
        -- intros _. exists (popen_calls w). split; [left|]. split; [exact He|].
           simpl. rewrite lookup_insert. case_decide; [eauto|exact Hfound].
        -- intros _. right. left.
        -- intros _. split; [reflexivity|]. apply lookup_insert_eq.
      * intros [= <- <-]. simpl.
        apply bool_decide_eq_false in Hfound.
        exists [Launched (popen_calls w) args logfilename].
        split; [reflexivity|]. split; [split|].
        -- intros Hin. apply list_elem_of_singleton in Hin. discriminate.
        -- intros (pid & _ & _ & Hsome). contradiction.
        -- intros Hin. apply list_elem_of_singleton in Hin. discriminate.
    + intros [= <- <-]. simpl.
      exists [Launched (popen_calls w) args logfilename].
      split; [reflexivity|]. split; [split|].
      * intros Hin. apply list_elem_of_singleton in Hin. discriminate.
      * intros (pid & Hin & Hex & _).
        apply list_elem_of_singleton in Hin. injection Hin as ->.
        rewrite He in Hex. injection Hex as ->. contradiction.
      * intros Hin. apply list_elem_of_singleton in Hin. discriminate.
Qed.

Lemma launchJob_marker timeout retry w r w' i d :
  Py.index args "--outputdir" = Val i ->
  Py.item args (i + 1) = Val d ->
  run args job_dates logfilename timeout retry w = (r, w') ->
  exists new, history w' = (history w ++ new)%list /\ marker_spec d new r w'.
Proof.
  intros Hi Hd. unfold launchJob. unfold bind at 1, write_file at 1.
  intros Hrun. apply (loop_marker _ _ _ _ _ _ _ _ i d Hi Hd) in Hrun.
  destruct Hrun as (new & Hh & [Hiff Hw]). simpl in Hh.
  exists (Written logfilename "" :: new). split.
  { rewrite Hh. rewrite <- app_assoc. reflexivity. }
  split.
  - rewrite elem_of_cons. split.
    + intros [?|Hin]; [discriminate|]. apply Hiff in Hin as (pid & Hin & Hex).
      exists pid. split; [right; exact Hin|exact Hex].
    + intros (pid & Hin & Hex). right. apply Hiff. exists pid.
      split; [|exact Hex]. apply elem_of_cons in Hin as [?|Hin]; [discriminate|exact Hin].
  - rewrite elem_of_cons. intros [?|Hin]; [discriminate|auto].
Qed.

End Runner.

(** ** The CONTROL-file rewriter *)

Lemma has_newline_app a b :
  has_newline (a +:+ b) = has_newline a || has_newline b.
Proof.
  induction a as [|c a IH]; simpl; [reflexivity|].
  rewrite IH. destruct (ascii_dec c Py.newline); reflexivity.
Qed.

Lemma lines_plain x : has_newline x = false -> Re.lines x = (x, []).
Proof.
  induction x as [|c x IH]; simpl; [reflexivity|].
  destruct (ascii_dec c Py.newline); [discriminate|]. simpl.
  intros H. rewrite IH by exact H. reflexivity.
Qed.

Lemma lines_app_newline x s :
  has_newline x = false ->
  Re.lines (x +:+ String Py.newline s) = (x, line_list s).
Proof.
  unfold line_list. induction x as [|c x IH]; simpl.
  - intros _. destruct (Re.lines s) as [l ls].
    destruct (ascii_dec Py.newline Py.newline); [reflexivity|contradiction].
  - destruct (ascii_dec c Py.newline); [discriminate|]. simpl. intros H.
    rewrite IH by exact H. destruct (Re.lines s). reflexivity.
Qed.

Lemma lines_no_newline s : Forall (fun x => has_newline x = false) (line_list s).
Proof.
  unfold line_list. induction s as [|c s IH]; simpl.
  - repeat constructor.
  - destruct (Re.lines s) as [l ls]. inversion IH as [|? ? Hl Hls]; subst.
    destruct (ascii_dec c Py.newline) as [->|Hc].
    + constructor; [reflexivity|]. constructor; assumption.
    + constructor; [|assumption]. simpl.
      destruct (ascii_dec c Py.newline); [contradiction|]. exact Hl.
Qed.

Lemma lines_unlines ls : forall l,
  has_newline l = false -> Forall (fun x => has_newline x = false) ls ->
  Re.lines (Re.unlines l ls) = (l, ls).
Proof.
  induction ls as [|l' ls IH]; intros l Hl Hls; simpl.
  - apply lines_plain. exact Hl.
  - inversion Hls; subst. rewrite lines_app_newline by exact Hl.
    unfold line_list. rewrite IH by assumption. reflexivity.
Qed.

(** The three scanners return a suffix of their input. *)
Lemma strip_prefix_app p : forall s r,
  Re.strip_prefix p s = Some r -> s = p +:+ r.
Proof.
  induction p as [|a p IH]; simpl; intros s r H.
  - congruence.
  - destruct s as [|b s]; [discriminate|].
    destruct (ascii_dec a b) as [->|]; [|discriminate].
    simpl. f_equal. apply IH. exact H.
Qed.

Lemma strip_prefix_complete p r : Re.strip_prefix p (p +:+ r) = Some r.
Proof.
  induction p as [|a p IH]; simpl; [reflexivity|].
  destruct (ascii_dec a a); [exact IH|contradiction].
Qed.

Lemma skip_spaces_app s :
  exists k, s = Py.replicate_char k Py.space +:+ Re.skip_spaces s.
Proof.
  induction s as [|c s [k IH]]; simpl.
  - exists O. reflexivity.
  - destruct (ascii_dec c Py.space) as [->|].
    + exists (S k). simpl. f_equal. exact IH.
    + exists O. reflexivity.
Qed.

Lemma take_digits_app n : forall s r,
  Re.take_digits n s = Some r ->
  exists d, s = d +:+ r /\ String.length d = n /\ Re.take_digits n d = Some "".
Proof.
  induction n as [|n IH]; simpl; intros s r H.
  - exists "". injection H as ->. auto.
  - destruct s as [|c s]; [discriminate|].
    destruct (Py.is_digit c) eqn:Hc; [|discriminate].
    destruct (IH s r H) as (d & -> & Hlen & Hd).
    exists (String c d). simpl. rewrite Hc. auto.
Qed.

Lemma take_digits_complete n : forall d r,
  Re.take_digits n d = Some "" -> Re.take_digits n (d +:+ r) = Some r.
Proof.
  induction n as [|n IH]; simpl; intros d r H.
  - injection H as ->. reflexivity.
  - destruct d as [|c d]; [discriminate|]. simpl.
    destruct (Py.is_digit c); [|discriminate]. apply IH. exact H.
Qed.

Lemma take_digits_no_newline n : forall d,
  Re.take_digits n d = Some "" -> has_newline d = false.
Proof.
  induction n as [|n IH]; simpl; intros d H.
  - injection H as ->. reflexivity.
  - destruct d as [|c d]; [discriminate|].
    destruct (Py.is_digit c) eqn:Hc; [|discriminate]. simpl.
    rewrite (IH d H). destruct (ascii_dec c Py.newline) as [->|]; [discriminate|reflexivity].
Qed.

Lemma skip_spaces_replicate k s :
  Py.starts_with_char s Py.space = false ->
  Re.skip_spaces (Py.replicate_char k Py.space +:+ s) = s.
Proof.
  intros Hs. induction k as [|k IH]; simpl.
  - destruct s as [|c s]; [reflexivity|]. simpl in *.
    destruct (ascii_dec c Py.space); [discriminate|reflexivity].
  - exact IH.
Qed.

(** What it is for a line to assign a field: the field name, at least one
    space, eight digits, and whatever follows. *)
Lemma match_line_spec field line rest :
  Re.match_line field line = Some rest <->
  exists k d,
    line = field +:+ " " +:+ Py.replicate_char k Py.space +:+ d +:+ rest
    /\ is_date d.
Proof.
  unfold Re.match_line, is_date. split.
  - destruct (Re.strip_prefix field line) as [[|c r]|] eqn:Hp; try discriminate.
    destruct (ascii_dec c Py.space) as [->|]; [|discriminate].
    intros Hd. apply strip_prefix_app in Hp. subst line.
    destruct (skip_spaces_app r) as [k Hk].
    destruct (take_digits_app _ _ _ Hd) as (d & Hr & _ & Hdd).
    exists k, d. split; [|exact Hdd]. rewrite Hk, Hr. reflexivity.
  - intros (k & d & -> & Hd). rewrite strip_prefix_complete.
    cbn [String.append].
    destruct (ascii_dec _ _) as [_|Hn]; [|contradiction Hn; reflexivity].
    rewrite skip_spaces_replicate.
    + apply take_digits_complete. exact Hd.
    + destruct d as [|c d]; [discriminate|]. simpl in *.
      destruct (ascii_dec c Py.space) as [->|]; [discriminate|reflexivity].
Qed.

Lemma match_line_no_newline field line rest :
  Re.match_line field line = Some rest ->
  has_newline line = false -> has_newline rest = false.
Proof.
  intros H. apply match_line_spec in H as (k & d & -> & _).
  rewrite !has_newline_app. intros Hn.
  repeat (apply orb_false_elim in Hn as [_ Hn]). exact Hn.
Qed.

Lemma end_line_not_start line rest :
  Re.match_line "END_DATE" line = Some rest ->
  Re.match_line "START_DATE" line = None.
Proof.
  intros H. apply match_line_spec in H as (k & d & -> & _). reflexivity.
Qed.

Lemma new_end_line_not_start e rest :
  Re.match_line "START_DATE" ("END_DATE " +:+ e +:+ rest) = None.
Proof. reflexivity. Qed.

Lemma new_start_line_not_end s rest :
  Re.match_line "END_DATE" ("START_DATE " +:+ s +:+ rest) = None.
Proof. reflexivity. Qed.

Section Rewrite.
Variables start_date end_date : string.
Hypothesis Hs : is_date start_date.
Hypothesis He : is_date end_date.

Local Notation rS := ("START_DATE " +:+ start_date).
Local Notation rE := ("END_DATE " +:+ end_date).

Lemma sub_end_keeps_start line :
  Re.match_line "START_DATE" (Re.sub_line "END_DATE" rE line)
  = Re.match_line "START_DATE" line.
Proof.
  unfold Re.sub_line. destruct (Re.match_line "END_DATE" line) eqn:E; [|reflexivity].
  rewrite (end_line_not_start _ _ E). reflexivity.
Qed.

Lemma rewrite_both line :
  Re.sub_line "START_DATE" rS (Re.sub_line "END_DATE" rE line)
  = rewrite_line start_date end_date line.
Proof.
  unfold rewrite_line. unfold Re.sub_line at 2.
  destruct (Re.match_line "END_DATE" line) eqn:E.
  - reflexivity. 
  - unfold Re.sub_line. destruct (Re.match_line "START_DATE" line); [|reflexivity].
    reflexivity.
Qed.

Lemma rewrite_end_only line :
  Re.match_line "START_DATE" line = None ->
  Re.sub_line "END_DATE" rE line = rewrite_line start_date end_date line.
Proof.
  intros H. unfold rewrite_line, Re.sub_line. rewrite H.
  destruct (Re.match_line "END_DATE" line); [|reflexivity].
  reflexivity.
Qed.

Lemma rewrite_start_only line :
  Re.match_line "END_DATE" line = None ->
  Re.sub_line "START_DATE" rS line = rewrite_line start_date end_date line.
Proof.
  intros H. unfold rewrite_line, Re.sub_line. rewrite H.
  destruct (Re.match_line "START_DATE" line); [|reflexivity].
  reflexivity.
Qed.

Lemma rewrite_neither line :
  Re.match_line "END_DATE" line = None ->
  Re.match_line "START_DATE" line = None ->
  rewrite_line start_date end_date line = line.
Proof. intros H1 H2. unfold rewrite_line. rewrite H1, H2. reflexivity. Qed.

Lemma sub_line_no_newline field repl line :
  has_newline repl = false -> has_newline line = false ->
  has_newline (Re.sub_line field repl line) = false.
Proof.
  intros Hr Hl. unfold Re.sub_line.
  destruct (Re.match_line field line) eqn:E; [|exact Hl].
  rewrite has_newline_app, Hr. simpl.
  eapply match_line_no_newline; eauto.
Qed.

Lemma rS_no_newline : has_newline rS = false.
Proof.
  rewrite has_newline_app.
  rewrite (take_digits_no_newline _ _ Hs). reflexivity.
Qed.

Lemma rE_no_newline : has_newline rE = false.
Proof.
  rewrite has_newline_app.
  rewrite (take_digits_no_newline _ _ He). reflexivity.
Qed.

Lemma search_lines field s :
  Re.search field s = existsb (assigns field) (line_list s).
Proof. unfold Re.search, line_list. destruct (Re.lines s). reflexivity. Qed.

Lemma line_list_sub field repl s :
  has_newline repl = false ->
  line_list (Re.sub field repl s) = map (Re.sub_line field repl) (line_list s).
Proof.
  intros Hr. pose proof (lines_no_newline s) as Hn.
  unfold Re.sub, line_list in *. destruct (Re.lines s) as [l ls].
  inversion Hn as [|? ? Hl Hls]; subst.
  rewrite lines_unlines; [reflexivity| |].
  - apply sub_line_no_newline; assumption.
  - rewrite Forall_map. eapply Forall_impl; [exact Hls|].
    intros x Hx. apply sub_line_no_newline; assumption.
Qed.

Lemma line_list_prepend a b s :
  has_newline (a +:+ b) = false ->
  line_list (a +:+ b +:+ Py.nl +:+ s) = (a +:+ b) :: line_list s.
Proof.
  intros Hx. rewrite append_assoc. unfold line_list at 1. unfold Py.nl.
  change (String Py.newline "" +:+ s) with (String Py.newline s).
  rewrite lines_app_newline by exact Hx. reflexivity.
Qed.

Lemma search_prepend field a b s :
  has_newline (a +:+ b) = false ->
  Re.search field (a +:+ b +:+ Py.nl +:+ s)
  = assigns field (a +:+ b) || Re.search field s.
Proof.
  intros Hx. rewrite !search_lines, line_list_prepend by exact Hx.
  reflexivity.
Qed.

Lemma existsb_false_all field L :
  existsb (assigns field) L = false ->
  Forall (fun line => Re.match_line field line = None) L.
Proof.
  induction L as [|x L IH]; simpl; intros H; constructor.
  - apply orb_false_elim in H as [H _]. unfold assigns in H.
    apply bool_decide_eq_false in H.
    destruct (Re.match_line field x); [exfalso; apply H; eauto|reflexivity].
  - apply IH. apply orb_false_elim in H as [_ H]. exact H.
Qed.

Lemma existsb_sub_end L :
  existsb (assigns "START_DATE") (map (Re.sub_line "END_DATE" rE) L)
  = existsb (assigns "START_DATE") L.
Proof.
  induction L as [|x L IH]; cbn [existsb map]; [reflexivity|].
  rewrite IH. unfold assigns at 1 3. rewrite sub_end_keeps_start. reflexivity.
Qed.

Lemma new_end_line_unassigned :
  assigns "START_DATE" ("END_DATE " +:+ end_date) = false.
Proof. reflexivity. Qed.

Lemma replaceControlDates_lines ctrl_str w :
  exists out w',
    replaceControlDates ctrl_str start_date end_date w = (Val out, w')
    /\ line_list out
       = (inserted "START_DATE" start_date (line_list ctrl_str)
          ++ inserted "END_DATE" end_date (line_list ctrl_str)
          ++ map (rewrite_line start_date end_date) (line_list ctrl_str))%list
    /\ fs w' = fs w /\ history w' = history w /\ popen_calls w' = popen_calls w.
Proof.
  pose proof rS_no_newline as HrS. pose proof rE_no_newline as HrE.
  unfold replaceControlDates, inserted.
  rewrite <- !search_lines.
  destruct (Re.search "END_DATE" ctrl_str) eqn:SE.
  - unfold bind at 1. unfold pure at 1.
    rewrite search_lines, line_list_sub by exact HrE.
    rewrite existsb_sub_end. rewrite <- search_lines.
    destruct (Re.search "START_DATE" ctrl_str) eqn:SS.
    + unfold bind, pure. do 2 eexists. split; [reflexivity|].
      split; [|auto].
      rewrite line_list_sub by exact HrS. rewrite line_list_sub by exact HrE.
      rewrite map_map. apply map_ext. intros. apply rewrite_both.
    + unfold bind, pure, print. do 2 eexists. split; [reflexivity|].
      split; [|auto].
      rewrite line_list_prepend by exact HrS.
      rewrite line_list_sub by exact HrE. cbn [app]. f_equal.
      rewrite search_lines in SS. apply existsb_false_all in SS.
      apply map_ext_Forall. eapply Forall_impl; [exact SS|].
      intros x Hx. apply rewrite_end_only. exact Hx.
  - unfold bind at 1. unfold print at 1. unfold bind at 1. unfold pure at 1.
    rewrite search_prepend by exact HrE.
    rewrite new_end_line_unassigned. cbn [orb].
    destruct (Re.search "START_DATE" ctrl_str) eqn:SS.
    + unfold bind, pure. do 2 eexists. split; [reflexivity|].
      split; [|auto].
      rewrite line_list_sub by exact HrS.
      rewrite line_list_prepend by exact HrE. cbn [app map]. f_equal.
      rewrite search_lines in SE. apply existsb_false_all in SE.
      apply map_ext_Forall. eapply Forall_impl; [exact SE|].
      intros x Hx. apply rewrite_start_only. exact Hx.
    + unfold bind, pure, print. do 2 eexists. split; [reflexivity|].
      split; [|auto].
      rewrite line_list_prepend by exact HrS.
      rewrite line_list_prepend by exact HrE. cbn [app]. do 2 f_equal.
      rewrite search_lines in SE, SS.
      apply existsb_false_all in SE. apply existsb_false_all in SS.
      rewrite <- (map_id (line_list ctrl_str)) at 1.
      apply map_ext_Forall. rewrite Forall_forall in SE, SS.
      apply Forall_forall. intros x Hx. symmetry.
      apply rewrite_neither; [apply SE|apply SS]; exact Hx.
Qed.
End Rewrite.

(** ** The job builder *)

Lemma replaceControlDates_text ctrl_str start_date end_date w :
  exists w',
    replaceControlDates ctrl_str start_date end_date w
    = (Val (control_text ctrl_str start_date end_date), w')
    /\ fs w' = fs w /\ history w' = history w
    /\ popen_calls w' = popen_calls w
    /\ exists out, stdout w' = (stdout w ++ out)%list.
Proof.
  unfold replaceControlDates, control_text.
  destruct (Re.search "END_DATE" ctrl_str).
  - unfold bind at 1. unfold pure at 1.
    destruct (Re.search "START_DATE" _).
    + unfold bind, pure. eexists. split; [reflexivity|].
      repeat split. exists []. rewrite app_nil_r. reflexivity.
    + unfold bind, pure, print. eexists. split; [reflexivity|].
      repeat split. eexists. reflexivity.
  - unfold bind at 1. unfold print at 1. unfold bind at 1. unfold pure at 1.
    destruct (Re.search "START_DATE" _).
    + unfold bind, pure. eexists. split; [reflexivity|].
      repeat split. eexists. reflexivity.
    + unfold bind, pure, print. eexists. split; [reflexivity|].
      repeat split. simpl. eexists. rewrite <- app_assoc. reflexivity.
Qed.

Lemma candidates_range pos items p d :
  (p, d) ∈ candidates pos items -> (pos <= p < pos + List.length items)%nat.
Proof.
  unfold candidates. revert pos. induction items as [|x items IH]; intros pos H.
  - simpl in H. inversion H.
  - simpl in H. apply elem_of_cons in H as [[= -> ->]|H]; [simpl; lia|].
    apply IH in H. simpl. lia.
Qed.

Section Loop.

Variables (exe_file ctrl_file : string) (date_list : list date_pair)
  (outputdir : string) (time_out : option Z) (time_out_retry : Z)
  (job_prefix : string) (copy_control : bool).
Variables (ctrl_folder ctrl_fname ctrl_str : string).
Hypothesis Hsplit : Py.path_split ctrl_file = (ctrl_folder, ctrl_fname).

Local Notation loop :=
  (prepareJobList_loop exe_file ctrl_file date_list outputdir time_out
     time_out_retry job_prefix copy_control ctrl_folder ctrl_fname ctrl_str).
Local Notation job_of :=
  (fun x : nat * date_pair =>
     job_at exe_file ctrl_file date_list outputdir time_out time_out_retry
       job_prefix copy_control x.1 x.2).
Local Notation marker :=
  (fun x : nat * date_pair => marker_path date_list outputdir job_prefix x.1 x.2).
Local Notation put := (put_control ctrl_file date_list job_prefix copy_control ctrl_str).

Lemma control_path_copy pos :
  control_path ctrl_file date_list job_prefix true pos
  = job_control_file job_prefix ctrl_folder ctrl_fname (job_id date_list pos).
Proof. unfold control_path. rewrite Hsplit. reflexivity. Qed.

Lemma put_keeps f x p : is_Some (f !! p) -> is_Some ((put f x) !! p).
Proof.
  unfold put_control. destruct copy_control; [|auto].
  intros H. rewrite lookup_insert. case_decide; [eauto|exact H].
Qed.

Lemma prepareJobList_loop_spec items : forall pos acc w,
  exists K w' out,
    loop pos items acc w = (Val (acc ++ map job_of K)%list, w')
    /\ sublist K (candidates pos items)
    /\ fs w' = foldl put (fs w) K
    /\ history w'
       = (history w
          ++ control_events ctrl_file date_list job_prefix copy_control ctrl_str K)%list
    /\ popen_calls w' = popen_calls w
    /\ stdout w' = (stdout w ++ out)%list
    /\ (forall x, x ∈ candidates pos items -> is_Some (fs w !! marker x) ->
          (x ∉ K) /\ (skip_line date_list x.1 x.2 ∈ out)).
Proof.
  induction items as [|[t1 t2] items IH]; intros pos acc w.
  - exists [], w, []. simpl. unfold pure, control_events.
    rewrite !app_nil_r. repeat split; try reflexivity.
    + destruct copy_control; rewrite app_nil_r; reflexivity.
    + inversion H.
    + inversion H.
  - cbn [prepareJobList_loop]. unfold isSkip. unfold bind at 1. unfold path_exists at 1.
    destruct (bool_decide _) eqn:Hskip.
    + (* skipped *)
      unfold bind at 1. unfold print at 1.
      match goal with
      | |- context [prepareJobList_loop _ _ _ _ _ _ _ _ _ _ _ _ _ _ ?w1] =>
          destruct (IH (S pos) acc w1) as (K & w' & out & Hrun & Hsub & Hfs & Hh & Hpc & Hout & Hskipped)
      end.
      simpl in Hfs, Hh, Hpc, Hout, Hskipped.
      exists K, w'. eexists. split; [exact Hrun|].
      split; [apply sublist_cons; exact Hsub|].
      split; [exact Hfs|]. split; [exact Hh|]. split; [exact Hpc|].
      split; [rewrite Hout, <- app_assoc; reflexivity|].
      intros x Hx Hm. unfold candidates in Hx. simpl in Hx.
      apply elem_of_cons in Hx as [->|Hx].
      * split; [|left].
        intros Hin. apply (sublist_subseteq _ _ Hsub) in Hin.
        apply candidates_range in Hin. lia.
      * destruct (Hskipped x Hx Hm) as [Hn Hl]. split; [exact Hn|right; exact Hl].
    + (* added *)
      apply bool_decide_eq_false in Hskip.
      unfold bind at 1. unfold print at 1.
      destruct copy_control eqn:Hcopy.
      * unfold bind at 1. unfold bind at 1.
        match goal with
        | |- context [replaceControlDates ?c ?s ?e ?w1] =>
            destruct (replaceControlDates_text c s e w1)
              as (w1' & -> & Hfs1 & Hh1 & Hpc1 & out1 & Hout1)
        end.
        unfold bind at 1. unfold write_file at 1. unfold pure at 1.
        match goal with
        | |- context [prepareJobList_loop _ _ _ _ _ _ _ _ _ _ _ _ _ ?acc1 ?w1] =>
            destruct (IH (S pos) acc1 w1) as (K & w' & out & Hrun & Hsub & Hfs & Hh & Hpc & Hout & Hskipped)
        end.
        simpl in Hfs, Hh, Hpc, Hout, Hskipped, Hfs1, Hh1, Hpc1, Hout1.
        exists ((pos, (t1, t2)) :: K), w'. eexists.
        split.
        { rewrite Hrun. rewrite <- app_assoc. cbn [map app]. unfold job_at.
          rewrite control_path_copy. reflexivity. }
        split; [apply sublist_skip; exact Hsub|].
        split.
        { rewrite Hfs, Hfs1. cbn [foldl]. f_equal. unfold put_control.
          rewrite control_path_copy. reflexivity. }
        split.
        { rewrite Hh, Hh1. unfold control_events. cbn [map].
          rewrite control_path_copy. rewrite <- app_assoc. reflexivity. }
        split; [rewrite Hpc, Hpc1; reflexivity|].
        split; [rewrite Hout, Hout1, <- !app_assoc; reflexivity|].
        intros x Hx Hm. unfold candidates in Hx. simpl in Hx.
        apply elem_of_cons in Hx as [->|Hx]; [contradiction|].
        destruct (Hskipped x Hx) as [Hn Hl].
        { rewrite Hfs1. rewrite lookup_insert. case_decide; [eauto|exact Hm]. }
        split.
        -- intros Hin. apply elem_of_cons in Hin as [->|Hin]; [|contradiction].
           apply candidates_range in Hx. simpl in Hx. lia.
        -- rewrite !elem_of_app. tauto.
      * unfold bind at 1. unfold pure at 1.
        match goal with
        | |- context [prepareJobList_loop _ _ _ _ _ _ _ _ _ _ _ _ _ ?acc1 ?w1] =>
            destruct (IH (S pos) acc1 w1) as (K & w' & out & Hrun & Hsub & Hfs & Hh & Hpc & Hout & Hskipped)
        end.
        simpl in Hfs, Hh, Hpc, Hout, Hskipped.
        exists ((pos, (t1, t2)) :: K), w'. eexists.
        split.
        { rewrite Hrun. rewrite <- app_assoc. reflexivity. }
        split; [apply sublist_skip; exact Hsub|].
        split; [exact Hfs|]. split; [exact Hh|]. split; [exact Hpc|].
        split; [rewrite Hout, <- !app_assoc; reflexivity|].
        intros x Hx Hm. unfold candidates in Hx. simpl in Hx.
        apply elem_of_cons in Hx as [->|Hx]; [contradiction|].
        destruct (Hskipped x Hx Hm) as [Hn Hl].
        split.
        -- intros Hin. apply elem_of_cons in Hin as [->|Hin]; [|contradiction].
           apply candidates_range in Hx. simpl in Hx. lia.
        -- rewrite !elem_of_app. tauto.
Qed.

End Loop.

Lemma candidates_lookup items : forall pos p d,
  (p, d) ∈ candidates pos items <-> (pos <= p)%nat /\ items !! (p - pos)%nat = Some d.
Proof.
  unfold candidates. induction items as [|x items IH]; intros pos p d; simpl.
  - split; [inversion 1|]. intros [_ H]. discriminate.
  - rewrite elem_of_cons, IH. split.
    + intros [[= -> ->]|[Hle Hl]].
      * split; [lia|]. replace (pos - pos)%nat with O by lia. reflexivity.
      * split; [lia|]. replace (p - pos)%nat with (S (p - S pos)) by lia. exact Hl.
    + intros [Hle Hl]. destruct (decide (p = pos)) as [->|Hne].
      * left. replace (pos - pos)%nat with O in Hl by lia. simpl in Hl. congruence.
      * right. split; [lia|].
        replace (p - pos)%nat with (S (p - S pos)) in Hl by lia. exact Hl.
Qed.

Lemma candidates_NoDup_fst items : forall pos, NoDup (map fst (candidates pos items)).
Proof.
  unfold candidates. induction items as [|x items IH]; intros pos; simpl.
  - constructor.
  - constructor; [|apply IH].
    intros Hin. apply list_elem_of_fmap in Hin as ([p d] & Hp & Hin).
    simpl in Hp. subst p. apply candidates_range in Hin. lia.
Qed.

Lemma candidates_imap {B} (f : nat -> date_pair -> B) items : forall pos,
  map (fun x => f x.1 x.2) (candidates pos items) = imap (fun i => f (pos + i)%nat) items.
Proof.
  unfold candidates. induction items as [|x items IH]; intros pos; simpl.
  - reflexivity.
  - rewrite Nat.add_0_r. f_equal. rewrite IH. apply imap_ext.
    intros i y _. simpl. f_equal. lia.
Qed.

Section Ids.
Variable date_list : list date_pair.

Lemma job_id_inj p q :
  (p < List.length date_list)%nat -> (q < List.length date_list)%nat ->
  job_id date_list p = job_id date_list q -> p = q.
Proof.
  intros Hp Hq. unfold job_id. apply rjust_inj.
  - apply str_nat_length_mono. lia.
  - apply str_nat_length_mono. lia.
Qed.

Lemma control_path_inj ctrl_file job_prefix p q :
  (p < List.length date_list)%nat -> (q < List.length date_list)%nat ->
  control_path ctrl_file date_list job_prefix true p
  = control_path ctrl_file date_list job_prefix true q ->
  p = q.
Proof.
  intros Hp Hq. unfold control_path, job_control_file.
  destruct (Py.path_split ctrl_file) as [folder fname].
  rewrite !(append_assoc fname), !(append_assoc (fname +:+ "_")),
    !(append_assoc ((fname +:+ "_") +:+ job_prefix)).
  intros H. apply path_join_suffix_inj in H.
  - apply job_id_inj; assumption.
  - intros E. apply (f_equal String.length) in E.
    rewrite !length_append in E. simpl in E. lia.
Qed.

Lemma control_path_not_base ctrl_file job_prefix p :
  control_path ctrl_file date_list job_prefix true p <> ctrl_file.
Proof.
  unfold control_path, job_control_file.
  pose proof (sibling_differs ctrl_file
                ("_" +:+ job_prefix +:+ "_" +:+ job_id date_list p)) as H.
  destruct (Py.path_split ctrl_file) as [folder fname].
  apply H; [discriminate|reflexivity].
Qed.
End Ids.

Section FoldPut.
Variables (ctrl_file : string) (date_list : list date_pair) (job_prefix : string)
  (ctrl_str : string).

Local Notation put1 := (put_control ctrl_file date_list job_prefix true ctrl_str).
Local Notation cpath := (control_path ctrl_file date_list job_prefix true).

Lemma foldl_put_other K : forall f p,
  (forall x, x ∈ K -> cpath x.1 <> p) -> foldl put1 f K !! p = f !! p.
Proof.
  induction K as [|y K IH]; intros f p Hne; simpl; [reflexivity|].
  rewrite IH.
  - unfold put_control. apply lookup_insert_ne. apply Hne. left.
  - intros x Hx. apply Hne. right. exact Hx.
Qed.

Lemma foldl_put_lookup K : forall f x,
  (forall y, y ∈ K -> (y.1 < List.length date_list)%nat) ->
  NoDup (map fst K) -> x ∈ K ->
  foldl put1 f K !! cpath x.1 = Some (File (control_text ctrl_str x.2.1 x.2.2)).
Proof.
  induction K as [|y K IH]; intros f x Hlt Hnd Hx; [inversion Hx|].
  simpl in Hnd. apply NoDup_cons in Hnd as [Hy Hnd]. simpl.
  apply elem_of_cons in Hx as [->|Hx].
  - rewrite foldl_put_other.
    + unfold put_control. apply lookup_insert_eq.
    + intros z Hz E. apply control_path_inj in E.
      * apply Hy. apply list_elem_of_fmap. exists z.
        split; [symmetry; exact E|exact Hz].
      * apply Hlt. right. exact Hz.
      * apply Hlt. left.
  - apply IH; [|exact Hnd|exact Hx]. intros z Hz. apply Hlt. right. exact Hz.
Qed.
End FoldPut.

Create HintDb quiet.

Lemma quiet_pure {A} (a : A) : quiet (pure a).
Proof. intros w r w' [= <- <-]. auto. Qed.

Lemma quiet_raise {A} e : quiet (@raise A e).
Proof. intros w r w' [= <- <-]. auto. Qed.

Lemma quiet_lift {A} (x : res A) : quiet (lift x).
Proof. intros w r w' [= <- <-]. auto. Qed.

Lemma quiet_print s : quiet (print s).
Proof. intros w r w' [= <- <-]. auto. Qed.

Lemma quiet_path_exists p : quiet (path_exists p).
Proof. intros w r w' [= <- <-]. auto. Qed.

Lemma quiet_bind {A B} (m : M A) (f : A -> M B) :
  quiet m -> (forall a, quiet (f a)) -> quiet (bind m f).
Proof.
  intros Hm Hf w r w'. unfold bind. destruct (m w) as [[a|e| |] w1] eqn:E;
    specialize (Hm _ _ _ E) as (H1 & H2 & H3).
  - intros H. apply Hf in H as (H1' & H2' & H3'). repeat split; congruence.
  - intros [= <- <-]. auto.
  - intros [= <- <-]. auto.
  - intros [= <- <-]. auto.
Qed.

Lemma quiet_for_each {A} (f : A -> M unit) l :
  (forall a, quiet (f a)) -> quiet (for_each f l).
Proof.
  intros Hf. induction l as [|x l IH]; simpl.
  - apply quiet_pure.
  - apply quiet_bind; [apply Hf|]. intros _. exact IH.
Qed.

#[local] Hint Resolve quiet_pure quiet_raise quiet_lift quiet_print
  quiet_path_exists quiet_for_each : quiet.
#[local] Hint Extern 2 (quiet (bind _ _)) => apply quiet_bind; [|intros] : quiet.
#[local] Hint Extern 3 (quiet (if ?b then _ else _)) => destruct b : quiet.
#[local] Hint Extern 3 (quiet (let '(_, _) := ?p in _)) => destruct p : quiet.

Lemma quiet_printJobSummary_job j : quiet (printJobSummary_job j).
Proof. unfold printJobSummary_job. destruct (job_dates j) as [[? ?] ?]. auto 30 with quiet. Qed.

Lemma quiet_printJobSummary s e k jl n : quiet (printJobSummary s e k jl n).
Proof.
  unfold printJobSummary. pose proof quiet_printJobSummary_job.
  auto 30 with quiet.
Qed.

Lemma quiet_checkExeFile abspath folder : quiet (checkExeFile abspath folder).
Proof. unfold checkExeFile. auto 10 with quiet. Qed.

Lemma quiet_checkControlFile folder file : quiet (checkControlFile folder file).
Proof. unfold checkControlFile. auto 10 with quiet. Qed.

Section Prepare.

Variables (exe_file ctrl_file : string) (date_list : list date_pair)
  (outputdir : string) (time_out : option Z) (time_out_retry : Z)
  (job_prefix : string) (copy_control verbose : bool).

Local Notation job_of :=
  (fun x : nat * date_pair =>
     job_at exe_file ctrl_file date_list outputdir time_out time_out_retry
       job_prefix copy_control x.1 x.2).
Local Notation marker :=
  (fun x : nat * date_pair => marker_path date_list outputdir job_prefix x.1 x.2).

Lemma prepareJobList_spec w :
  match fs w !! ctrl_file with
  | Some (File base) =>
      exists K w' out,
        prepareJobList exe_file ctrl_file date_list outputdir time_out
          time_out_retry job_prefix copy_control verbose w
        = (Val (map job_of K), w')
        /\ prepared ctrl_file date_list outputdir job_prefix copy_control base w K w' out
  | Some Dir =>
      prepareJobList exe_file ctrl_file date_list outputdir time_out
        time_out_retry job_prefix copy_control verbose w
      = (Err IsADirectoryError, w)
  | None =>
      prepareJobList exe_file ctrl_file date_list outputdir time_out
        time_out_retry job_prefix copy_control verbose w
      = (Err FileNotFoundError, w)
  end.
Proof.
  unfold prepareJobList.
  destruct (Py.path_split ctrl_file) as [folder fname] eqn:Hsplit.
  destruct (fs w !! ctrl_file) as [[|base]|] eqn:Hread;
    unfold bind at 1; unfold read_file at 1; rewrite Hread; try reflexivity.
  destruct verbose.
  - unfold bind, print. cbv beta iota.
    match goal with
    | |- context [prepareJobList_loop _ _ _ _ _ _ _ _ _ _ _ _ _ ?acc1 ?w1] =>
        destruct (prepareJobList_loop_spec exe_file ctrl_file date_list
                    outputdir time_out time_out_retry job_prefix copy_control
                    folder fname base Hsplit date_list O acc1 w1)
          as (K & w' & out & Hrun & Hsub & Hfs & Hh & Hpc & Hout & Hsk)
    end.
    exists K, w'. eexists. split; [exact Hrun|].
    simpl in Hfs, Hh, Hpc, Hout, Hsk.
    repeat (split; [eassumption|]). split.
    + rewrite Hout, <- !app_assoc. reflexivity.
    + intros x Hx Hm. destruct (Hsk x Hx Hm) as [Hn Hl]. split; [exact Hn|].
      rewrite !elem_of_app. tauto.
  - unfold bind at 1. unfold pure at 1.
    destruct (prepareJobList_loop_spec exe_file ctrl_file date_list
                outputdir time_out time_out_retry job_prefix copy_control
                folder fname base Hsplit date_list O [] w)
      as (K & w' & out & Hrun & Hsub & Hfs & Hh & Hpc & Hout & Hsk).
    exists K, w', out. split; [exact Hrun|]. repeat (split; [eassumption|]).
    exact Hsk.
Qed.

End Prepare.

(** ** The entry point *)

Lemma quiet_launchless {A} (m : M A) : quiet m -> launchless m.
Proof.
  intros Hq w r w' H. apply Hq in H as (_ & Hh & Hpc). split; [exact Hpc|].
  exists []. rewrite app_nil_r. split; [exact Hh|constructor].
Qed.

Lemma launchless_bind {A B} (m : M A) (f : A -> M B) :
  launchless m -> (forall a, launchless (f a)) -> launchless (bind m f).
Proof.
  intros Hm Hf w r w'. unfold bind. destruct (m w) as [[a|e| |] w1] eqn:E;
    specialize (Hm _ _ _ E) as (H1 & new1 & H2 & H3).
  - intros H. apply Hf in H as (H1' & new2 & H2' & H3'). split; [congruence|].
    exists (new1 ++ new2)%list. split.
    + rewrite H2', H2, app_assoc. reflexivity.
    + apply Forall_app. auto.
  - intros [= <- <-]. eauto.
  - intros [= <- <-]. eauto.
  - intros [= <- <-]. eauto.
Qed.

Lemma control_events_written ctrl_file date_list job_prefix copy base K :
  Forall is_written (control_events ctrl_file date_list job_prefix copy base K).
Proof.
  unfold control_events. destruct copy; [|constructor].
  apply Forall_forall. intros e He. apply list_elem_of_fmap in He as (x & -> & _).
  exact I.
Qed.

Lemma launchless_prepareJobList exe_file ctrl_file date_list outputdir time_out
    time_out_retry job_prefix copy_control verbose :
  launchless (prepareJobList exe_file ctrl_file date_list outputdir time_out
                time_out_retry job_prefix copy_control verbose).
Proof.
  intros w r w' Hrun.
  pose proof (prepareJobList_spec exe_file ctrl_file date_list outputdir time_out
                time_out_retry job_prefix copy_control verbose w) as Hspec.
  destruct (fs w !! ctrl_file) as [[|base]|].
  - rewrite Hspec in Hrun. injection Hrun as <- <-. split; [reflexivity|].
    exists []. rewrite app_nil_r. split; [reflexivity|constructor].
  - destruct Hspec as (K & w1 & out & Hrun' & _ & _ & Hh & Hpc & _).
    rewrite Hrun' in Hrun. injection Hrun as <- <-. split; [exact Hpc|].
    eexists. split; [exact Hh|]. apply control_events_written.
  - rewrite Hspec in Hrun. injection Hrun as <- <-. split; [reflexivity|].
    exists []. rewrite app_nil_r. split; [reflexivity|constructor].
Qed.

Lemma none_kept (K C : list (nat * date_pair)) :
  sublist K C -> (forall x, x ∈ C -> x ∉ K) -> K = [].
Proof.
  intros Hsub Hnone. destruct K as [|x K]; [reflexivity|]. exfalso.
  apply (Hnone x); [|left]. apply (sublist_subseteq _ _ Hsub). left.
Qed.

Section Main.
Variable procs : nat -> behaviour.
Variable str_job_dates : string * string * string -> string.
Variable str_timeout_expired : list string -> Z -> string.
Variable abspath : string -> string.

Local Notation engine := (main procs str_job_dates str_timeout_expired abspath).

Lemma main_dry_launchless flex_extract_folder control_file start_date end_date
    days_per_job n_workers outputdir time_out time_out_retry job_prefix
    copy_control dry :
  launchless (engine true flex_extract_folder control_file start_date end_date
                days_per_job n_workers outputdir time_out time_out_retry
                job_prefix copy_control dry).
Proof.
  unfold main.
  apply launchless_bind; [apply quiet_launchless, quiet_lift|]. intros dl.
  apply launchless_bind; [apply quiet_launchless, quiet_checkExeFile|]. intros exe.
  apply launchless_bind; [apply quiet_launchless, quiet_checkControlFile|].
  intros [folder file].
  apply launchless_bind; [apply launchless_prepareJobList|]. intros jl.
  apply quiet_launchless, quiet_printJobSummary.
Qed.

Lemma main_all_done DRY flex_extract_folder control_file start_date end_date
    days_per_job n_workers outputdir time_out time_out_retry job_prefix
    copy_control dry date_list w r w' :
  breakDownDates start_date end_date days_per_job = Val date_list ->
  (forall pos d, date_list !! pos = Some d ->
     is_Some (fs w !! marker_path date_list outputdir job_prefix pos d)) ->
  engine DRY flex_extract_folder control_file start_date end_date
    days_per_job n_workers outputdir time_out time_out_retry job_prefix
    copy_control dry w = (r, w') ->
  fs w' = fs w /\ history w' = history w /\ popen_calls w' = popen_calls w.
Proof.
  intros Hdl Hdone. unfold main. unfold bind at 1. unfold lift at 1.
  rewrite Hdl. unfold bind at 1.
  destruct (checkExeFile abspath flex_extract_folder w) as [r1 w1] eqn:E1.
  apply quiet_checkExeFile in E1 as (Hfs1 & Hh1 & Hpc1).
  destruct r1 as [exe|e| |]; try (intros [= <- <-]; auto).
  unfold bind at 1.
  destruct (checkControlFile flex_extract_folder control_file w1) as [r2 w2] eqn:E2.
  apply quiet_checkControlFile in E2 as (Hfs2 & Hh2 & Hpc2).
  destruct r2 as [[folder file]|e| |];
    try (intros [= <- <-]; repeat split; congruence).
  unfold bind at 1.
  pose proof (prepareJobList_spec exe file date_list outputdir time_out
                time_out_retry job_prefix copy_control true w2) as Hspec.
  destruct (fs w2 !! file) as [[|base]|];
    try (rewrite Hspec; intros [= <- <-]; repeat split; congruence).
  destruct Hspec as (K & w3 & out & -> & Hsub & Hfs3 & Hh3 & Hpc3 & _ & Hsk).
  assert (K = []) as ->.
  { apply (none_kept _ _ Hsub). intros [pos d] Hx. apply Hsk; [exact Hx|].
    apply candidates_lookup in Hx as [_ Hx]. rewrite Nat.sub_0_r in Hx.
    simpl. rewrite Hfs2, Hfs1. apply Hdone. exact Hx. }
  simpl in Hfs3. unfold control_events in Hh3.
  assert (Hh3' : history w3 = history w2).
  { rewrite Hh3. destruct copy_control; simpl; apply app_nil_r. }
  cbn [map]. intros Hrun.
  assert (Hq : fs w' = fs w3 /\ history w' = history w3
               /\ popen_calls w' = popen_calls w3).
  { destruct DRY.
    - eapply quiet_printJobSummary. exact Hrun.
    - revert Hrun. unfold Pool_map. destruct (n_workers <? 1).
      + intros [= <- <-]. auto.
      + simpl. intros [= <- <-]. auto. }
  destruct Hq as (Hfs4 & Hh4 & Hpc4). repeat split; congruence.
Qed.

End Main.

(** * The claims *)

(** ** The partitioner *)

Lemma breakDownDates_scenario :
  breakDownDates "20130203" "20130207" 2 = Val sample_dates.
Proof. vm_compute. reflexivity. Qed.

(** The loop of [breakDownDates] never needs more fuel than it is given. *)
Lemma breakDownDates_loop_fuel fuel : forall t_end dt t1 acc,
  0 <= dt -> t1 <= t_end + 1 -> (Z.to_nat (t_end - t1 + 2) <= fuel)%nat ->
  breakDownDates_loop fuel t_end 1 dt t1 (t1 + dt) acc <> NoFuel.
Proof.
  induction fuel as [|fuel IH]; intros t_end dt t1 acc Hdt Hle Hfuel; [lia|].
  cbn [breakDownDates_loop].
  destruct (Z.leb_spec t1 t_end) as [Hin|Hout]; [|discriminate].
  set (t2 := if t1 + dt >? t_end then t_end else t1 + dt).
  assert (Ht2 : t1 <= t2 /\ t2 <= t_end)
    by (unfold t2; destruct (Z.gtb_spec (t1 + dt) t_end); lia).
  fold t2. unfold Datetime.add at 1.
  destruct ((0 <? t2 + 1) && (t2 + 1 <=? Datetime.MAXORDINAL));
    cbn [res_bind]; [|discriminate].
  unfold Datetime.add at 1.
  destruct ((0 <? t2 + 1 + dt) && (t2 + 1 + dt <=? Datetime.MAXORDINAL));
    cbn [res_bind]; [|discriminate].
  apply IH; lia.
Qed.

Lemma strptime_returns_or_raises s :
  (exists t, Datetime.strptime s = Val t) \/ Datetime.strptime s = Err ValueError.
Proof.
  unfold Datetime.strptime. destruct (negb _); [right; reflexivity|].
  destruct (Py.parse_digits 0 (substring 0 4 s)); [|right; reflexivity].
  destruct (Py.parse_digits 0 (substring 4 2 s)); [|right; reflexivity].
  destruct (Py.parse_digits 0 (substring 6 2 s)); [|right; reflexivity].
  destruct (_ && _); [left; eauto|right; reflexivity].
Qed.

Lemma add_returns_or_raises t d :
  (exists r, Datetime.add t d = Val r) \/ Datetime.add t d = Err OverflowError.
Proof. unfold Datetime.add. destruct (_ && _); [left; eauto|right; reflexivity]. Qed.

Lemma breakDownDates_loop_no_hang fuel : forall t_end d1 dt t1 t2 acc,
  breakDownDates_loop fuel t_end d1 dt t1 t2 acc <> Hang.
Proof.
  induction fuel as [|fuel IH]; intros t_end d1 dt t1 t2 acc;
    cbn [breakDownDates_loop]; [discriminate|].
  destruct (t1 <=? t_end); [|discriminate].
  destruct (add_returns_or_raises (if t2 >? t_end then t_end else t2) d1)
    as [[a ->]| ->]; cbn [res_bind]; [|discriminate].
  destruct (add_returns_or_raises a dt) as [[b ->]| ->]; cbn [res_bind];
    [apply IH|discriminate].
Qed.

(** [breakDownDates] always returns or raises: its loop is given enough
    fuel. *)
Lemma breakDownDates_total start_date end_date days_per_job :
  breakDownDates start_date end_date days_per_job <> NoFuel
  /\ breakDownDates start_date end_date days_per_job <> Hang.
Proof.
  unfold breakDownDates.
  destruct (Z.ltb_spec days_per_job 1); [split; discriminate|].
  destruct (strptime_returns_or_raises start_date) as [[ts ->]| ->];
    cbn [res_bind]; [|split; discriminate].
  destruct (strptime_returns_or_raises end_date) as [[te ->]| ->];
    cbn [res_bind]; [|split; discriminate].
  destruct (Z.gtb_spec ts te); [split; discriminate|].
  unfold Datetime.timedelta.
  destruct (Z.abs 1 >? Datetime.MAX_DELTA_DAYS); cbn [res_bind];
    [split; discriminate|].
  destruct (Z.abs (days_per_job - 1) >? Datetime.MAX_DELTA_DAYS);
    cbn [res_bind]; [split; discriminate|].
  destruct (add_returns_or_raises ts (days_per_job - 1)) as [[t2 Ht2]|Ht2];
    rewrite Ht2; cbn [res_bind]; [|split; discriminate].
  split; [|apply breakDownDates_loop_no_hang].
  unfold Datetime.add in Ht2. destruct (_ && _) in Ht2; [|discriminate].
  injection Ht2 as <-. apply breakDownDates_loop_fuel; lia.
Qed.






(** ** The runner *)

Lemma count_attempts args log n : forall a,
  List.length (List.filter is_launch (flat_map (attempt_events args log) (seq a n))) = n
  /\ List.length (List.filter is_kill (flat_map (attempt_events args log) (seq a n))) = n.
Proof.
  induction n as [|n IH]; intros a; simpl; [auto|].
  destruct (IH (S a)) as [H1 H2]. rewrite H1, H2. auto.
Qed.

Lemma index_returns_or_raises l x :
  (exists i, Py.index l x = Val i) \/ Py.index l x = Err ValueError.
Proof.
  induction l as [|y l IH]; simpl; [right; reflexivity|].
  destruct (String.eqb y x); [left; eauto|].
  destruct IH as [[i ->]| ->]; simpl; [left; eauto|right; reflexivity].
Qed.

Lemma item_returns_or_raises l i :
  (exists x, Py.item l i = Val x) \/ Py.item l i = Err IndexError.
Proof. unfold Py.item. destruct (nth_error l i); [left; eauto|right; reflexivity]. Qed.

(** The loop of [launchJob] never needs more fuel than it is given. *)
Lemma launchJob_loop_fuel procs sjd ste args jd log fuel :
  forall timeout retry tried ret w,
    (Z.to_nat (retry - tried + 1) < fuel)%nat ->
    (launchJob_loop procs sjd ste fuel args jd log timeout retry tried ret w).1
    <> NoFuel.
Proof.
  induction fuel as [|fuel IH]; intros timeout retry tried ret w Hfuel; [lia|].
  simpl. destruct (Z.leb_spec tried retry) as [Hgo|Hstop]; [|discriminate].
  unfold_m. simpl.
  destruct (ending (procs (popen_calls w))) as [| |msg|c] eqn:He; simpl.
  - discriminate.
  - rewrite He. destruct timeout as [t|]; simpl; [apply IH; lia|discriminate].
  - rewrite He. simpl. discriminate.
  - rewrite He. simpl. destruct (Z.eqb_spec c 0); [|discriminate].
    destruct (index_returns_or_raises args "--outputdir") as [[i ->]| ->];
      simpl; [|discriminate].
    destruct (item_returns_or_raises args (i + 1)) as [[d ->]| ->];
      simpl; [|discriminate].
    destruct (bool_decide _); simpl; discriminate.
Qed.

Lemma launchJob_total procs sjd ste args jd log timeout retry w :
  (launchJob procs sjd ste args jd log timeout retry w).1 <> NoFuel.
Proof.
  unfold launchJob. unfold bind at 1, write_file at 1.
  apply launchJob_loop_fuel. lia.
Qed.

(** C3: with a finite timeout and a retry bound maxRetries >= 0, when the
    process times out on every attempt the runner launches it exactly
    maxRetries + 1 times, kills it after each timeout, and returns 1, a
    non-zero result. *)
Theorem launchJob_retry_bound procs sjd ste args jd log t retry w :
  0 <= retry ->
  (forall n, (popen_calls w <= n)%nat -> ending (procs n) = Overruns) ->
  exists w' new,
    launchJob procs sjd ste args jd log (Some t) retry w = (Val 1, w')
    /\ history w' = (history w ++ new)%list
    /\ new = Written log ""
             :: flat_map (attempt_events args log)
                  (seq (popen_calls w) (Z.to_nat (retry + 1)))
    /\ Z.of_nat (List.length (List.filter is_launch new)) = retry + 1
    /\ Z.of_nat (List.length (List.filter is_kill new)) = retry + 1
    /\ Z.of_nat (popen_calls w') = Z.of_nat (popen_calls w) + retry + 1.
Proof.
  intros Hr Hall.
  destruct (launchJob_all_timeouts procs sjd ste args jd log t retry w Hr Hall)
    as (w' & Hrun & Hpc & Hh).
  exists w'. eexists. split; [exact Hrun|]. split; [exact Hh|].
  split; [reflexivity|].
  destruct (count_attempts args log (Z.to_nat (retry + 1)) (popen_calls w))
    as [H1 H2].
  cbn [List.filter is_launch is_kill List.length]. rewrite H1, H2.
  repeat split; lia.
Qed.

Lemma launchJob_retry_bound_witness :
  exists w',
    launchJob (sample_procs Overruns) sample_str_job_dates
      sample_str_timeout_expired sample_args sample_job_dates "EI_0.txt"
      (Some 14400) 3 sample_world = (Val 1, w')
    /\ popen_calls w' = 4%nat.
Proof.
  destruct (launchJob_retry_bound (sample_procs Overruns) sample_str_job_dates
              sample_str_timeout_expired sample_args sample_job_dates
              "EI_0.txt" 14400 3 sample_world)
    as (w' & new & Hrun & _ & _ & _ & _ & Hpc).
  - lia.
  - intros n _. reflexivity.
  - exists w'. split; [exact Hrun|]. simpl in Hpc. lia.
Defined.

(** C4, on the code: when the process cannot be launched, [Popen] raises
    outside the [try] block and the error leaves the runner; no result is
    returned. *)
Theorem launchJob_launch_error_escapes procs sjd ste args jd log timeout retry w :
  0 <= retry ->
  ending (procs (popen_calls w)) = LaunchFails ->
  exists w',
    launchJob procs sjd ste args jd log timeout retry w = (Err OSError, w')
    /\ popen_calls w' = S (popen_calls w)
    /\ history w' = (history w ++ [Written log ""])%list.
Proof.
  intros Hr He. unfold launchJob.
  unfold bind at 1. unfold write_file at 1. cbn [launchJob_loop].
  destruct (Z.leb_spec 0 retry); [|lia].
  unfold_m. cbn beta iota. cbn [popen_calls]. rewrite He.
  eexists. split; [reflexivity|]. auto.
Qed.

Lemma launchJob_launch_error_escapes_witness :
  exists w',
    launchJob (sample_procs LaunchFails) sample_str_job_dates
      sample_str_timeout_expired sample_args sample_job_dates "EI_0.txt"
      (Some 14400) 3 sample_world = (Err OSError, w')
    /\ popen_calls w' = 1%nat.
Proof.
  destruct (launchJob_launch_error_escapes (sample_procs LaunchFails)
              sample_str_job_dates sample_str_timeout_expired sample_args
              sample_job_dates "EI_0.txt" (Some 14400) 3 sample_world)
    as (w' & Hrun & Hpc & _).
  - lia.
  - reflexivity.
  - exists w'. split; [exact Hrun|exact Hpc].
Defined.

(** C5: when the process exits with a non-zero code on its first attempt,
    the runner makes exactly one attempt, writes nothing but the log file,
    and returns that exit code. *)
Theorem launchJob_no_retry_on_failure procs sjd ste args jd log timeout retry w c :
  0 <= retry -> ending (procs (popen_calls w)) = Exits c -> c <> 0 ->
  exists w' new,
    launchJob procs sjd ste args jd log timeout retry w = (Val c, w')
    /\ history w' = (history w ++ new)%list
    /\ new = [Written log ""; Launched (popen_calls w) args log]
    /\ popen_calls w' = S (popen_calls w)
    /\ (forall p content, Written p content ∈ new -> p = log /\ content = "")
    /\ (forall d, marker_of d ∉ new).
Proof.
  intros Hr He Hc.
  destruct (launchJob_nonzero_exit procs sjd ste args jd log timeout retry w c
              Hr He Hc) as (w' & Hrun & Hpc & Hh & _).
  exists w'. eexists. split; [exact Hrun|]. split; [exact Hh|].
  split; [reflexivity|]. split; [exact Hpc|]. split.
  - intros p content Hin. apply elem_of_cons in Hin as [[= -> ->]|Hin]; [auto|].
    apply list_elem_of_singleton in Hin. discriminate.
  - intros d Hin. unfold marker_of in Hin.
    apply elem_of_cons in Hin as [?|Hin]; [discriminate|].
    apply list_elem_of_singleton in Hin. discriminate.
Qed.

Lemma launchJob_no_retry_on_failure_witness :
  exists w',
    launchJob (sample_procs (Exits 7)) sample_str_job_dates
      sample_str_timeout_expired sample_args sample_job_dates "EI_0.txt"
      (Some 14400) 3 sample_world = (Val 7, w')
    /\ popen_calls w' = 1%nat.
Proof.
  destruct (launchJob_no_retry_on_failure (sample_procs (Exits 7))
              sample_str_job_dates sample_str_timeout_expired sample_args
              sample_job_dates "EI_0.txt" (Some 14400) 3 sample_world 7)
    as (w' & new & Hrun & _ & _ & Hpc & _).
  - lia.
  - reflexivity.
  - lia.
  - exists w'. split; [exact Hrun|exact Hpc].
Defined.



(** ** The CONTROL-file rewriter *)

Lemma start_line_not_end line rest :
  Re.match_line "START_DATE" line = Some rest ->
  Re.match_line "END_DATE" line = None.
Proof.
  intros H. apply match_line_spec in H as (k & d & -> & _). reflexivity.
Qed.

Lemma assigns_false field line :
  assigns field line = false -> Re.match_line field line = None.
Proof.
  unfold assigns. intros H. apply bool_decide_eq_false in H.
  destruct (Re.match_line field line); [exfalso; apply H; eauto|reflexivity].
Qed.

(** C7: for every base text and every pair of 8-digit dates, the rewrite
    returns a text whose lines are: a new START_DATE line if no line of the
    base assigns START_DATE, then a new END_DATE line if no line of the
    base assigns END_DATE, then the lines of the base, where a line that
    assigns a field (the field name, spaces, eight digits: see
    [match_line_spec]) has that prefix replaced in place by the field name
    and the new date, and every other line is unchanged; each field is
    handled by the same rule whatever the other does.  In particular a base
    with no END_DATE line, rewritten for (20130205, 20130206), gets the
    line END_DATE 20130206 put on top of it and a START_DATE 20130205 line
    updated in place or put above. *)
Theorem replaceControlDates_rewrites ctrl_str start_date end_date w :
  is_date start_date -> is_date end_date ->
  (exists out w',
     replaceControlDates ctrl_str start_date end_date w = (Val out, w')
     /\ fs w' = fs w
     /\ line_list out
        = (inserted "START_DATE" start_date (line_list ctrl_str)
           ++ inserted "END_DATE" end_date (line_list ctrl_str)
           ++ map (rewrite_line start_date end_date) (line_list ctrl_str))%list)
  /\ (forall line,
        assigns "END_DATE" line = false -> assigns "START_DATE" line = false ->
        rewrite_line start_date end_date line = line)
  /\ (forall line rest,
        Re.match_line "END_DATE" line = Some rest ->
        rewrite_line start_date end_date line = "END_DATE " +:+ end_date +:+ rest)
  /\ (forall line rest,
        Re.match_line "START_DATE" line = Some rest ->
        rewrite_line start_date end_date line
        = "START_DATE " +:+ start_date +:+ rest)
  /\ (forall base w0,
        Re.search "END_DATE" base = false ->
        exists out w0',
          replaceControlDates base "20130205" "20130206" w0 = (Val out, w0')
          /\ line_list out
             = (inserted "START_DATE" "20130205" (line_list base)
                ++ "END_DATE 20130206"
                   :: map (rewrite_line "20130205" "20130206") (line_list base))%list).
Proof.
  intros Hs He. split; [|split; [|split; [|split]]].
  - destruct (replaceControlDates_lines start_date end_date Hs He ctrl_str w)
      as (out & w' & Hrun & Hl & Hfs & _).
    exists out, w'. auto.
  - intros line H1 H2. apply rewrite_neither; apply assigns_false; assumption.
  - intros line rest H. unfold rewrite_line. rewrite H. reflexivity.
  - intros line rest H. unfold rewrite_line.
    rewrite (start_line_not_end _ _ H), H. reflexivity.
  - intros base w0 Hno.
    destruct (replaceControlDates_lines "20130205" "20130206" eq_refl eq_refl
                base w0) as (out & w0' & Hrun & Hl & _).
    exists out, w0'. split; [exact Hrun|]. rewrite Hl.
    unfold inserted at 2. rewrite <- search_lines, Hno. reflexivity.
Qed.

Lemma replaceControlDates_rewrites_witness :
  exists out w',
    replaceControlDates sample_control "20130205" "20130206" sample_world
    = (Val out, w')
    /\ line_list out = ["END_DATE 20130206"; "A 1"; "START_DATE 20130205"; "Z"].
Proof.
  destruct (replaceControlDates_rewrites sample_control "20130205" "20130206"
              sample_world eq_refl eq_refl)
    as [(out & w' & Hrun & _ & Hl) _].
  exists out, w'. split; [exact Hrun|]. rewrite Hl. vm_compute. reflexivity.
Defined.

(** ** The job builder *)

Section Built.

Variables (exe_file ctrl_file : string) (date_list : list date_pair)
  (outputdir : string) (time_out : option Z) (time_out_retry : Z)
  (job_prefix : string) (copy_control : bool).

Local Notation job_of :=
  (fun x : nat * date_pair =>
     job_at exe_file ctrl_file date_list outputdir time_out time_out_retry
       job_prefix copy_control x.1 x.2).

Lemma prepareJobList_inv verbose w jl w' :
  prepareJobList exe_file ctrl_file date_list outputdir time_out time_out_retry
    job_prefix copy_control verbose w = (Val jl, w') ->
  exists base K out,
    fs w !! ctrl_file = Some (File base)
    /\ jl = map job_of K
    /\ prepared ctrl_file date_list outputdir job_prefix copy_control base w K
         w' out.
Proof.
  intros Hrun.
  pose proof (prepareJobList_spec exe_file ctrl_file date_list outputdir
                time_out time_out_retry job_prefix copy_control verbose w)
    as Hspec.
  destruct (fs w !! ctrl_file) as [[|base]|].
  - rewrite Hspec in Hrun. discriminate.
  - destruct Hspec as (K & w1 & out & Hrun' & Hp).
    rewrite Hrun' in Hrun. injection Hrun as <- <-. exists base, K, out. auto.
  - rewrite Hspec in Hrun. discriminate.
Qed.

Lemma candidate_at pos d :
  (pos, d) ∈ candidates O date_list <-> date_list !! pos = Some d.
Proof.
  rewrite candidates_lookup, Nat.sub_0_r. split; [intros [_ H]; exact H|].
  intros H. split; [lia|exact H].
Qed.

Lemma candidate_position x :
  x ∈ candidates O date_list -> (x.1 < List.length date_list)%nat.
Proof. destruct x as [p d]. intros H. apply candidates_range in H. simpl. lia. Qed.

(** Jobs with the same id are the same job. *)
Lemma job_of_id_inj x y :
  x ∈ candidates O date_list -> y ∈ candidates O date_list ->
  (job_dates (job_of x)).1.1 = (job_dates (job_of y)).1.1 -> x = y.
Proof.
  intros Hx Hy Hid. simpl in Hid.
  apply job_id_inj in Hid; try (apply candidate_position; assumption).
  destruct x as [p d], y as [q e]. simpl in Hid. subst q.
  apply candidate_at in Hx, Hy. congruence.
Qed.

End Built.

(** C2: a job whose output directory already holds the marker [job_done]
    is reported as skipped, with its id and interval, and is not in the
    prepared list; when every job has its marker the prepared list is empty,
    and a run of the engine launches no external process. *)
Theorem done_jobs_are_skipped procs sjd ste abspath DRY
    exe_file ctrl_file date_list outputdir time_out time_out_retry job_prefix
    copy_control verbose w :
  (forall jl w',
     prepareJobList exe_file ctrl_file date_list outputdir time_out
       time_out_retry job_prefix copy_control verbose w = (Val jl, w') ->
     (forall pos d,
        date_list !! pos = Some d ->
        is_Some (fs w !! marker_path date_list outputdir job_prefix pos d) ->
        (exists out, stdout w' = (stdout w ++ out)%list
                     /\ skip_line date_list pos d ∈ out)
        /\ (forall j, j ∈ jl -> (job_dates j).1.1 <> job_id date_list pos))
     /\ ((forall pos d,
            date_list !! pos = Some d ->
            is_Some (fs w !! marker_path date_list outputdir job_prefix pos d)) ->
         jl = [] /\ history w' = history w /\ popen_calls w' = popen_calls w))
  /\ (forall flex_extract_folder control_file start_date end_date days_per_job
        n_workers dry r w',
        breakDownDates start_date end_date days_per_job = Val date_list ->
        (forall pos d,
           date_list !! pos = Some d ->
           is_Some (fs w !! marker_path date_list outputdir job_prefix pos d)) ->
        main procs sjd ste abspath DRY flex_extract_folder control_file
          start_date end_date days_per_job n_workers outputdir time_out
          time_out_retry job_prefix copy_control dry w = (r, w') ->
        popen_calls w' = popen_calls w /\ history w' = history w).
Proof.
  split.
  - intros jl w' Hrun.
    destruct (prepareJobList_inv _ _ _ _ _ _ _ _ _ _ _ _ Hrun)
      as (base & K & out & _ & -> & Hsub & Hfs & Hh & Hpc & Hout & Hsk).
    split.
    + intros pos d Hd Hm.
      assert (Hc : (pos, d) ∈ candidates O date_list) by (apply candidate_at; exact Hd).
      destruct (Hsk (pos, d) Hc Hm) as [Hn Hl]. split; [eauto|].
      intros j Hj Hid. apply list_elem_of_fmap in Hj as (y & -> & Hy).
      apply Hn. assert (Hyc := sublist_subseteq _ _ Hsub y Hy).
      rewrite <- (job_of_id_inj exe_file ctrl_file date_list outputdir time_out
                    time_out_retry job_prefix copy_control y (pos, d) Hyc Hc Hid).
      exact Hy.
    + intros Hall. assert (K = []) as ->.
      { apply (none_kept _ _ Hsub). intros [pos d] Hx. apply Hsk; [exact Hx|].
        apply Hall. apply candidate_at. exact Hx. }
      split; [reflexivity|]. split; [|exact Hpc].
      rewrite Hh. unfold control_events. destruct copy_control; apply app_nil_r.
  - intros folder control_file s e k n dry r w' Hdl Hall Hrun.
    destruct (main_all_done procs sjd ste abspath DRY folder control_file s e k
                n outputdir time_out time_out_retry job_prefix copy_control dry
                date_list w r w' Hdl Hall Hrun) as (_ & Hh & Hpc).
    auto.
Qed.

Lemma sample_all_done pos d :
  sample_dates !! pos = Some d ->
  is_Some (fs sample_done_world !! marker_path sample_dates "/out" "EI" pos d).
Proof.
  destruct pos as [|[|[|pos]]]; intros [= <-]; vm_compute; eauto.
Defined.

Lemma done_jobs_are_skipped_witness :
  (exists jl w' out,
     prepareJobList "/fx/Source/Python/submit.py" "/fx/Run/Control/CTRL"
       sample_dates "/out" (Some 14400) 3 "EI" true true sample_world
     = (Val jl, w')
     /\ stdout w' = (stdout sample_world ++ out)%list
     /\ "# <prepareJobList>: Skip job #1: 20130205-20130206" ∈ out)
  /\ (exists r w',
        main (sample_procs (Exits 0)) sample_str_job_dates
          sample_str_timeout_expired (fun p => p) false "/fx" "CTRL"
          "20130203" "20130207" 2 2 "/out" (Some 14400) 3 "EI" true false
          sample_done_world = (r, w')
        /\ popen_calls w' = O).
Proof.
  split.
  - destruct (prepareJobList "/fx/Source/Python/submit.py" "/fx/Run/Control/CTRL"
                sample_dates "/out" (Some 14400) 3 "EI" true true sample_world)
      as [r w'] eqn:E.
    assert (Hr : exists jl, r = Val jl).
    { apply (f_equal fst) in E. simpl in E. rewrite <- E. vm_compute. eauto. }
    destruct Hr as [jl ->].
    destruct (done_jobs_are_skipped (sample_procs (Exits 0)) sample_str_job_dates
                sample_str_timeout_expired (fun p => p) false
                "/fx/Source/Python/submit.py" "/fx/Run/Control/CTRL"
                sample_dates "/out" (Some 14400) 3 "EI" true true sample_world)
      as [Hprep _].
    destruct (Hprep jl w' E) as [Hskip _].
    destruct (Hskip 1%nat ("20130205", "20130206") eq_refl) as [(out & Ho & Hin) _].
    { vm_compute. eauto. }
    exists jl, w', out. auto.
  - destruct (main (sample_procs (Exits 0)) sample_str_job_dates
                sample_str_timeout_expired (fun p => p) false "/fx" "CTRL"
                "20130203" "20130207" 2 2 "/out" (Some 14400) 3 "EI" true false
                sample_done_world) as [r w'] eqn:E.
    destruct (done_jobs_are_skipped (sample_procs (Exits 0)) sample_str_job_dates
                sample_str_timeout_expired (fun p => p) false
                "/fx/Source/Python/submit.py" "/fx/Run/Control/CTRL"
                sample_dates "/out" (Some 14400) 3 "EI" true true
                sample_done_world) as [_ Hmain].
    destruct (Hmain "/fx" "CTRL" "20130203" "20130207" 2 2 false r w'
                breakDownDates_scenario sample_all_done E) as [Hpc _].
    exists r, w'. split; [reflexivity|exact Hpc].
Defined.

(** C8: with [copy_control] on, two distinct jobs of a batch are given
    distinct CONTROL files (the path ends with the job id), none of them
    the base file; the file of each job holds the base text, as read once
    before the jobs were built, rewritten for the job's interval; and
    writing anything to the base file afterwards leaves those files as they
    are. *)
Theorem isolated_control_files exe_file ctrl_file date_list outputdir time_out
    time_out_retry job_prefix verbose w jl w' :
  prepareJobList exe_file ctrl_file date_list outputdir time_out time_out_retry
    job_prefix true verbose w = (Val jl, w') ->
  exists base,
    fs w !! ctrl_file = Some (File base)
    /\ (forall i i' j j',
          jl !! i = Some j -> jl !! i' = Some j' -> i <> i' ->
          args j !! 4%nat <> args j' !! 4%nat)
    /\ (forall j, j ∈ jl ->
          exists pos d c,
            date_list !! pos = Some d
            /\ j = job_at exe_file ctrl_file date_list outputdir time_out
                     time_out_retry job_prefix true pos d
            /\ args j !! 4%nat = Some c
            /\ c = (let '(ctrl_folder, ctrl_fname) := Py.path_split ctrl_file in
                    Py.path_join ctrl_folder
                      (ctrl_fname +:+ "_" +:+ job_prefix +:+ "_"
                       +:+ job_id date_list pos))
            /\ c <> ctrl_file
            /\ fs w' !! c = Some (File (control_text base d.1 d.2))
            /\ (forall node',
                  <[ctrl_file := node']> (fs w') !! c
                  = Some (File (control_text base d.1 d.2))))
    /\ (forall start_date end_date w0,
          (replaceControlDates base start_date end_date w0).1
          = Val (control_text base start_date end_date)).
Proof.
  intros Hrun.
  destruct (prepareJobList_inv _ _ _ _ _ _ _ _ _ _ _ _ Hrun)
    as (base & K & out & Hbase & -> & Hsub & Hfs & _).
  assert (Hnd : NoDup (fst <$> K)).
  { eapply sublist_NoDup; [apply (candidates_NoDup_fst date_list O)|].
    apply fmap_sublist. exact Hsub. }
  assert (Hlt : forall y, y ∈ K -> (y.1 < List.length date_list)%nat).
  { intros y Hy. apply candidate_position. exact (sublist_subseteq _ _ Hsub y Hy). }
  exists base. split; [exact Hbase|]. split; [|split].
  - intros i i' j j' Hi Hi' Hne Heq.
    change (map ?f K) with (f <$> K) in Hi, Hi'.
    rewrite list_lookup_fmap in Hi, Hi'.
    destruct (K !! i) as [x|] eqn:Hx; [|discriminate].
    destruct (K !! i') as [x'|] eqn:Hx'; [|discriminate].
    injection Hi as <-. injection Hi' as <-. simpl in Heq.
    injection Heq as Heq. apply control_path_inj in Heq.
    + apply Hne. apply (NoDup_lookup _ _ _ x.1 Hnd);
        rewrite list_lookup_fmap; [rewrite Hx|rewrite Hx', Heq]; reflexivity.
    + apply Hlt. apply list_elem_of_lookup. eauto.
    + apply Hlt. apply list_elem_of_lookup. eauto.
  - intros j Hj. apply list_elem_of_fmap in Hj as ([pos d] & -> & Hx).
    exists pos, d, (control_path ctrl_file date_list job_prefix true pos).
    assert (Hc : fs w' !! control_path ctrl_file date_list job_prefix true pos
                 = Some (File (control_text base d.1 d.2))).
    { rewrite Hfs.
      apply (foldl_put_lookup ctrl_file date_list job_prefix base K (fs w)
               (pos, d) Hlt Hnd Hx). }
    split; [apply candidate_at; exact (sublist_subseteq _ _ Hsub _ Hx)|].
    split; [reflexivity|]. split; [reflexivity|].
    split; [unfold control_path, job_control_file;
            destruct (Py.path_split ctrl_file); reflexivity|].
    split; [apply control_path_not_base|]. split; [exact Hc|].
    intros node'. rewrite lookup_insert_ne; [exact Hc|].
    intros E. symmetry in E. revert E. apply control_path_not_base.
  - intros s e w0.
    destruct (replaceControlDates_text base s e w0) as (w1 & -> & _).
    reflexivity.
Qed.

Lemma isolated_control_files_witness :
  exists jl w' base,
    prepareJobList "/fx/Source/Python/submit.py" "/fx/Run/Control/CTRL"
      sample_dates "/out" (Some 14400) 3 "EI" true true sample_world
    = (Val jl, w')
    /\ fs sample_world !! "/fx/Run/Control/CTRL" = Some (File base)
    /\ (forall i i' j j',
          jl !! i = Some j -> jl !! i' = Some j' -> i <> i' ->
          args j !! 4%nat <> args j' !! 4%nat).
Proof.
  destruct (prepareJobList "/fx/Source/Python/submit.py" "/fx/Run/Control/CTRL"
              sample_dates "/out" (Some 14400) 3 "EI" true true sample_world)
    as [r w'] eqn:E.
  assert (Hr : exists jl, r = Val jl).
  { apply (f_equal fst) in E. simpl in E. rewrite <- E. vm_compute. eauto. }
  destruct Hr as [jl ->].
  destruct (isolated_control_files _ _ _ _ _ _ _ _ _ _ _ E)
    as (base & Hb & Hd & _).
  exists jl, w', base. auto.
Defined.

(** C10: every prepared job is the job of its position: the prepared list
    is a sublist of the list of the jobs of all positions, whatever the
    file system holds; the id of the job at position i is str(i) padded
    with zeros to the width of str(n), n the number of intervals; its
    directories and its log name are made of the output root, the prefix,
    that id and the interval bounds; so two runs over the same intervals,
    whatever each skips, give the same job for the same id. *)
Theorem job_identity_is_positional exe_file ctrl_file date_list outputdir
    time_out time_out_retry job_prefix copy_control verbose w jl w' :
  prepareJobList exe_file ctrl_file date_list outputdir time_out time_out_retry
    job_prefix copy_control verbose w = (Val jl, w') ->
  sublist jl
    (imap (job_at exe_file ctrl_file date_list outputdir time_out
             time_out_retry job_prefix copy_control) date_list)
  /\ (forall pos d,
        let j := job_at exe_file ctrl_file date_list outputdir time_out
                   time_out_retry job_prefix copy_control pos d in
        let id := Py.rjust (Py.str (Z.of_nat pos))
                    (String.length (Py.str (Z.of_nat (List.length date_list))))
                    "0"%char in
        let name := job_prefix +:+ "_" +:+ id +:+ "_" +:+ d.1 +:+ "-" +:+ d.2 in
        job_dates j = (id, d.1, d.2)
        /\ args j !! 6%nat = Some (Py.path_join outputdir name +:+ "_tmp")
        /\ args j !! 8%nat = Some (Py.path_join outputdir name +:+ "_out")
        /\ logfile j = job_prefix +:+ "_" +:+ id +:+ ".txt")
  /\ (forall verbose2 w2 jl2 w2' j j2,
        prepareJobList exe_file ctrl_file date_list outputdir time_out
          time_out_retry job_prefix copy_control verbose2 w2 = (Val jl2, w2') ->
        j ∈ jl -> j2 ∈ jl2 ->
        (job_dates j).1.1 = (job_dates j2).1.1 -> j = j2).
Proof.
  intros Hrun.
  destruct (prepareJobList_inv _ _ _ _ _ _ _ _ _ _ _ _ Hrun)
    as (base & K & out & _ & -> & Hsub & _).
  split; [|split].
  - assert (Him :
      map (fun x : nat * date_pair =>
             job_at exe_file ctrl_file date_list outputdir time_out
               time_out_retry job_prefix copy_control x.1 x.2)
          (candidates O date_list)
      = imap (job_at exe_file ctrl_file date_list outputdir time_out
                time_out_retry job_prefix copy_control) date_list)
      by exact (candidates_imap
                  (job_at exe_file ctrl_file date_list outputdir time_out
                     time_out_retry job_prefix copy_control) date_list O).
    rewrite <- Him. apply fmap_sublist. exact Hsub.
  - intros pos d. cbv zeta. repeat split; reflexivity.
  - intros verbose2 w2 jl2 w2' j j2 Hrun2 Hj Hj2 Hid.
    destruct (prepareJobList_inv _ _ _ _ _ _ _ _ _ _ _ _ Hrun2)
      as (base2 & K2 & out2 & _ & -> & Hsub2 & _).
    apply list_elem_of_fmap in Hj as (x & -> & Hx).
    apply list_elem_of_fmap in Hj2 as (y & -> & Hy).
    rewrite (job_of_id_inj exe_file ctrl_file date_list outputdir time_out
               time_out_retry job_prefix copy_control x y
               (sublist_subseteq _ _ Hsub x Hx)
               (sublist_subseteq _ _ Hsub2 y Hy) Hid).
    reflexivity.
Qed.

Lemma job_identity_is_positional_witness :
  exists jl w',
    prepareJobList "/fx/Source/Python/submit.py" "/fx/Run/Control/CTRL"
      sample_dates "/out" (Some 14400) 3 "EI" true true sample_world
    = (Val jl, w')
    /\ sublist jl
         (imap (job_at "/fx/Source/Python/submit.py" "/fx/Run/Control/CTRL"
                  sample_dates "/out" (Some 14400) 3 "EI" true) sample_dates).
Proof.
  destruct (prepareJobList "/fx/Source/Python/submit.py" "/fx/Run/Control/CTRL"
              sample_dates "/out" (Some 14400) 3 "EI" true true sample_world)
    as [r w'] eqn:E.
  assert (Hr : exists jl, r = Val jl).
  { apply (f_equal fst) in E. simpl in E. rewrite <- E. vm_compute. eauto. }
  destruct Hr as [jl ->].
  destruct (job_identity_is_positional _ _ _ _ _ _ _ _ _ _ _ _ E) as [Hs _].
  exists jl, w'. auto.
Defined.

(** ** The entry point *)

(** C9, on the code: [main] never reads its argument [dry], it reads the
    module constant [DRY]; with [DRY] true, as the module sets it, a call
    with [dry] false still only prints the summary: no process is launched
    or killed, and the only writes are the CONTROL copies. *)
Theorem main_ignores_dry_argument procs sjd ste abspath flex_extract_folder
    control_file start_date end_date days_per_job n_workers outputdir time_out
    time_out_retry job_prefix copy_control w r w' :
  main procs sjd ste abspath true flex_extract_folder control_file start_date
    end_date days_per_job n_workers outputdir time_out time_out_retry
    job_prefix copy_control false w = (r, w') ->
  popen_calls w' = popen_calls w
  /\ (exists new,
        history w' = (history w ++ new)%list
        /\ Forall is_written new
        /\ (forall pid cmd log, Launched pid cmd log ∉ new))
  /\ (forall DRY dry dry',
        main procs sjd ste abspath DRY flex_extract_folder control_file
          start_date end_date days_per_job n_workers outputdir time_out
          time_out_retry job_prefix copy_control dry
        = main procs sjd ste abspath DRY flex_extract_folder control_file
            start_date end_date days_per_job n_workers outputdir time_out
            time_out_retry job_prefix copy_control dry').
Proof.
  intros Hrun.
  destruct (main_dry_launchless procs sjd ste abspath flex_extract_folder
              control_file start_date end_date days_per_job n_workers outputdir
              time_out time_out_retry job_prefix copy_control false w r w' Hrun)
    as (Hpc & new & Hh & Hw).
  split; [exact Hpc|]. split; [|reflexivity].
  exists new. split; [exact Hh|]. split; [exact Hw|].
  intros pid cmd log Hin. rewrite Forall_forall in Hw. exact (Hw _ Hin).
Qed.

Lemma main_ignores_dry_argument_witness :
  exists w',
    main (sample_procs (Exits 0)) sample_str_job_dates
      sample_str_timeout_expired (fun p => p) true "/fx" "CTRL" "20130203"
      "20130207" 2 2 "/out" (Some 14400) 3 "EI" true false sample_world
    = (Val tt, w')
    /\ popen_calls w' = O
    /\ "Number of jobs = 2" ∈ stdout w'.
Proof.
  destruct (main (sample_procs (Exits 0)) sample_str_job_dates
              sample_str_timeout_expired (fun p => p) true "/fx" "CTRL"
              "20130203" "20130207" 2 2 "/out" (Some 14400) 3 "EI" true false
              sample_world) as [r w'] eqn:E.
  destruct (main_ignores_dry_argument _ _ _ _ _ _ _ _ _ _ _ _ _ _ _ _ _ _ E)
    as (Hpc & _).
  assert (Hr : r = Val tt).
  { apply (f_equal fst) in E. simpl in E. rewrite <- E. vm_compute. reflexivity. }
  assert (Ho : "Number of jobs = 2" ∈ stdout w').
  { apply (f_equal snd) in E. simpl in E. rewrite <- E. vm_compute.
    repeat (first [left | right]). }
  subst r. exists w'. auto.
Defined.

(** The other way round: with [DRY] false a call with [dry] true launches
    the two jobs the sample batch still has to run. *)
Lemma main_heeds_only_the_constant :
  let w' := (main (sample_procs (Exits 0)) sample_str_job_dates
               sample_str_timeout_expired (fun p => p) false "/fx" "CTRL"
               "20130203" "20130207" 2 2 "/out" (Some 14400) 3 "EI" true true
               sample_world).2 in
  popen_calls w' = 2%nat
  /\ List.length (List.filter is_launch (history w')) = 2%nat.
Proof. vm_compute. split; reflexivity. Qed.

(** * Further properties *)

(** ** More on the runner *)

Section RunnerMore.
Variable procs : nat -> behaviour.
Variable str_job_dates : string * string * string -> string.
Variable str_timeout_expired : list string -> Z -> string.
Variables (args : list string) (job_dates : string * string * string)
(logfilename : string).

Local Notation loop := (launchJob_loop procs str_job_dates str_timeout_expired).
Local Notation run := (launchJob procs str_job_dates str_timeout_expired).
Local Notation attempt := (attempt_events args logfilename).



Lemma runner_event_mono timeout lo hi lo' hi' new new' e :
(lo' <= lo)%nat -> (hi <= hi')%nat -> new ⊆ new' ->
runner_event procs args logfilename timeout lo hi new e ->
runner_event procs args logfilename timeout lo' hi' new' e.
Proof.
intros Hlo Hhi Hsub. destruct e as [pid cmd log|pid|p content]; simpl.
- intros (-> & -> & H). repeat split; lia.
- intros (H1 & H2 & H3). repeat split; auto.
- auto.
Qed.

(** What holds of every run of the loop, however the processes behave. *)
Lemma loop_inv fuel : forall timeout retry tried ret w r w',
loop fuel args job_dates logfilename timeout retry tried ret w = (r, w') ->
exists new,
  history w' = (history w ++ new)%list
  /\ (popen_calls w <= popen_calls w')%nat
  /\ Z.of_nat (popen_calls w' - popen_calls w) <= Z.max 0 (retry - tried + 1)
  /\ (timeout = None -> (popen_calls w' <= S (popen_calls w))%nat)
  /\ Forall (runner_event procs args logfilename timeout
               (popen_calls w) (popen_calls w') new) new
  /\ (forall c, r = Val c ->
        c = ret
        \/ (Launched (popen_calls w' - 1) args logfilename ∈ new
            /\ ending (procs (popen_calls w' - 1)) = Exits c))
  /\ (List.length (List.filter is_kill new)
      <= List.length (List.filter is_launch new)
      <= popen_calls w' - popen_calls w)%nat.
Proof.
induction fuel as [|fuel IH]; intros timeout retry tried ret w r w' Hrun.
{ simpl in Hrun. injection Hrun as <- <-. exists []. rewrite app_nil_r.
  simpl. repeat split; try lia; [constructor|discriminate]. }
simpl in Hrun. destruct (Z.leb_spec tried retry) as [Hgo|Hstop].
2:{ injection Hrun as <- <-. exists []. rewrite app_nil_r.
    simpl. repeat split; try lia; [constructor|]. intros c [= ->]. auto. }
revert Hrun. unfold_m. simpl.
assert (Hone : forall (ev : list event) wz,
          popen_calls wz = S (popen_calls w) ->
          Forall (fun e => exists d, e = marker_of d) ev ->
          Forall (runner_event procs args logfilename timeout (popen_calls w)
                    (popen_calls wz)
                    (Launched (popen_calls w) args logfilename :: ev))
            (Launched (popen_calls w) args logfilename :: ev)
          /\ (List.length (List.filter is_kill
                (Launched (popen_calls w) args logfilename :: ev))
              <= List.length (List.filter is_launch
                   (Launched (popen_calls w) args logfilename :: ev))
              <= popen_calls wz - popen_calls w)%nat).
{ intros ev wz Hz Hev. split.
  - constructor; [simpl; repeat split; lia|].
    eapply Forall_impl; [exact Hev|]. intros e [d ->]. simpl. eauto.
  - simpl. rewrite Hz.
    assert (List.filter is_kill ev = [] /\ List.filter is_launch ev = []) as [-> ->].
    { induction Hev as [|e ev [d ->] _ [IH1 IH2]]; [auto|]. simpl. auto. }
    simpl. lia. }
destruct (ending (procs (popen_calls w))) as [| |msg|c0] eqn:He; simpl.
- (* the launch fails *)
  intros [= <- <-]. exists []. simpl. rewrite app_nil_r.
  repeat split; try lia; [constructor|discriminate].
- (* the process overruns *)
  rewrite He. destruct timeout as [t|]; simpl.
  + intros Hrun. apply IH in Hrun.
    destruct Hrun as (new & Hh & Hle & Hbound & _ & Hev & Hres & Hk & Hl).
    simpl in *.
    exists (attempt (popen_calls w) ++ new)%list. split.
    { rewrite Hh. unfold attempt_events. rewrite <- !app_assoc. reflexivity. }
    split; [lia|]. split; [lia|]. split; [discriminate|]. split.
    { apply Forall_app. split.
      - unfold attempt_events.
        constructor; [simpl; repeat split; lia|].
        constructor; [|constructor]. simpl.
        split; [exact He|]. split; [discriminate|]. left.
      - eapply Forall_impl; [exact Hev|]. intros e.
        apply runner_event_mono; [lia|lia|].
        intros x Hx. apply elem_of_app. right. exact Hx. }
    split.
    { intros c Hc. destruct (Hres c Hc) as [->|[Hin Hex]]; [left; reflexivity|].
      right. split; [|exact Hex]. apply elem_of_app. right. exact Hin. }
    unfold attempt_events. simpl. lia.
  + intros [= <- <-].
    destruct (Hone [] {| fs := effect (procs (popen_calls w)) (fs w);
                         stdout := (stdout w ++ [Py.nl +:+ "# <serial_batch_job>: launch of job "
                                      +:+ str_job_dates job_dates +:+ " try # "
                                      +:+ Py.str (tried + 1)])%list;
                         popen_calls := S (popen_calls w);
                         history := (history w ++ [Launched (popen_calls w) args logfilename])%list |}
                eq_refl ltac:(constructor)) as [H1 H2].
    exists [Launched (popen_calls w) args logfilename].
    split; [reflexivity|]. simpl in *.
    split; [lia|]. split; [lia|]. split; [lia|]. split; [exact H1|].
    split; [discriminate|exact H2].
- (* the wait fails *)
  rewrite He. simpl. intros [= <- <-].
  match goal with
  | |- context [history ?wz = _] =>
      destruct (Hone [] wz eq_refl ltac:(constructor)) as [H1 H2]
  end.
  exists [Launched (popen_calls w) args logfilename].
  split; [reflexivity|]. simpl in *.
  split; [lia|]. split; [lia|]. split; [lia|]. split; [exact H1|].
  split; [|exact H2]. intros c [= ->]. auto.
- (* the process exits *)
  rewrite He. simpl.
  assert (Hlast : forall (new : list event) c,
            Launched (popen_calls w) args logfilename ∈ new -> c = c0 ->
            c = ret
            \/ (Launched (S (popen_calls w) - 1) args logfilename ∈ new
                /\ ending (procs (S (popen_calls w) - 1)) = Exits c)).
  { intros new c Hin ->. right. replace (S (popen_calls w) - 1)%nat
      with (popen_calls w) by lia. auto. }
  assert (Hcase : forall (ev : list event) rz wz,
            popen_calls wz = S (popen_calls w) ->
            history wz = (history w ++ Launched (popen_calls w) args logfilename :: ev)%list ->
            Forall (fun e => exists d, e = marker_of d) ev ->
            (forall c, rz = Val c -> c = c0) ->
            exists new,
              history wz = (history w ++ new)%list
              /\ (popen_calls w <= popen_calls wz)%nat
              /\ Z.of_nat (popen_calls wz - popen_calls w) <= Z.max 0 (retry - tried + 1)
              /\ (timeout = None -> (popen_calls wz <= S (popen_calls w))%nat)
              /\ Forall (runner_event procs args logfilename timeout
                           (popen_calls w) (popen_calls wz) new) new
              /\ (forall c, rz = Val c ->
                    c = ret
                    \/ (Launched (popen_calls wz - 1) args logfilename ∈ new
                        /\ ending (procs (popen_calls wz - 1)) = Exits c))
              /\ (List.length (List.filter is_kill new)
                  <= List.length (List.filter is_launch new)
                  <= popen_calls wz - popen_calls w)%nat).
  { intros ev rz wz Hz Hh Hev Hrz.
    destruct (Hone ev wz Hz Hev) as [H1 H2].
    exists (Launched (popen_calls w) args logfilename :: ev).
    split; [exact Hh|]. rewrite Hz in *.
    split; [lia|]. split; [lia|]. split; [lia|]. split; [exact H1|].
    split; [|exact H2]. intros c Hc. apply Hlast; [left|auto]. }
  destruct (Z.eqb_spec c0 0) as [->|Hc].
  + destruct (Py.index args "--outputdir") as [i|e| |] eqn:Hi; simpl.
    2-4: intros [= <- <-]; apply (Hcase []); simpl;
         [reflexivity|reflexivity|constructor|discriminate].
    destruct (Py.item args (i + 1)) as [d|e| |] eqn:Hd; simpl.
    2-4: intros [= <- <-]; apply (Hcase []); simpl;
         [reflexivity|reflexivity|constructor|discriminate].
    destruct (bool_decide _) eqn:Hfound; simpl.
    * intros [= <- <-]. apply (Hcase [marker_of d]); simpl.
      -- reflexivity.
      -- rewrite <- app_assoc. reflexivity.
      -- constructor; [eauto|constructor].
      -- intros c [= <-]. reflexivity.
    * intros [= <- <-]. apply (Hcase []); simpl.
      -- reflexivity.
      -- reflexivity.
      -- constructor.
      -- intros c [= <-]. reflexivity.
  + intros [= <- <-]. apply (Hcase []); simpl.
    * reflexivity.
    * reflexivity.
    * constructor.
    * intros c [= <-]. reflexivity.
Qed.

Lemma launchJob_inv timeout retry w r w' :
run args job_dates logfilename timeout retry w = (r, w') ->
exists new,
  history w' = (history w ++ Written logfilename "" :: new)%list
  /\ (popen_calls w <= popen_calls w')%nat
  /\ Z.of_nat (popen_calls w' - popen_calls w) <= Z.max 0 (retry + 1)
  /\ (timeout = None -> (popen_calls w' <= S (popen_calls w))%nat)
  /\ Forall (runner_event procs args logfilename timeout
               (popen_calls w) (popen_calls w') new) new
  /\ (forall c, r = Val c ->
        c = 1
        \/ (Launched (popen_calls w' - 1) args logfilename ∈ new
            /\ ending (procs (popen_calls w' - 1)) = Exits c))
  /\ (List.length (List.filter is_kill new)
      <= List.length (List.filter is_launch new)
      <= popen_calls w' - popen_calls w)%nat.
Proof.
unfold launchJob. unfold bind at 1, write_file at 1.
intros Hrun. apply loop_inv in Hrun.
destruct Hrun as (new & Hh & Hle & Hbound & Hnone & Hev & Hres & Hcount).
simpl in *.
exists new. split; [rewrite Hh, <- app_assoc; reflexivity|].
repeat split; auto; lia.
Qed.

End RunnerMore.






(** X2: in every run of the runner, however the processes end, at most
    [max 0 (retry + 1)] processes are started, the kills are at most as
    many as the launches, and the first thing the run does is truncate the
    log file. *)
Theorem launchJob_attempts_bounded procs sjd ste args jd log timeout retry w r w' :
  launchJob procs sjd ste args jd log timeout retry w = (r, w') ->
  exists new,
    history w' = (history w ++ Written log "" :: new)%list
    /\ (popen_calls w <= popen_calls w')%nat
    /\ Z.of_nat (popen_calls w' - popen_calls w) <= Z.max 0 (retry + 1)
    /\ Z.of_nat (List.length (List.filter is_launch new)) <= Z.max 0 (retry + 1)
    /\ (List.length (List.filter is_kill new)
        <= List.length (List.filter is_launch new))%nat.
Proof.
  intros Hrun. apply launchJob_inv in Hrun.
  destruct Hrun as (new & Hh & Hle & Hbound & _ & _ & _ & Hk & Hl).
  exists new. repeat split; auto. lia.
Qed.

Lemma launchJob_attempts_bounded_witness :
  exists new,
    history (launchJob sample_flaky_procs sample_str_job_dates
               sample_str_timeout_expired sample_args sample_job_dates
               "EI_0.txt" (Some 14400) 1 sample_world).2
    = (history sample_world ++ Written "EI_0.txt" "" :: new)%list
    /\ Z.of_nat (List.length (List.filter is_launch new)) <= Z.max 0 (1 + 1).
Proof.
  destruct (launchJob_attempts_bounded sample_flaky_procs sample_str_job_dates
              sample_str_timeout_expired sample_args sample_job_dates
              "EI_0.txt" (Some 14400) 1 sample_world
              (launchJob sample_flaky_procs sample_str_job_dates
                 sample_str_timeout_expired sample_args sample_job_dates
                 "EI_0.txt" (Some 14400) 1 sample_world).1
              (launchJob sample_flaky_procs sample_str_job_dates
                 sample_str_timeout_expired sample_args sample_job_dates
                 "EI_0.txt" (Some 14400) 1 sample_world).2)
    as (new & Hh & _ & _ & Hl & _).
  - apply surjective_pairing.
  - exists new. split; [exact Hh|exact Hl].
Defined.

(** X3: the runner kills only what it launched and only after a timeout:
    in every run, each launch is of the job's command with the job's log
    file, and each killed process was launched by this run, overran, and
    the timeout was finite; every write after the log's truncation is a
    marker write. *)
Theorem launchJob_kills_only_overrunning procs sjd ste args jd log timeout retry
    w r w' :
  launchJob procs sjd ste args jd log timeout retry w = (r, w') ->
  exists new,
    history w' = (history w ++ Written log "" :: new)%list
    /\ (forall pid cmd l, Launched pid cmd l ∈ new ->
          cmd = args /\ l = log /\ (popen_calls w <= pid < popen_calls w')%nat)
    /\ (forall pid, Killed pid ∈ new ->
          Launched pid args log ∈ new
          /\ ending (procs pid) = Overruns
          /\ timeout <> None)
    /\ (forall p content, Written p content ∈ new ->
          exists d, p = Py.path_join d "job_done" /\ content = "job done.").
Proof.
  intros Hrun. apply launchJob_inv in Hrun.
  destruct Hrun as (new & Hh & _ & _ & _ & Hev & _).
  exists new. split; [exact Hh|].
  rewrite Forall_forall in Hev. split; [|split].
  - intros pid cmd l Hin. exact (Hev _ Hin).
  - intros pid Hin. destruct (Hev _ Hin) as (H1 & H2 & H3). auto.
  - intros p content Hin. exact (Hev _ Hin).
Qed.

Lemma launchJob_kills_only_overrunning_witness :
  exists new,
    history (launchJob sample_flaky_procs sample_str_job_dates
               sample_str_timeout_expired sample_args sample_job_dates
               "EI_0.txt" (Some 14400) 3 sample_world).2
    = (history sample_world ++ Written "EI_0.txt" "" :: new)%list
    /\ (forall pid, Killed pid ∈ new ->
          ending (sample_flaky_procs pid) = Overruns).
Proof.
  destruct (launchJob_kills_only_overrunning sample_flaky_procs
              sample_str_job_dates sample_str_timeout_expired sample_args
              sample_job_dates "EI_0.txt" (Some 14400) 3 sample_world
              (launchJob sample_flaky_procs sample_str_job_dates
                 sample_str_timeout_expired sample_args sample_job_dates
                 "EI_0.txt" (Some 14400) 3 sample_world).1
              (launchJob sample_flaky_procs sample_str_job_dates
                 sample_str_timeout_expired sample_args sample_job_dates
                 "EI_0.txt" (Some 14400) 3 sample_world).2)
    as (new & Hh & _ & Hk & _).
  - apply surjective_pairing.
  - exists new. split; [exact Hh|]. intros pid Hin. apply (Hk pid Hin).
Defined.

(** X4: the value the runner returns is 1, the initial value of [ret], or
    the exit code of the last process it launched; so it returns 0 only
    when a process it launched exited with code 0. *)
Theorem launchJob_result_is_exit_code procs sjd ste args jd log timeout retry
    w c w' :
  launchJob procs sjd ste args jd log timeout retry w = (Val c, w') ->
  (c = 1
   \/ (ending (procs (popen_calls w' - 1)%nat) = Exits c
       /\ (popen_calls w < popen_calls w')%nat))
  /\ (c = 0 ->
      exists pid, Launched pid args log ∈ history w'
                  /\ (popen_calls w <= pid)%nat
                  /\ ending (procs pid) = Exits 0).
Proof.
  intros Hrun. apply launchJob_inv in Hrun.
  destruct Hrun as (new & Hh & Hle & _ & _ & Hev & Hres & _).
  rewrite Forall_forall in Hev.
  destruct (Hres c eq_refl) as [->|[Hin Hex]].
  - split; [left; reflexivity|discriminate].
  - pose proof (Hev _ Hin) as (_ & _ & Hrange). split.
    + right. split; [exact Hex|lia].
    + intros ->. exists (popen_calls w' - 1)%nat. split; [|split; [lia|exact Hex]].
      rewrite Hh. apply elem_of_app. right. right. exact Hin.
Qed.

Lemma launchJob_result_is_exit_code_witness :
  exists pid,
    Launched pid sample_args "EI_0.txt"
      ∈ history (launchJob sample_flaky_procs sample_str_job_dates
                   sample_str_timeout_expired sample_args sample_job_dates
                   "EI_0.txt" (Some 14400) 3 sample_world).2
    /\ ending (sample_flaky_procs pid) = Exits 0.
Proof.
  destruct (launchJob_result_is_exit_code sample_flaky_procs
              sample_str_job_dates sample_str_timeout_expired sample_args
              sample_job_dates "EI_0.txt" (Some 14400) 3 sample_world 0
              (launchJob sample_flaky_procs sample_str_job_dates
                 sample_str_timeout_expired sample_args sample_job_dates
                 "EI_0.txt" (Some 14400) 3 sample_world).2)
    as [_ H].
  - vm_compute. reflexivity.
  - destruct (H eq_refl) as (pid & Hin & _ & Hex). exists pid. auto.
Defined.

(** X5: without a timeout the runner never kills and never retries: every
    run starts at most one process, whatever [retry] is; and when that
    process never ends, neither does the run. *)
Theorem launchJob_without_timeout procs sjd ste args jd log retry w :
  (forall r w',
     launchJob procs sjd ste args jd log None retry w = (r, w') ->
     (popen_calls w' <= S (popen_calls w))%nat
     /\ exists new,
          history w' = (history w ++ new)%list
          /\ (forall pid, Killed pid ∉ new)
          /\ (List.length (List.filter is_launch new) <= 1)%nat)
  /\ (0 <= retry -> ending (procs (popen_calls w)) = Overruns ->
      (launchJob procs sjd ste args jd log None retry w).1 = Hang).
Proof.
  split.
  - intros r w' Hrun. apply launchJob_inv in Hrun.
    destruct (Hrun) as (new & Hh & Hle & _ & Hnone & Hev & _ & _ & Hl).
    specialize (Hnone eq_refl).
    split; [exact Hnone|]. exists (Written log "" :: new).
    split; [exact Hh|]. split.
    + intros pid Hin. apply elem_of_cons in Hin as [?|Hin]; [discriminate|].
      rewrite Forall_forall in Hev. apply Hev in Hin as (_ & Hne & _).
      apply Hne. reflexivity.
    + simpl. lia.
  - intros Hr He. unfold launchJob. unfold bind at 1. unfold write_file at 1.
    simpl. destruct (Z.leb_spec 0 retry); [|lia].
    unfold_m. simpl. rewrite He. simpl. rewrite He. reflexivity.
Qed.

Lemma launchJob_without_timeout_witness :
  (launchJob (sample_procs Overruns) sample_str_job_dates
     sample_str_timeout_expired sample_args sample_job_dates "EI_0.txt"
     None 3 sample_world).1 = Hang.
Proof.
  apply (launchJob_without_timeout (sample_procs Overruns) sample_str_job_dates
           sample_str_timeout_expired sample_args sample_job_dates "EI_0.txt"
           3 sample_world).
  - lia.
  - reflexivity.
Defined.

(** X6: with a negative [retry] the loop body is never entered: nothing is
    launched and the runner returns 1, yet the log file has been
    truncated. *)
Theorem launchJob_negative_retry procs sjd ste args jd log timeout retry w :
  retry < 0 ->
  launchJob procs sjd ste args jd log timeout retry w
  = (Val 1, {| fs := <[log := File ""]> (fs w); stdout := stdout w;
               popen_calls := popen_calls w;
               history := (history w ++ [Written log ""])%list |}).
Proof.
  intros Hr. unfold launchJob. unfold bind at 1. unfold write_file at 1.
  simpl. destruct (Z.leb_spec 0 retry); [lia|]. reflexivity.
Qed.

Lemma launchJob_negative_retry_witness :
  launchJob (sample_procs (Exits 0)) sample_str_job_dates
    sample_str_timeout_expired sample_args sample_job_dates "EI_0.txt"
    (Some 14400) (-1) sample_world
  = (Val 1, {| fs := <["EI_0.txt" := File ""]> sample_fs; stdout := [];
               popen_calls := O; history := [Written "EI_0.txt" ""] |}).
Proof.
  apply (launchJob_negative_retry (sample_procs (Exits 0)) sample_str_job_dates
           sample_str_timeout_expired sample_args sample_job_dates "EI_0.txt"
           (Some 14400) (-1) sample_world).
  lia.
Defined.

(** X7: the look-up of the output directory is outside the [try]: when the
    first process exits with code 0 and the command has no [--outputdir]
    option, or has it as its last word, the [ValueError] or [IndexError]
    leaves the runner, which returns no result and writes no marker,
    although the process succeeded. *)
Theorem launchJob_outputdir_lookup_escapes procs sjd ste args jd log timeout
    retry w e :
  0 <= retry ->
  ending (procs (popen_calls w)) = Exits 0 ->
  (i <-? Py.index args "--outputdir"; Py.item args (i + 1)) = Err e ->
  (e = ValueError \/ e = IndexError)
  /\ exists w',
       launchJob procs sjd ste args jd log timeout retry w = (Err e, w')
       /\ popen_calls w' = S (popen_calls w)
       /\ history w'
          = (history w ++ [Written log ""; Launched (popen_calls w) args log])%list
       /\ fs w' = effect (procs (popen_calls w)) (<[log := File ""]> (fs w)).
Proof.
  intros Hr He Hlook. split.
  - destruct (index_returns_or_raises args "--outputdir") as [[i Hi]|Hi];
      rewrite Hi in Hlook; simpl in Hlook; [|left; congruence].
    destruct (item_returns_or_raises args (i + 1)) as [[x Hx]|Hx];
      rewrite Hx in Hlook; [discriminate|right; congruence].
  - unfold launchJob. unfold bind at 1. unfold write_file at 1. simpl.
    destruct (Z.leb_spec 0 retry); [|lia].
    unfold_m. simpl. rewrite He. simpl. rewrite He. simpl.
    destruct (Py.index args "--outputdir") as [i| | |]; simpl in Hlook |- *;
      try discriminate.
    + rewrite Hlook. simpl. eexists. split; [reflexivity|]. simpl.
      rewrite <- app_assoc. auto.
    + injection Hlook as ->. eexists. split; [reflexivity|]. simpl.
      rewrite <- app_assoc. auto.
Qed.

Lemma launchJob_outputdir_lookup_escapes_witness :
  exists w',
    launchJob (sample_procs (Exits 0)) sample_str_job_dates
      sample_str_timeout_expired ["python"; "submit.py"; "--outputdir"]
      sample_job_dates "EI_0.txt" (Some 14400) 3 sample_world
    = (Err IndexError, w')
    /\ popen_calls w' = 1%nat.
Proof.
  destruct (launchJob_outputdir_lookup_escapes (sample_procs (Exits 0))
              sample_str_job_dates sample_str_timeout_expired
              ["python"; "submit.py"; "--outputdir"]
              sample_job_dates "EI_0.txt" (Some 14400) 3 sample_world IndexError)
    as [_ (w' & Hrun & Hpc & _)].
  - lia.
  - reflexivity.
  - reflexivity.
  - exists w'. split; [exact Hrun|exact Hpc].
Defined.

(** X8: an exception raised by [wait] other than the timeout ends the job
    at once: one launch, no retry, no kill of the process, no marker, and
    the runner returns 1. *)
Theorem launchJob_wait_error_is_contained procs sjd ste args jd log timeout
    retry w msg :
  0 <= retry -> ending (procs (popen_calls w)) = WaitFails msg ->
  exists w',
    launchJob procs sjd ste args jd log timeout retry w = (Val 1, w')
    /\ popen_calls w' = S (popen_calls w)
    /\ history w'
       = (history w ++ [Written log ""; Launched (popen_calls w) args log])%list
    /\ msg ∈ stdout w'.
Proof.
  intros Hr He. unfold launchJob.
  unfold bind at 1. unfold write_file at 1. simpl.
  destruct (Z.leb_spec 0 retry); [|lia].
  unfold_m. simpl. rewrite He. simpl. rewrite He. simpl.
  eexists. split; [reflexivity|]. simpl. rewrite <- app_assoc.
  split; [reflexivity|]. split; [reflexivity|].
  rewrite !elem_of_app. right. left.
Qed.

Lemma launchJob_wait_error_is_contained_witness :
  exists w',
    launchJob (sample_procs (WaitFails "interrupted")) sample_str_job_dates
      sample_str_timeout_expired sample_args sample_job_dates "EI_0.txt"
      (Some 14400) 3 sample_world = (Val 1, w')
    /\ popen_calls w' = 1%nat.
Proof.
  destruct (launchJob_wait_error_is_contained (sample_procs (WaitFails "interrupted"))
              sample_str_job_dates sample_str_timeout_expired sample_args
              sample_job_dates "EI_0.txt" (Some 14400) 3 sample_world "interrupted")
    as (w' & Hrun & Hpc & _).
  - lia.
  - reflexivity.
  - exists w'. split; [exact Hrun|exact Hpc].
Defined.

(** ** More on strings, numerals and paths *)

Lemma ends_with_char_app a b c :
  b <> "" -> Py.ends_with_char (a +:+ b) c = Py.ends_with_char b c.
Proof.
  intros Hb. induction a as [|x a IH]; [reflexivity|].
  cbn [String.append]. simpl. rewrite IH.
  destruct (a +:+ b) eqn:E; [|reflexivity].
  destruct a; [simpl in E; contradiction|discriminate].
Qed.

Lemma path_join_ends a b c :
  b <> "" -> Py.ends_with_char (Py.path_join a b) c = Py.ends_with_char b c.
Proof.
  intros Hb. unfold Py.path_join.
  destruct (Py.starts_with_char b Py.slash); [reflexivity|].
  destruct (_ || _).
  - apply ends_with_char_app. exact Hb.
  - rewrite ends_with_char_app; [apply (ends_with_char_app "/"); exact Hb|].
    discriminate.
Qed.

Lemma append_nonempty_r a b : b <> "" -> a +:+ b <> "".
Proof. intros Hb. destruct a; [exact Hb|discriminate]. Qed.

Lemma append_inj_length u1 u2 r1 r2 :
  String.length u1 = String.length u2 ->
  u1 +:+ r1 = u2 +:+ r2 -> u1 = u2 /\ r1 = r2.
Proof.
  revert u2. induction u1 as [|c u1 IH]; intros [|c2 u2] Hlen; try discriminate.
  - simpl. auto.
  - cbn [String.append]. intros [= -> H]. simpl in Hlen.
    destruct (IH u2 ltac:(lia) H) as [-> ->]. auto.
Qed.

Lemma append_cancel_r a b c : a +:+ c = b +:+ c -> a = b.
Proof.
  intros H. apply append_inj_length in H; [tauto|].
  apply (f_equal String.length) in H. rewrite !length_append in H. lia.
Qed.

Lemma path_join_app a b s :
  b <> "" -> Py.path_join a b +:+ s = Py.path_join a (b +:+ s).
Proof.
  intros Hb. unfold Py.path_join. rewrite (starts_with_char_app b s) by exact Hb.
  destruct (Py.starts_with_char b Py.slash); [reflexivity|].
  destruct (_ || _); rewrite <- ?append_assoc; reflexivity.
Qed.

Lemma pretty_N_go_app x : forall s, pretty_N_go x s = pretty_N_go x "" +:+ s.
Proof.
  induction (N.lt_wf_0 x) as [x _ IH]; intros s.
  destruct (N.eq_dec x 0%N) as [->|Hx]; [rewrite !pretty_N_go_0; reflexivity|].
  rewrite !(pretty_N_go_step x) by lia.
  rewrite (IH (x `div` 10)%N) by (apply N.div_lt; lia).
  rewrite (IH (x `div` 10)%N ltac:(apply N.div_lt; lia) (String _ "")).
  rewrite <- append_assoc. reflexivity.
Qed.

Lemma pretty_N_char_digit d :
  (d < 10)%N ->
  Py.is_digit (pretty_N_char d) = true /\ Py.digit_val (pretty_N_char d) = Z.of_N d.
Proof.
  intros H.
  assert (d = 0 \/ d = 1 \/ d = 2 \/ d = 3 \/ d = 4 \/ d = 5 \/ d = 6 \/ d = 7
          \/ d = 8 \/ d = 9)%N as Hc by lia.
  repeat (destruct Hc as [->|Hc]; [split; reflexivity|]). subst. split; reflexivity.
Qed.

Lemma parse_digits_app a : forall acc b,
  Py.parse_digits acc (a +:+ b)
  = match Py.parse_digits acc a with
    | Some v => Py.parse_digits v b
    | None => None
    end.
Proof.
  induction a as [|c a IH]; intros acc b; [reflexivity|].
  cbn [String.append]. simpl. destruct (Py.is_digit c); [apply IH|reflexivity].
Qed.

Lemma parse_digits_pretty_N_go x :
  Py.parse_digits 0 (pretty_N_go x "") = Some (Z.of_N x).
Proof.
  induction (N.lt_wf_0 x) as [x _ IH].
  destruct (N.eq_dec x 0%N) as [->|Hx]; [reflexivity|].
  rewrite pretty_N_go_step by lia. rewrite pretty_N_go_app, parse_digits_app.
  rewrite IH by (apply N.div_lt; lia).
  destruct (pretty_N_char_digit (x `mod` 10)%N) as [Hd Hv];
    [apply N.mod_lt; lia|].
  simpl. rewrite Hd, Hv. f_equal.
  rewrite (N.div_mod x 10) at 3 by lia. lia.
Qed.

Lemma parse_digits_str_nat (n : nat) :
  Py.parse_digits 0 (Py.str (Z.of_nat n)) = Some (Z.of_nat n).
Proof.
  rewrite str_of_nat. unfold pretty, pretty_N.
  destruct (decide (N.of_nat n = 0)%N) as [Hn|Hn].
  - replace n with O by lia. reflexivity.
  - rewrite parse_digits_pretty_N_go. f_equal. lia.
Qed.

Lemma parse_digits_zeros k s :
  Py.parse_digits 0 (Py.replicate_char k Py.zero +:+ s) = Py.parse_digits 0 s.
Proof. induction k as [|k IH]; [reflexivity|]. cbn [Py.replicate_char String.append]. simpl. exact IH. Qed.

Lemma parse_digits_last s : forall acc v c,
  Py.parse_digits acc s = Some v -> Py.ends_with_char s c = true ->
  Py.is_digit c = true.
Proof.
  induction s as [|x s IH]; intros acc v c; simpl; [discriminate|].
  destruct (Py.is_digit x) eqn:Hx; [|discriminate].
  destruct s as [|y s].
  - intros _. destruct (ascii_dec x c) as [->|]; [auto|discriminate].
  - intros Hp He. eapply IH; eauto.
Qed.

Lemma flag_ends f :
  f ∈ job_flags ->
  Py.ends_with_char f "e" = true \/ Py.ends_with_char f "r" = true.
Proof.
  unfold job_flags. intros Hf.
  apply elem_of_cons in Hf as [->|Hf]; [left; reflexivity|].
  apply elem_of_cons in Hf as [->|Hf]; [right; reflexivity|].
  apply elem_of_cons in Hf as [->|Hf]; [right; reflexivity|].
  inversion Hf.
Qed.

Section IdsMore.
Variable date_list : list date_pair.

Lemma job_id_parse pos :
Py.parse_digits 0 (job_id date_list pos) = Some (Z.of_nat pos).
Proof. unfold job_id, Py.rjust. rewrite parse_digits_zeros. apply parse_digits_str_nat. Qed.

Lemma job_id_length pos :
(pos <= List.length date_list)%nat ->
String.length (job_id date_list pos)
= String.length (Py.str (Z.of_nat (List.length date_list))).
Proof.
intros Hp. unfold job_id, Py.rjust.
rewrite length_append, length_replicate_char.
pose proof (str_nat_length_mono pos (List.length date_list) Hp). lia.
Qed.

Lemma job_id_nonempty pos : job_id date_list pos <> "".
Proof.
intros E. pose proof (job_id_parse pos) as H. rewrite E in H.
unfold job_id, Py.rjust in E. apply (f_equal String.length) in E.
rewrite length_append in E.
pose proof (str_nat_length_mono pos pos ltac:(lia)). simpl in E. lia.
Qed.

Lemma job_id_ends_digit pos c :
Py.ends_with_char (job_id date_list pos) c = true -> Py.is_digit c = true.
Proof. apply (parse_digits_last _ _ _ _ (job_id_parse pos)). Qed.

(** The copy of the CONTROL file of a job ends with a digit. *)
Lemma control_path_ends_digit ctrl_file job_prefix pos c :
Py.ends_with_char (control_path ctrl_file date_list job_prefix true pos) c = true ->
Py.is_digit c = true.
Proof.
unfold control_path, job_control_file.
destruct (Py.path_split ctrl_file) as [folder fname].
rewrite path_join_ends.
- rewrite !append_assoc. rewrite ends_with_char_app by apply job_id_nonempty.
  apply job_id_ends_digit.
- rewrite !append_assoc. apply append_nonempty_r, job_id_nonempty.
Qed.

Lemma marker_path_ends outputdir job_prefix pos d :
Py.ends_with_char (marker_path date_list outputdir job_prefix pos d) "e" = true.
Proof. unfold marker_path. rewrite path_join_ends by discriminate. reflexivity. Qed.

Lemma control_path_not_marker ctrl_file outputdir job_prefix pos q d :
control_path ctrl_file date_list job_prefix true pos
<> marker_path date_list outputdir job_prefix q d.
Proof.
intros E. pose proof (marker_path_ends outputdir job_prefix q d) as H.
rewrite <- E in H. apply control_path_ends_digit in H. discriminate.
Qed.

Lemma control_path_not_flag ctrl_file job_prefix copy pos f :
f ∈ job_flags -> ctrl_file ∉ job_flags ->
control_path ctrl_file date_list job_prefix copy pos <> f.
Proof.
intros Hf Hc E. destruct copy.
- destruct (flag_ends f Hf) as [Hr|Hr]; rewrite <- E in Hr;
    apply control_path_ends_digit in Hr; discriminate.
- simpl in E. subst f. contradiction.
Qed.

End IdsMore.

(** ** More on the job builder *)

Lemma index_found l : forall k x,
  l !! k = Some x -> exists i, Py.index l x = Val i /\ (i <= k)%nat.
Proof.
  induction l as [|y l IH]; intros k x Hk; [discriminate|].
  simpl. destruct (String.eqb_spec y x) as [->|Hne].
  - exists O. split; [reflexivity|lia].
  - destruct k as [|k]; [simpl in Hk; congruence|].
    destruct (IH k x Hk) as (i & -> & Hi). exists (S i). split; [reflexivity|lia].
Qed.

Lemma index_skip y l x :
  y <> x -> Py.index (y :: l) x = (i <-? Py.index l x; Val (S i)).
Proof. intros H. simpl. destruct (String.eqb_spec y x); [contradiction|reflexivity]. Qed.

Lemma index_here l x : Py.index (x :: l) x = Val O.
Proof. simpl. rewrite String.eqb_refl. reflexivity. Qed.

Lemma tmp_not_flag s f : f ∈ job_flags -> s +:+ "_tmp" <> f.
Proof.
  intros Hf E.
  destruct (flag_ends f Hf) as [Hr|Hr];
    rewrite <- E, ends_with_char_app in Hr by discriminate; discriminate.
Qed.

Section BuiltMore.

Variables (exe_file ctrl_file : string) (date_list : list date_pair)
(outputdir : string) (time_out : option Z) (time_out_retry : Z)
(job_prefix : string) (copy_control : bool).

Local Notation job_of :=
(fun x : nat * date_pair =>
   job_at exe_file ctrl_file date_list outputdir time_out time_out_retry
     job_prefix copy_control x.1 x.2).
Local Notation the_job :=
(job_at exe_file ctrl_file date_list outputdir time_out time_out_retry
   job_prefix copy_control).
Local Notation kept := (unmarked date_list outputdir job_prefix).

(** The option values of a prepared job, as the look-ups by option name
  find them. *)
Lemma job_args_lookup pos d :
exe_file ∉ job_flags -> ctrl_file ∉ job_flags ->
(i <-? Py.index (args (the_job pos d)) "--controlfile";
 Py.item (args (the_job pos d)) (i + 1))
= Val (control_path ctrl_file date_list job_prefix copy_control pos)
/\ (i <-? Py.index (args (the_job pos d)) "--inputdir";
    Py.item (args (the_job pos d)) (i + 1))
   = Val (job_dir outputdir job_prefix (job_id date_list pos) d.1 d.2 +:+ "_tmp")
/\ Py.index (args (the_job pos d)) "--outputdir" = Val 7%nat
/\ Py.item (args (the_job pos d)) (7 + 1) = Val (out_dir date_list outputdir job_prefix pos d).
Proof.
intros He Hc.
assert (Hflag : forall f, f ∈ job_flags ->
          exe_file <> f
          /\ control_path ctrl_file date_list job_prefix copy_control pos <> f
          /\ job_dir outputdir job_prefix (job_id date_list pos) d.1 d.2 +:+ "_tmp" <> f).
{ intros f Hf. split; [intros ->; contradiction|]. split.
  - apply control_path_not_flag; assumption.
  - apply tmp_not_flag. exact Hf. }
destruct (Hflag "--controlfile") as (E1 & _ & _); [left|].
destruct (Hflag "--inputdir") as (E2 & C2 & _); [right; left|].
destruct (Hflag "--outputdir") as (E3 & C3 & T3); [right; right; left|].
unfold job_at. cbn [args].
repeat split.
- rewrite (index_skip "python") by discriminate.
  rewrite (index_skip "-u") by discriminate.
  rewrite (index_skip exe_file) by exact E1.
  rewrite index_here. reflexivity.
- rewrite (index_skip "python") by discriminate.
  rewrite (index_skip "-u") by discriminate.
  rewrite (index_skip exe_file) by exact E2.
  rewrite (index_skip "--controlfile") by discriminate.
  rewrite (index_skip _ _ _ C2).
  rewrite index_here. reflexivity.
- rewrite (index_skip "python") by discriminate.
  rewrite (index_skip "-u") by discriminate.
  rewrite (index_skip exe_file) by exact E3.
  rewrite (index_skip "--controlfile") by discriminate.
  rewrite (index_skip _ _ _ C3).
  rewrite (index_skip "--inputdir") by discriminate.
  rewrite (index_skip _ _ _ T3).
  rewrite index_here. reflexivity.
Qed.

(** The look-ups of [printJobSummary] never fail on a prepared job. *)
Lemma job_args_found pos d f k :
args (the_job pos d) !! k = Some f -> (k < 8)%nat ->
exists v, (i <-? Py.index (args (the_job pos d)) f;
           Py.item (args (the_job pos d)) (i + 1)) = Val v.
Proof.
intros Hk Hlt. destruct (index_found _ _ _ Hk) as (i & -> & Hi).
cbn [res_bind]. unfold Py.item.
destruct (nth_error (args (the_job pos d)) (i + 1)) as [v|] eqn:E.
- exists v. reflexivity.
- apply nth_error_None in E. simpl in E. lia.
Qed.

Lemma job_of_inj x y :
x ∈ candidates O date_list -> y ∈ candidates O date_list ->
job_of x = job_of y -> x = y.
Proof.
intros Hx Hy E.
apply (job_of_id_inj exe_file ctrl_file date_list outputdir time_out
         time_out_retry job_prefix copy_control); [assumption..|].
rewrite E. reflexivity.
Qed.

Variables (ctrl_folder ctrl_fname ctrl_str : string).
Hypothesis Hsplit : Py.path_split ctrl_file = (ctrl_folder, ctrl_fname).

Local Notation loop :=
(prepareJobList_loop exe_file ctrl_file date_list outputdir time_out
   time_out_retry job_prefix copy_control ctrl_folder ctrl_fname ctrl_str).

(** The loop keeps exactly the jobs whose marker is absent when it
  starts: the CONTROL copies it writes are no markers. *)
Lemma prepareJobList_loop_kept items : forall pos acc w,
(loop pos items acc w).1
= Val (acc ++ map job_of (List.filter (kept (fs w)) (candidates pos items)))%list.
Proof.
induction items as [|[t1 t2] items IH]; intros pos acc w.
- simpl. rewrite app_nil_r. reflexivity.
- cbn [prepareJobList_loop]. unfold isSkip. unfold bind at 1. unfold path_exists at 1.
  unfold candidates. cbn [List.length seq zip zip_with List.filter].
  fold (candidates (S pos) items).
  unfold unmarked at 1. cbn [fst snd]. unfold marker_path, out_dir at 1.
  cbn [fst snd].
  destruct (bool_decide _) eqn:Hskip; cbn [negb].
  + unfold bind at 1. unfold print at 1.
    rewrite IH. reflexivity.
  + unfold bind at 1. unfold print at 1.
    destruct copy_control eqn:Hcopy.
    * unfold bind at 1. unfold bind at 1.
      match goal with
      | |- context [replaceControlDates ?c ?s ?e ?w1] =>
          destruct (replaceControlDates_text c s e w1)
            as (w1' & -> & Hfs1 & Hh1 & Hpc1 & out1 & Hout1)
      end.
      unfold bind at 1. unfold write_file at 1. unfold pure at 1.
      rewrite IH. cbn [fs]. rewrite Hfs1. cbn [fs].
      rewrite <- app_assoc. cbn [map app]. f_equal. f_equal. f_equal.
      -- unfold job_at. cbn [fst snd].
         rewrite (control_path_copy ctrl_file date_list job_prefix
                    ctrl_folder ctrl_fname Hsplit). reflexivity.
      -- f_equal. apply List.filter_ext_in. intros [q e] _.
         unfold unmarked. cbn [fst snd]. rewrite lookup_insert_ne; [reflexivity|].
         rewrite <- (control_path_copy ctrl_file date_list job_prefix
                       ctrl_folder ctrl_fname Hsplit).
         apply control_path_not_marker.
    * unfold bind at 1. unfold pure at 1. rewrite IH. cbn [fs].
      rewrite <- app_assoc. reflexivity.
Qed.

End BuiltMore.

(** X9: the id of a job reads back as its position, [int(idii) == idii]
    of the enumeration, and the ids of a batch all have the width of
    [str(len(date_list))]. *)
Theorem job_id_round_trip (date_list : list date_pair) (pos : nat) :
  Py.parse_digits 0 (job_id date_list pos) = Some (Z.of_nat pos)
  /\ ((pos <= List.length date_list)%nat ->
      String.length (job_id date_list pos)
      = String.length (Py.str (Z.of_nat (List.length date_list)))).
Proof. split; [apply job_id_parse|apply job_id_length]. Qed.

Lemma job_id_round_trip_witness :
  String.length (job_id sample_dates 2) = 1%nat.
Proof.
  destruct (job_id_round_trip sample_dates 2) as [_ H].
  rewrite H; [reflexivity|]. simpl. lia.
Defined.

(** [prepareJobList] returns the jobs whose marker is absent when it
    starts. *)
Lemma prepareJobList_kept exe_file ctrl_file date_list outputdir
    time_out time_out_retry job_prefix copy_control verbose w jl w' :
  prepareJobList exe_file ctrl_file date_list outputdir time_out time_out_retry
    job_prefix copy_control verbose w = (Val jl, w') ->
  jl = map (fun x : nat * date_pair =>
              job_at exe_file ctrl_file date_list outputdir time_out
                time_out_retry job_prefix copy_control x.1 x.2)
         (List.filter (unmarked date_list outputdir job_prefix (fs w))
            (candidates O date_list)).
Proof.
  unfold prepareJobList.
  destruct (Py.path_split ctrl_file) as [folder fname] eqn:Hsplit.
  unfold bind at 1. unfold read_file at 1.
  destruct (fs w !! ctrl_file) as [[|base]|]; try discriminate.
  destruct verbose.
  - unfold bind, print. cbv beta iota.
    intros Hrun.
    match type of Hrun with
    | prepareJobList_loop _ _ _ _ _ _ _ _ _ _ _ ?p ?items ?acc ?w1 = _ =>
        pose proof (prepareJobList_loop_kept exe_file ctrl_file date_list
                      outputdir time_out time_out_retry job_prefix
                      copy_control folder fname base Hsplit items p acc w1) as Hk
    end.
    rewrite Hrun in Hk. simpl in Hk. injection Hk as ->. reflexivity.
  - unfold bind at 1. unfold pure at 1. intros Hrun.
    pose proof (prepareJobList_loop_kept exe_file ctrl_file date_list
                  outputdir time_out time_out_retry job_prefix
                  copy_control folder fname base Hsplit date_list O [] w) as Hk.
    rewrite Hrun in Hk. simpl in Hk. injection Hk as ->. reflexivity.
Qed.

Lemma elem_of_kept date_list outputdir job_prefix f pos d :
  (pos, d) ∈ List.filter (unmarked date_list outputdir job_prefix f)
               (candidates O date_list)
  <-> date_list !! pos = Some d
      /\ f !! marker_path date_list outputdir job_prefix pos d = None.
Proof.
  rewrite list_elem_of_In, List.filter_In, <- list_elem_of_In, candidate_at.
  unfold unmarked. simpl. rewrite negb_true_iff, bool_decide_eq_false.
  split; intros [H1 H2]; (split; [exact H1|]).
  - destruct (f !! _); [exfalso; apply H2; eauto|reflexivity].
  - rewrite H2. intros [? ?]. discriminate.
Qed.

(** X10: the prepared list consists of exactly the jobs whose marker is
    absent when [prepareJobList] starts, in the order of the intervals: a
    job is prepared if and only if its marker does not exist; the CONTROL
    copies written on the way never count as markers. *)
Theorem prepareJobList_keeps_unmarked exe_file ctrl_file date_list outputdir
    time_out time_out_retry job_prefix copy_control verbose w jl w' :
  prepareJobList exe_file ctrl_file date_list outputdir time_out time_out_retry
    job_prefix copy_control verbose w = (Val jl, w') ->
  jl = map (fun x : nat * date_pair =>
              job_at exe_file ctrl_file date_list outputdir time_out
                time_out_retry job_prefix copy_control x.1 x.2)
         (List.filter (unmarked date_list outputdir job_prefix (fs w))
            (candidates O date_list))
  /\ (forall pos d,
        date_list !! pos = Some d ->
        (job_at exe_file ctrl_file date_list outputdir time_out time_out_retry
           job_prefix copy_control pos d ∈ jl
         <-> fs w !! marker_path date_list outputdir job_prefix pos d = None)).
Proof.
  intros Hrun. pose proof (prepareJobList_kept _ _ _ _ _ _ _ _ _ _ _ _ Hrun) as Hjl.
  split; [exact Hjl|].
  intros pos d Hd. rewrite Hjl.
  change (map ?f ?l) with (f <$> l). rewrite list_elem_of_fmap. split.
  - intros ([q e] & Heq & Hin).
    assert ((pos, d) = (q, e)) as [= <- <-].
    { apply (job_of_inj exe_file ctrl_file date_list outputdir time_out
               time_out_retry job_prefix copy_control); [| |exact Heq].
      - apply candidate_at. exact Hd.
      - apply elem_of_kept in Hin as [Hin _]. apply candidate_at. exact Hin. }
    apply elem_of_kept in Hin as [_ Hin]. exact Hin.
  - intros Hnone. exists (pos, d). split; [reflexivity|].
    apply elem_of_kept. auto.
Qed.

Lemma prepareJobList_keeps_unmarked_witness :
  exists jl w',
    prepareJobList "/fx/Source/Python/submit.py" "/fx/Run/Control/CTRL"
      sample_dates "/out" (Some 14400) 3 "EI" true true sample_world
    = (Val jl, w')
    /\ jl = map (fun x : nat * date_pair =>
                   job_at "/fx/Source/Python/submit.py" "/fx/Run/Control/CTRL"
                     sample_dates "/out" (Some 14400) 3 "EI" true x.1 x.2)
              [(0%nat, ("20130203", "20130204")); (2%nat, ("20130207", "20130207"))].
Proof.
  eexists. eexists. split; [vm_compute; reflexivity|].
  refine (proj1 (prepareJobList_keeps_unmarked "/fx/Source/Python/submit.py"
                   "/fx/Run/Control/CTRL" sample_dates "/out" (Some 14400) 3
                   "EI" true true sample_world _ _ _)).
  vm_compute. reflexivity.
Defined.

(** X11: without copies ([copy_control] false) [prepareJobList] writes
    nothing: the file system and the history are as before, and every
    prepared job is given the base CONTROL file itself. *)
Theorem prepareJobList_without_copies exe_file ctrl_file date_list outputdir
    time_out time_out_retry job_prefix verbose w jl w' :
  prepareJobList exe_file ctrl_file date_list outputdir time_out time_out_retry
    job_prefix false verbose w = (Val jl, w') ->
  fs w' = fs w /\ history w' = history w /\ popen_calls w' = popen_calls w
  /\ (forall j, j ∈ jl -> args j !! 4%nat = Some ctrl_file).
Proof.
  intros Hrun. apply prepareJobList_inv in Hrun.
  destruct Hrun as (base & K & out & _ & -> & _ & Hfs & Hh & Hpc & _).
  split; [|split; [|split]].
  - rewrite Hfs. clear. induction K as [|x K IH] using rev_ind; [reflexivity|].
    rewrite foldl_app. simpl. unfold put_control at 1. exact IH.
  - rewrite Hh. unfold control_events. apply app_nil_r.
  - exact Hpc.
  - intros j Hj. change (map ?f ?l) with (f <$> l) in Hj.
    apply list_elem_of_fmap in Hj as (x & -> & _). reflexivity.
Qed.

Lemma prepareJobList_without_copies_witness :
  exists jl w',
    prepareJobList "/fx/Source/Python/submit.py" "/fx/Run/Control/CTRL"
      sample_dates "/out" (Some 14400) 3 "EI" false true sample_world
    = (Val jl, w')
    /\ fs w' = fs sample_world /\ history w' = history sample_world.
Proof.
  assert (H : exists jl w',
            prepareJobList "/fx/Source/Python/submit.py" "/fx/Run/Control/CTRL"
              sample_dates "/out" (Some 14400) 3 "EI" false true sample_world
            = (Val jl, w'))
    by (eexists; eexists; vm_compute; reflexivity).
  destruct H as (jl & w' & H). exists jl, w'. split; [exact H|].
  destruct (prepareJobList_without_copies _ _ _ _ _ _ _ _ _ _ _ H)
    as (H1 & H2 & _).
  split; [exact H1|exact H2].
Defined.

(** X12: two distinct jobs of a batch never share an input directory, an
    output directory or a log file, and no input directory of a job is an
    output directory of a job. *)
Theorem jobs_use_separate_directories exe_file ctrl_file date_list outputdir
    time_out time_out_retry job_prefix copy_control p q d e :
  (p < List.length date_list)%nat -> (q < List.length date_list)%nat ->
  p <> q ->
  let j := job_at exe_file ctrl_file date_list outputdir time_out
             time_out_retry job_prefix copy_control p d in
  let j' := job_at exe_file ctrl_file date_list outputdir time_out
              time_out_retry job_prefix copy_control q e in
  args j !! 6%nat <> args j' !! 6%nat
  /\ args j !! 8%nat <> args j' !! 8%nat
  /\ logfile j <> logfile j'
  /\ args j !! 6%nat <> args j' !! 8%nat
  /\ args j !! 6%nat <> args j !! 8%nat.
Proof.
  intros Hp Hq Hne j j'.
  assert (Hdir : forall s,
            job_dir outputdir job_prefix (job_id date_list p) d.1 d.2 +:+ s
            = job_dir outputdir job_prefix (job_id date_list q) e.1 e.2 +:+ s ->
            False).
  { intros s E. apply append_cancel_r in E. unfold job_dir in E.
    rewrite !(append_assoc job_prefix "_") in E.
    apply path_join_suffix_inj in E;
      [|apply append_nonempty_r; discriminate].
    apply append_inj_length in E as [E _].
    - apply Hne. apply (job_id_inj date_list); assumption.
    - rewrite !job_id_length by lia. reflexivity. }
  assert (Hmix : forall a b, a +:+ "_tmp" <> b +:+ "_out").
  { intros a b E.
    assert (H : Py.ends_with_char (a +:+ "_tmp") "t" = true)
      by (rewrite E; apply ends_with_char_app; discriminate).
    rewrite ends_with_char_app in H by discriminate. discriminate. }
  assert (Hlog : logfile j <> logfile j').
  { subst j j'. unfold job_at. cbn [logfile]. intros E.
    rewrite !(append_assoc job_prefix "_") in E.
    apply (inj (String.append _)) in E.
    apply append_cancel_r in E. apply Hne.
    apply (job_id_inj date_list); assumption. }
  split; [|split; [|split; [exact Hlog|]]]; clear Hlog;
    subst j j'; unfold job_at; cbn [args]; simpl.
  - intros [= E]. exact (Hdir _ E).
  - intros [= E]. exact (Hdir _ E).
  - split; intros [= E]; exact (Hmix _ _ E).
Qed.

Lemma jobs_use_separate_directories_witness :
  args (job_at "/fx/Source/Python/submit.py" "/fx/Run/Control/CTRL"
          sample_dates "/out" (Some 14400) 3 "EI" true 0
          ("20130203", "20130204")) !! 8%nat
  <> args (job_at "/fx/Source/Python/submit.py" "/fx/Run/Control/CTRL"
             sample_dates "/out" (Some 14400) 3 "EI" true 1
             ("20130205", "20130206")) !! 8%nat.
Proof.
  refine (proj1 (proj2 (jobs_use_separate_directories
            "/fx/Source/Python/submit.py" "/fx/Run/Control/CTRL" sample_dates
            "/out" (Some 14400) 3 "EI" true 0 1 ("20130203", "20130204")
            ("20130205", "20130206") _ _ _))); simpl; lia.
Defined.

(** X13: resuming works: when the runner returns 0 for a prepared job and
    the job's output directory exists, the marker is in place, [isSkip]
    answers [True] for that directory, and every later [prepareJobList]
    over the same intervals, output root and prefix reports the job as
    skipped and leaves it out. *)
Theorem launchJob_success_marks_job_done procs sjd ste exe_file ctrl_file
    date_list outputdir time_out time_out_retry job_prefix copy_control pos d
    w w' :
  exe_file ∉ job_flags -> ctrl_file ∉ job_flags ->
  date_list !! pos = Some d ->
  launchJobUnpack procs sjd ste
    (job_at exe_file ctrl_file date_list outputdir time_out time_out_retry
       job_prefix copy_control pos d) w = (Val 0, w') ->
  is_Some (fs w' !! out_dir date_list outputdir job_prefix pos d) ->
  fs w' !! marker_path date_list outputdir job_prefix pos d
  = Some (File "job done.")
  /\ isSkip (out_dir date_list outputdir job_prefix pos d) w' = (Val true, w')
  /\ (forall exe_file' ctrl_file' time_out' time_out_retry' copy_control'
        verbose jl w'',
        prepareJobList exe_file' ctrl_file' date_list outputdir time_out'
          time_out_retry' job_prefix copy_control' verbose w' = (Val jl, w'') ->
        (forall j, j ∈ jl -> (job_dates j).1.1 <> job_id date_list pos)
        /\ skip_line date_list pos d ∈ stdout w'').
Proof.
  intros He Hc Hd Hrun Hdir. unfold launchJobUnpack in Hrun.
  destruct (job_args_lookup exe_file ctrl_file date_list outputdir time_out
              time_out_retry job_prefix copy_control pos d He Hc)
    as (_ & _ & Hi & Ho).
  pose proof (launchJob_marker _ _ _ _ _ _ _ _ _ _ _ 7%nat _ Hi Ho Hrun)
    as (new & Hh & [Hiff Hw]).
  pose proof (launchJob_inv _ _ _ _ _ _ _ _ _ _ _ Hrun)
    as (new' & Hh' & _ & _ & _ & _ & Hres & _).
  assert (Hnew : new = Written (logfile (job_at exe_file ctrl_file date_list
                   outputdir time_out time_out_retry job_prefix copy_control
                   pos d)) "" :: new').
  { rewrite Hh in Hh'. apply app_inv_head in Hh'. exact Hh'. }
  assert (Hm : fs w' !! marker_path date_list outputdir job_prefix pos d
               = Some (File "job done.")).
  { apply Hw. apply Hiff.
    destruct (Hres 0 eq_refl) as [?|[Hin Hex]]; [discriminate|].
    eexists. split; [|split; [exact Hex|exact Hdir]].
    rewrite Hnew. right. exact Hin. }
  split; [exact Hm|]. split.
  - unfold isSkip, path_exists. f_equal. f_equal.
    apply bool_decide_eq_true. unfold marker_path in Hm. rewrite Hm. eauto.
  - intros exe' ctrl' to' r' copy' verbose jl w'' Hprep.
    apply prepareJobList_inv in Hprep.
    destruct Hprep as (base & K & out & _ & -> & Hsub & _ & _ & _ & Hout & Hsk).
    assert (Hx : (pos, d) ∈ candidates O date_list) by (apply candidate_at; exact Hd).
    destruct (Hsk (pos, d) Hx) as [Hn Hl]; [simpl; rewrite Hm; eauto|].
    split.
    + intros j Hj Hid. change (map ?f ?l) with (f <$> l) in Hj.
      apply list_elem_of_fmap in Hj as (y & -> & Hy).
      pose proof (sublist_subseteq _ _ Hsub _ Hy) as Hyc.
      apply Hn.
      replace (pos, d) with y; [exact Hy|].
      apply (job_of_id_inj exe' ctrl' date_list outputdir to' r' job_prefix copy');
        [exact Hyc|exact Hx|exact Hid].
    + rewrite Hout. apply elem_of_app. right. exact Hl.
Qed.

Lemma launchJob_success_marks_job_done_witness :
  exists w',
    launchJobUnpack (sample_procs (Exits 0)) sample_str_job_dates
      sample_str_timeout_expired
      (job_at "/fx/Source/Python/submit.py" "/fx/Run/Control/CTRL"
         sample_dates "/out" (Some 14400) 3 "EI" true 0
         ("20130203", "20130204")) sample_world = (Val 0, w')
    /\ isSkip "/out/EI_0_20130203-20130204_out" w' = (Val true, w').
Proof.
  eexists. split; [vm_compute; reflexivity|].
  refine (proj1 (proj2 (launchJob_success_marks_job_done (sample_procs (Exits 0))
            sample_str_job_dates sample_str_timeout_expired
            "/fx/Source/Python/submit.py" "/fx/Run/Control/CTRL" sample_dates
            "/out" (Some 14400) 3 "EI" true 0 ("20130203", "20130204")
            sample_world _ _ _ _ _ _))).
  - unfold job_flags. intros H. vm_compute in H.
    repeat (apply elem_of_cons in H as [H|H]; [discriminate|]). inversion H.
  - unfold job_flags. intros H.
    repeat (apply elem_of_cons in H as [H|H]; [discriminate|]). inversion H.
  - reflexivity.
  - vm_compute. reflexivity.
  - vm_compute. eauto.
Defined.

(** What the summary of one job prints, given what its three look-ups
    find. *)
Lemma printJobSummary_job_lines j c i o w :
  (k <-? Py.index (args j) "--controlfile"; Py.item (args j) (k + 1)) = Val c ->
  (k <-? Py.index (args j) "--inputdir"; Py.item (args j) (k + 1)) = Val i ->
  (k <-? Py.index (args j) "--outputdir"; Py.item (args j) (k + 1)) = Val o ->
  printJobSummary_job j w
  = (Val tt, {| fs := fs w;
                stdout := (stdout w ++ summary_lines j c i o)%list;
                popen_calls := popen_calls w; history := history w |}).
Proof.
  intros Hc Hi Ho. unfold printJobSummary_job, summary_lines.
  destruct (job_dates j) as [[idii t1ii] t2ii]. cbn [fst snd].
  revert Hc Hi Ho.
  destruct (Py.index (args j) "--controlfile") as [k1| | |]; try discriminate.
  cbn [res_bind]. intros Hc.
  destruct (Py.index (args j) "--inputdir") as [k2| | |]; try discriminate.
  cbn [res_bind]. intros Hi.
  destruct (Py.index (args j) "--outputdir") as [k3| | |]; try discriminate.
  cbn [res_bind]. intros Ho.
  unfold bind, lift, print. rewrite Hc, Hi, Ho. cbn [stdout fs popen_calls history].
  rewrite <- !app_assoc. reflexivity.
Qed.

(** The summary of a prepared job prints its eight lines. *)
Lemma printJobSummary_job_prepared exe_file ctrl_file date_list outputdir
    time_out time_out_retry job_prefix copy_control pos d w :
  exists c i o,
    printJobSummary_job
      (job_at exe_file ctrl_file date_list outputdir time_out time_out_retry
         job_prefix copy_control pos d) w
    = (Val tt, {| fs := fs w;
                  stdout := (stdout w
                             ++ summary_lines
                                  (job_at exe_file ctrl_file date_list outputdir
                                     time_out time_out_retry job_prefix
                                     copy_control pos d) c i o)%list;
                  popen_calls := popen_calls w; history := history w |}).
Proof.
  destruct (job_args_found exe_file ctrl_file date_list outputdir time_out
              time_out_retry job_prefix copy_control pos d "--controlfile" 3)
    as [c Hc]; [reflexivity|lia|].
  destruct (job_args_found exe_file ctrl_file date_list outputdir time_out
              time_out_retry job_prefix copy_control pos d "--inputdir" 5)
    as [i Hi]; [reflexivity|lia|].
  destruct (job_args_found exe_file ctrl_file date_list outputdir time_out
              time_out_retry job_prefix copy_control pos d "--outputdir" 7)
    as [o Ho]; [reflexivity|lia|].
  exists c, i, o. apply printJobSummary_job_lines; assumption.
Qed.

(** X14: the summary of a prepared job never fails: each of the three
    look-ups by option name finds a value, and eight lines are printed;
    when neither the path of [submit.py] nor the base CONTROL file is
    itself an option name, the lines show the job's own CONTROL file,
    input directory and output directory. *)
Theorem printJobSummary_job_on_prepared exe_file ctrl_file date_list outputdir
    time_out time_out_retry job_prefix copy_control pos d w :
  let j := job_at exe_file ctrl_file date_list outputdir time_out
             time_out_retry job_prefix copy_control pos d in
  (exists c i o,
     printJobSummary_job j w
     = (Val tt, {| fs := fs w;
                   stdout := (stdout w ++ summary_lines j c i o)%list;
                   popen_calls := popen_calls w; history := history w |}))
  /\ (exe_file ∉ job_flags -> ctrl_file ∉ job_flags ->
      printJobSummary_job j w
      = (Val tt, {| fs := fs w;
                    stdout := (stdout w
                               ++ summary_lines j
                                    (control_path ctrl_file date_list job_prefix
                                       copy_control pos)
                                    (job_dir outputdir job_prefix
                                       (job_id date_list pos) d.1 d.2 +:+ "_tmp")
                                    (out_dir date_list outputdir job_prefix pos d))%list;
                    popen_calls := popen_calls w; history := history w |})).
Proof.
  intros j. split.
  - apply printJobSummary_job_prepared.
  - intros He Hc.
    destruct (job_args_lookup exe_file ctrl_file date_list outputdir time_out
                time_out_retry job_prefix copy_control pos d He Hc)
      as (H1 & H2 & H3 & H4).
    apply printJobSummary_job_lines; [exact H1|exact H2|].
    fold j in H3, H4. rewrite H3. exact H4.
Qed.

Lemma printJobSummary_job_on_prepared_witness :
  "outputdir: /out/EI_0_20130203-20130204_out"
  ∈ stdout (printJobSummary_job
              (job_at "/fx/Source/Python/submit.py" "/fx/Run/Control/CTRL"
                 sample_dates "/out" (Some 14400) 3 "EI" true 0
                 ("20130203", "20130204")) sample_world).2.
Proof.
  rewrite (proj2 (printJobSummary_job_on_prepared "/fx/Source/Python/submit.py"
             "/fx/Run/Control/CTRL" sample_dates "/out" (Some 14400) 3 "EI"
             true 0 ("20130203", "20130204") sample_world)).
  - vm_compute. do 5 right. left.
  - unfold job_flags. intros H. vm_compute in H.
    repeat (apply elem_of_cons in H as [H|H]; [discriminate|]). inversion H.
  - unfold job_flags. intros H.
    repeat (apply elem_of_cons in H as [H|H]; [discriminate|]). inversion H.
Defined.

(** ** More on the entry point *)

Lemma checkExeFile_spec abspath folder w :
  checkExeFile abspath folder w
  = (if bool_decide (is_Some (fs w !! exe_path abspath folder))
     then Val (exe_path abspath folder)
     else Err (Exception ("submit.py file " +:+ exe_path abspath folder
                          +:+ " not found at here:")), w).
Proof.
  unfold checkExeFile, exe_path, bind, path_exists.
  destruct (bool_decide _); reflexivity.
Qed.

Lemma checkControlFile_spec folder control_file w :
  checkControlFile folder control_file w
  = (if bool_decide (is_Some (fs w !! base_control_path folder control_file))
     then Val (Py.path_join folder "Run/Control",
               base_control_path folder control_file)
     else Err (Exception ("CONTROL file " +:+ base_control_path folder control_file
                          +:+ " not found.")), w).
Proof.
  unfold checkControlFile, base_control_path, bind, path_exists.
  destruct (bool_decide _); reflexivity.
Qed.


Section MainMore.
Variable procs : nat -> behaviour.
Variable str_job_dates : string * string * string -> string.
Variable str_timeout_expired : list string -> Z -> string.
Variable abspath : string -> string.

Local Notation engine := (main procs str_job_dates str_timeout_expired abspath).
Local Notation unpack := (launchJobUnpack procs str_job_dates str_timeout_expired).

(** [main] up to the end of [prepareJobList], when the set-up succeeds. *)
Lemma main_after_setup DRY folder control_file s e k n_workers outputdir
  time_out time_out_retry job_prefix copy_control dry dl w :
breakDownDates s e k = Val dl ->
is_Some (fs w !! exe_path abspath folder) ->
is_Some (fs w !! base_control_path folder control_file) ->
engine DRY folder control_file s e k n_workers outputdir time_out
  time_out_retry job_prefix copy_control dry w
= bind (prepareJobList (exe_path abspath folder)
          (base_control_path folder control_file) dl outputdir time_out
          time_out_retry job_prefix copy_control true)
    (fun job_list =>
       if DRY then printJobSummary s e k job_list n_workers
       else
         bind (Pool_map n_workers unpack job_list)
           (fun results =>
              bind (for_each (fun rii => print (Py.str rii)) results)
                (fun _ => print (Py.nl +:+ "# <serial_batch_job>: Results: "
                                 +:+ str_int_list results)))) w.
Proof.
intros Hdl He Hc. unfold main. unfold bind at 1. unfold lift at 1.
rewrite Hdl. unfold bind at 1. rewrite checkExeFile_spec.
rewrite (bool_decide_eq_true_2 _ He).
unfold bind at 1. rewrite checkControlFile_spec.
rewrite (bool_decide_eq_true_2 _ Hc). reflexivity.
Qed.


(** The runs of a pool over a list of jobs. *)
Lemma pool_map_inv jl : forall w r w',
pool_map unpack jl w = (r, w') ->
exists new,
  history w' = (history w ++ new)%list
  /\ (popen_calls w <= popen_calls w')%nat
  /\ (forall pid cmd log, Launched pid cmd log ∈ new ->
        exists j, j ∈ jl /\ cmd = args j /\ log = logfile j)
  /\ (forall pid, Killed pid ∈ new ->
        ending (procs pid) = Overruns
        /\ exists j, j ∈ jl /\ Launched pid (args j) (logfile j) ∈ new)
  /\ (forall R, Forall (fun j => retry j <= R) jl ->
        Z.of_nat (popen_calls w' - popen_calls w)
        <= Z.of_nat (List.length jl) * Z.max 0 (R + 1)).
Proof.
induction jl as [|j jl IH]; intros w r w' Hrun.
- simpl in Hrun. injection Hrun as <- <-. exists []. rewrite app_nil_r.
  repeat split; try lia; intros;
    try (exfalso; eapply not_elem_of_nil; eassumption); try (simpl; lia).
- cbn [pool_map] in Hrun. unfold bind at 1 in Hrun.
  destruct (unpack j w) as [r1 w1] eqn:E1.
  pose proof (launchJob_inv _ _ _ _ _ _ _ _ _ _ _ E1)
    as (new1 & Hh1 & Hle1 & Hb1 & _ & Hev1 & _ & _).
  rewrite Forall_forall in Hev1.
  assert (Hfirst :
    (forall pid cmd log, Launched pid cmd log ∈ Written (logfile j) "" :: new1 ->
       cmd = args j /\ log = logfile j)
    /\ (forall pid, Killed pid ∈ Written (logfile j) "" :: new1 ->
          ending (procs pid) = Overruns
          /\ Launched pid (args j) (logfile j) ∈ Written (logfile j) "" :: new1)).
  { split.
    - intros pid cmd log Hin. apply elem_of_cons in Hin as [?|Hin]; [discriminate|].
      destruct (Hev1 _ Hin) as (-> & -> & _). auto.
    - intros pid Hin. apply elem_of_cons in Hin as [?|Hin]; [discriminate|].
      destruct (Hev1 _ Hin) as (Ho & _ & Hl). split; [exact Ho|]. right. exact Hl. }
  destruct Hfirst as [HL1 HK1].
  assert (Hbound1 : forall R, retry j <= R ->
            Z.of_nat (popen_calls w1 - popen_calls w) <= Z.max 0 (R + 1)) by (intros; lia).
  destruct r1 as [c| | |].
  + unfold bind at 1 in Hrun.
    destruct (pool_map unpack jl w1) as [r2 w2] eqn:E2.
    destruct (IH _ _ _ E2) as (new2 & Hh2 & Hle2 & HL2 & HK2 & Hb2).
    assert (w' = w2) as ->.
    { destruct r2; unfold pure in Hrun; congruence. }
    exists ((Written (logfile j) "" :: new1) ++ new2)%list.
    split; [rewrite Hh2, Hh1, <- app_assoc; reflexivity|].
    split; [lia|]. split; [|split].
    * intros pid cmd log Hin. apply elem_of_app in Hin as [Hin|Hin].
      -- exists j. split; [left|]. eapply HL1. exact Hin.
      -- destruct (HL2 _ _ _ Hin) as (j' & Hj' & H). exists j'. split; [right; exact Hj'|exact H].
    * intros pid Hin. apply elem_of_app in Hin as [Hin|Hin].
      -- destruct (HK1 _ Hin) as [Ho Hl]. split; [exact Ho|].
         exists j. split; [left|]. apply elem_of_app. left. exact Hl.
      -- destruct (HK2 _ Hin) as (Ho & j' & Hj' & Hl). split; [exact Ho|].
         exists j'. split; [right; exact Hj'|]. apply elem_of_app. right. exact Hl.
    * intros R HR. apply Forall_cons in HR as [HRj HR].
      specialize (Hb2 R HR). specialize (Hbound1 R HRj).
      cbn [List.length]. lia.
  + injection Hrun as <- <-. exists (Written (logfile j) "" :: new1).
    split; [exact Hh1|]. split; [lia|]. split; [|split].
    * intros pid cmd log Hin. exists j. split; [left|]. eapply HL1. exact Hin.
    * intros pid Hin. destruct (HK1 _ Hin) as [Ho Hl]. split; [exact Ho|].
      exists j. split; [left|exact Hl].
    * intros R HR. apply Forall_cons in HR as [HRj HR].
      specialize (Hbound1 R HRj). cbn [List.length]. lia.
  + injection Hrun as <- <-. exists (Written (logfile j) "" :: new1).
    split; [exact Hh1|]. split; [lia|]. split; [|split].
    * intros pid cmd log Hin. exists j. split; [left|]. eapply HL1. exact Hin.
    * intros pid Hin. destruct (HK1 _ Hin) as [Ho Hl]. split; [exact Ho|].
      exists j. split; [left|exact Hl].
    * intros R HR. apply Forall_cons in HR as [HRj HR].
      specialize (Hbound1 R HRj). cbn [List.length]. lia.
  + injection Hrun as <- <-. exists (Written (logfile j) "" :: new1).
    split; [exact Hh1|]. split; [lia|]. split; [|split].
    * intros pid cmd log Hin. exists j. split; [left|]. eapply HL1. exact Hin.
    * intros pid Hin. destruct (HK1 _ Hin) as [Ho Hl]. split; [exact Ho|].
      exists j. split; [left|exact Hl].
    * intros R HR. apply Forall_cons in HR as [HRj HR].
      specialize (Hbound1 R HRj). cbn [List.length]. lia.
Qed.

Lemma quiet_results (results : list Z) :
quiet (bind (for_each (fun rii => print (Py.str rii)) results)
         (fun _ => print (Py.nl +:+ "# <serial_batch_job>: Results: "
                          +:+ str_int_list results))).
Proof.
apply quiet_bind; [|intros; apply quiet_print].
apply quiet_for_each. intros. apply quiet_print.
Qed.

End MainMore.

(** X15: a failing set-up ends [main] before anything is printed, written
    or launched: the error of [breakDownDates] comes first, then the
    missing [submit.py], then the missing CONTROL file; a CONTROL path that
    is a directory passes the existence check and fails when it is read. *)
Theorem main_setup_errors procs sjd ste abspath DRY folder control_file s e k
    n_workers outputdir time_out time_out_retry job_prefix copy_control dry w :
  (forall err,
     breakDownDates s e k = Err err ->
     main procs sjd ste abspath DRY folder control_file s e k n_workers
       outputdir time_out time_out_retry job_prefix copy_control dry w
     = (Err err, w))
  /\ (forall dl,
        breakDownDates s e k = Val dl ->
        fs w !! exe_path abspath folder = None ->
        main procs sjd ste abspath DRY folder control_file s e k n_workers
          outputdir time_out time_out_retry job_prefix copy_control dry w
        = (Err (Exception ("submit.py file " +:+ exe_path abspath folder
                           +:+ " not found at here:")), w))
  /\ (forall dl,
        breakDownDates s e k = Val dl ->
        is_Some (fs w !! exe_path abspath folder) ->
        fs w !! base_control_path folder control_file = None ->
        main procs sjd ste abspath DRY folder control_file s e k n_workers
          outputdir time_out time_out_retry job_prefix copy_control dry w
        = (Err (Exception ("CONTROL file "
                           +:+ base_control_path folder control_file
                           +:+ " not found.")), w))
  /\ (forall dl,
        breakDownDates s e k = Val dl ->
        is_Some (fs w !! exe_path abspath folder) ->
        fs w !! base_control_path folder control_file = Some Dir ->
        main procs sjd ste abspath DRY folder control_file s e k n_workers
          outputdir time_out time_out_retry job_prefix copy_control dry w
        = (Err IsADirectoryError, w)).
Proof.
  split; [|split; [|split]].
  - intros err Hdl. unfold main. unfold bind at 1. unfold lift at 1.
    rewrite Hdl. reflexivity.
  - intros dl Hdl He. unfold main. unfold bind at 1. unfold lift at 1.
    rewrite Hdl. unfold bind at 1. rewrite checkExeFile_spec.
    rewrite bool_decide_eq_false_2; [reflexivity|].
    rewrite He. intros [? ?]. discriminate.
  - intros dl Hdl He Hc. unfold main. unfold bind at 1. unfold lift at 1.
    rewrite Hdl. unfold bind at 1. rewrite checkExeFile_spec.
    rewrite (bool_decide_eq_true_2 _ He).
    unfold bind at 1. rewrite checkControlFile_spec.
    rewrite bool_decide_eq_false_2; [reflexivity|].
    rewrite Hc. intros [? ?]. discriminate.
  - intros dl Hdl He Hc.
    rewrite (main_after_setup procs sjd ste abspath DRY folder control_file s e k
               n_workers outputdir time_out time_out_retry job_prefix
               copy_control dry dl w Hdl He) by (rewrite Hc; eauto).
    unfold bind at 1.
    pose proof (prepareJobList_spec (exe_path abspath folder)
                  (base_control_path folder control_file) dl outputdir time_out
                  time_out_retry job_prefix copy_control true w) as Hspec.
    rewrite Hc in Hspec. rewrite Hspec. reflexivity.
Qed.

Lemma main_setup_errors_witness :
  main (sample_procs (Exits 0)) sample_str_job_dates sample_str_timeout_expired
    (fun p => p) false "/fx" "CTRL" "20130207" "20130203" 2 2 "/out"
    (Some 14400) 3 "EI" true false sample_world
  = (Err (Exception "<start_date> is later than <end_date>."), sample_world).
Proof.
  apply (proj1 (main_setup_errors (sample_procs (Exits 0)) sample_str_job_dates
                  sample_str_timeout_expired (fun p => p) false "/fx" "CTRL"
                  "20130207" "20130203" 2 2 "/out" (Some 14400) 3 "EI" true
                  false sample_world)).
  vm_compute. reflexivity.
Defined.

(** X16: the pool is created after the jobs are prepared: with [DRY]
    false and a worker count below 1, [main] raises [ValueError] without
    launching anything, but only after [prepareJobList] has run, so its
    CONTROL copies are already written. *)
Theorem main_invalid_worker_count procs sjd ste abspath folder control_file s e
    k n_workers outputdir time_out time_out_retry job_prefix copy_control dry
    dl base w :
  breakDownDates s e k = Val dl ->
  is_Some (fs w !! exe_path abspath folder) ->
  fs w !! base_control_path folder control_file = Some (File base) ->
  n_workers < 1 ->
  exists K w' out,
    prepareJobList (exe_path abspath folder)
      (base_control_path folder control_file) dl outputdir time_out
      time_out_retry job_prefix copy_control true w
    = (Val (map (fun x : nat * date_pair =>
                   job_at (exe_path abspath folder)
                     (base_control_path folder control_file) dl outputdir
                     time_out time_out_retry job_prefix copy_control x.1 x.2) K),
       w')
    /\ main procs sjd ste abspath false folder control_file s e k n_workers
         outputdir time_out time_out_retry job_prefix copy_control dry w
       = (Err ValueError, w')
    /\ prepared (base_control_path folder control_file) dl outputdir job_prefix
         copy_control base w K w' out
    /\ popen_calls w' = popen_calls w
    /\ history w'
       = (history w
          ++ control_events (base_control_path folder control_file) dl
               job_prefix copy_control base K)%list.
Proof.
  intros Hdl He Hc Hn.
  pose proof (prepareJobList_spec (exe_path abspath folder)
                (base_control_path folder control_file) dl outputdir time_out
                time_out_retry job_prefix copy_control true w) as Hspec.
  rewrite Hc in Hspec. destruct Hspec as (K & w' & out & Hrun & Hp).
  exists K, w', out. split; [exact Hrun|]. split.
  - rewrite (main_after_setup procs sjd ste abspath false folder control_file s
               e k n_workers outputdir time_out time_out_retry job_prefix
               copy_control dry dl w Hdl He) by (rewrite Hc; eauto).
    unfold bind at 1. rewrite Hrun. unfold bind at 1. unfold Pool_map.
    destruct (Z.ltb_spec n_workers 1); [reflexivity|lia].
  - split; [exact Hp|]. destruct Hp as (_ & _ & Hh & Hpc & _). auto.
Qed.

Lemma main_invalid_worker_count_witness :
  exists w',
    main (sample_procs (Exits 0)) sample_str_job_dates
      sample_str_timeout_expired (fun p => p) false "/fx" "CTRL" "20130203"
      "20130207" 2 0 "/out" (Some 14400) 3 "EI" true false sample_world
    = (Err ValueError, w')
    /\ popen_calls w' = O
    /\ is_Some (fs w' !! "/fx/Run/Control/CTRL_EI_0").
Proof.
  destruct (main_invalid_worker_count (sample_procs (Exits 0))
              sample_str_job_dates sample_str_timeout_expired (fun p => p)
              "/fx" "CTRL" "20130203" "20130207" 2 0 "/out" (Some 14400) 3
              "EI" true false sample_dates sample_control sample_world)
    as (K & w' & out & Hprep & Hrun & _ & Hpc & _).
  - vm_compute. reflexivity.
  - vm_compute. eauto.
  - vm_compute. reflexivity.
  - lia.
  - exists w'. split; [exact Hrun|]. split; [exact Hpc|].
    vm_compute in Hprep. injection Hprep as _ <-. vm_compute. eauto.
Defined.



(** X18: whatever the processes do, a live run ([DRY] false) starts only
    commands of jobs it prepared: every launch is the command line of the
    job of an interval whose marker was absent when [main] started, logged
    to that job's log file; every kill is of a launched process that
    overran; and at most [len(date_list) * (retry + 1)] processes are
    started. *)
Theorem main_launches_prepared_jobs procs sjd ste abspath folder control_file
    s e k n_workers outputdir time_out time_out_retry job_prefix copy_control
    dry dl w r w' :
  breakDownDates s e k = Val dl ->
  main procs sjd ste abspath false folder control_file s e k n_workers
    outputdir time_out time_out_retry job_prefix copy_control dry w = (r, w') ->
  exists new,
    history w' = (history w ++ new)%list
    /\ (forall pid cmd log,
          Launched pid cmd log ∈ new ->
          exists pos d,
            dl !! pos = Some d
            /\ fs w !! marker_path dl outputdir job_prefix pos d = None
            /\ cmd = args (job_at (exe_path abspath folder)
                             (base_control_path folder control_file) dl
                             outputdir time_out time_out_retry job_prefix
                             copy_control pos d)
            /\ log = job_prefix +:+ "_" +:+ job_id dl pos +:+ ".txt")
    /\ (forall pid,
          Killed pid ∈ new ->
          ending (procs pid) = Overruns
          /\ exists cmd log, Launched pid cmd log ∈ new)
    /\ (popen_calls w <= popen_calls w')%nat
    /\ Z.of_nat (popen_calls w' - popen_calls w)
       <= Z.of_nat (List.length dl) * Z.max 0 (time_out_retry + 1).
Proof.
  intros Hdl Hrun.
  assert (Hnothing : w' = w ->
    exists new,
      history w' = (history w ++ new)%list
      /\ (forall pid cmd log,
            Launched pid cmd log ∈ new ->
            exists pos d,
              dl !! pos = Some d
              /\ fs w !! marker_path dl outputdir job_prefix pos d = None
              /\ cmd = args (job_at (exe_path abspath folder)
                               (base_control_path folder control_file) dl
                               outputdir time_out time_out_retry job_prefix
                               copy_control pos d)
              /\ log = job_prefix +:+ "_" +:+ job_id dl pos +:+ ".txt")
      /\ (forall pid,
            Killed pid ∈ new ->
            ending (procs pid) = Overruns
            /\ exists cmd log, Launched pid cmd log ∈ new)
      /\ (popen_calls w <= popen_calls w')%nat
      /\ Z.of_nat (popen_calls w' - popen_calls w)
         <= Z.of_nat (List.length dl) * Z.max 0 (time_out_retry + 1)).
  { intros ->. exists []. rewrite app_nil_r. split; [reflexivity|].
    split; [intros ? ? ? H; inversion H|]. split; [intros ? H; inversion H|].
    split; [lia|]. rewrite Nat.sub_diag. simpl. nia. }
  revert Hrun. unfold main. unfold bind at 1. unfold lift at 1. rewrite Hdl.
  unfold bind at 1. rewrite checkExeFile_spec.
  destruct (bool_decide _); [|intros [= _ <-]; auto].
  unfold bind at 1. rewrite checkControlFile_spec.
  destruct (bool_decide _); [|intros [= _ <-]; auto].
  unfold bind at 1.
  pose proof (prepareJobList_spec (exe_path abspath folder)
                (base_control_path folder control_file) dl outputdir time_out
                time_out_retry job_prefix copy_control true w) as Hspec.
  destruct (fs w !! base_control_path folder control_file) as [[|base]|];
    try (rewrite Hspec; intros [= _ <-]; auto).
  destruct Hspec as (K & w1 & out & Hprep & Hp).
  pose proof (prepareJobList_kept _ _ _ _ _ _ _ _ _ _ _ _ Hprep) as Hjl.
  rewrite Hprep.
  destruct Hp as (Hsub & _ & Hh1 & Hpc1 & _).
  set (jl := map (fun x : nat * date_pair =>
                    job_at (exe_path abspath folder)
                      (base_control_path folder control_file) dl outputdir
                      time_out time_out_retry job_prefix copy_control x.1 x.2) K)
    in *.
  assert (Hwritten : forall ev,
            ev ∈ control_events (base_control_path folder control_file) dl
                   job_prefix copy_control base K -> is_written ev).
  { apply Forall_forall, control_events_written. }
  assert (Hlen : (List.length jl <= List.length dl)%nat).
  { unfold jl. rewrite length_map. apply sublist_length in Hsub.
    unfold candidates in Hsub. rewrite length_zip_with, length_seq in Hsub. lia. }
  assert (Hjob : forall j, j ∈ jl ->
            exists pos d,
              dl !! pos = Some d
              /\ fs w !! marker_path dl outputdir job_prefix pos d = None
              /\ j = job_at (exe_path abspath folder)
                       (base_control_path folder control_file) dl outputdir
                       time_out time_out_retry job_prefix copy_control pos d).
  { intros j Hj. rewrite Hjl in Hj. change (map ?f ?l) with (f <$> l) in Hj.
    apply list_elem_of_fmap in Hj as ([pos d] & -> & Hin).
    apply elem_of_kept in Hin as [H1 H2]. exists pos, d. auto. }
  unfold Pool_map. unfold bind at 1.
  destruct (n_workers <? 1).
  { intros [= _ <-]. exists (control_events (base_control_path folder control_file)
                               dl job_prefix copy_control base K).
    split; [exact Hh1|].
    split; [intros ? ? ? H; apply Hwritten in H; destruct H|].
    split; [intros ? H; apply Hwritten in H; destruct H|].
    rewrite Hpc1, Nat.sub_diag. split; [lia|]. simpl. nia. }
  destruct (pool_map _ jl w1) as [r2 w2] eqn:E2.
  destruct (pool_map_inv procs sjd ste jl w1 r2 w2 E2)
    as (new2 & Hh2 & Hle2 & HL2 & HK2 & Hb2).
  intros Hrun.
  assert (Hq : history w' = history w2 /\ popen_calls w' = popen_calls w2).
  { destruct r2 as [results| | |]; try (injection Hrun as _ <-; auto).
    apply quiet_results in Hrun. tauto. }
  destruct Hq as [Hh3 Hpc3].
  exists (control_events (base_control_path folder control_file) dl job_prefix
            copy_control base K ++ new2)%list.
  split; [rewrite Hh3, Hh2, Hh1, <- app_assoc; reflexivity|].
  split; [|split; [|split]].
  - intros pid cmd log Hin. apply elem_of_app in Hin as [Hin|Hin];
      [apply Hwritten in Hin; destruct Hin|].
    destruct (HL2 _ _ _ Hin) as (j & Hj & -> & ->).
    destruct (Hjob j Hj) as (pos & d & H1 & H2 & ->).
    exists pos, d. auto.
  - intros pid Hin. apply elem_of_app in Hin as [Hin|Hin];
      [apply Hwritten in Hin; destruct Hin|].
    destruct (HK2 _ Hin) as (Ho & j & _ & Hl). split; [exact Ho|].
    exists (args j), (logfile j). apply elem_of_app. right. exact Hl.
  - lia.
  - rewrite Hpc3, <- Hpc1.
    specialize (Hb2 time_out_retry).
    assert (Hall : Forall (fun j => retry j <= time_out_retry) jl).
    { apply Forall_forall. intros j Hj. destruct (Hjob j Hj) as (? & ? & _ & _ & ->).
      simpl. lia. }
    specialize (Hb2 Hall).
    etransitivity; [exact Hb2|].
    apply Z.mul_le_mono_nonneg_r; lia.
Qed.

Lemma main_launches_prepared_jobs_witness :
  exists new,
    history (main (sample_procs (Exits 0)) sample_str_job_dates
               sample_str_timeout_expired (fun p => p) false "/fx" "CTRL"
               "20130203" "20130207" 2 2 "/out" (Some 14400) 3 "EI" true true
               sample_world).2
    = (history sample_world ++ new)%list
    /\ (forall pid cmd log,
          Launched pid cmd log ∈ new ->
          exists pos d,
            sample_dates !! pos = Some d
            /\ fs sample_world !! marker_path sample_dates "/out" "EI" pos d = None).
Proof.
  destruct (main_launches_prepared_jobs (sample_procs (Exits 0))
              sample_str_job_dates sample_str_timeout_expired (fun p => p)
              "/fx" "CTRL" "20130203" "20130207" 2 2 "/out" (Some 14400) 3
              "EI" true true sample_dates sample_world
              (main (sample_procs (Exits 0)) sample_str_job_dates
                 sample_str_timeout_expired (fun p => p) false "/fx" "CTRL"
                 "20130203" "20130207" 2 2 "/out" (Some 14400) 3 "EI" true true
                 sample_world).1
              (main (sample_procs (Exits 0)) sample_str_job_dates
                 sample_str_timeout_expired (fun p => p) false "/fx" "CTRL"
                 "20130203" "20130207" 2 2 "/out" (Some 14400) 3 "EI" true true
                 sample_world).2)
    as (new & Hh & HL & _).
  - vm_compute. reflexivity.
  - apply surjective_pairing.
  - exists new. split; [exact Hh|]. intros pid cmd log Hin.
    destruct (HL pid cmd log Hin) as (pos & d & H1 & H2 & _). eauto.
Defined.

(** ** More on the CONTROL-file rewriter *)

Lemma unlines_cons c l ls :
  Re.unlines (String c l) ls = String c (Re.unlines l ls).
Proof. destruct ls; reflexivity. Qed.

Lemma unlines_lines s :
  Re.unlines (Re.lines s).1 (Re.lines s).2 = s.
Proof.
  induction s as [|c s IH]; [reflexivity|].
  simpl. destruct (Re.lines s) as [l ls]. simpl in IH.
  destruct (ascii_dec c Py.newline) as [->|Hc]; simpl.
  - rewrite IH. reflexivity.
  - rewrite unlines_cons, IH. reflexivity.
Qed.

Lemma line_list_inj a b : line_list a = line_list b -> a = b.
Proof.
  unfold line_list. intros H.
  rewrite <- (unlines_lines a), <- (unlines_lines b).
  destruct (Re.lines a), (Re.lines b). injection H as -> ->. reflexivity.
Qed.

Lemma match_new_line field d rest :
  is_date d -> Re.match_line field (field +:+ " " +:+ d +:+ rest) = Some rest.
Proof.
  intros Hd. apply match_line_spec. exists O, d. split; [reflexivity|exact Hd].
Qed.

Lemma match_new_start d rest :
  is_date d ->
  Re.match_line "START_DATE" ("START_DATE " +:+ d +:+ rest) = Some rest.
Proof. exact (match_new_line "START_DATE" d rest). Qed.

Lemma match_new_end d rest :
  is_date d ->
  Re.match_line "END_DATE" ("END_DATE " +:+ d +:+ rest) = Some rest.
Proof. exact (match_new_line "END_DATE" d rest). Qed.

Lemma assigns_new field d :
  is_date d -> assigns field (field +:+ " " +:+ d) = true.
Proof.
  intros Hd. unfold assigns. rewrite <- (append_nil_r d).
  rewrite (match_new_line field d "" Hd). reflexivity.
Qed.

Lemma control_text_lines ctrl_str start_date end_date :
  is_date start_date -> is_date end_date ->
  line_list (control_text ctrl_str start_date end_date)
  = (inserted "START_DATE" start_date (line_list ctrl_str)
     ++ inserted "END_DATE" end_date (line_list ctrl_str)
     ++ map (rewrite_line start_date end_date) (line_list ctrl_str))%list.
Proof.
  intros Hs He.
  destruct (replaceControlDates_lines start_date end_date Hs He ctrl_str
              {| fs := ∅; stdout := []; popen_calls := O; history := [] |})
    as (out & w' & Hrun & Hlines & _).
  destruct (replaceControlDates_text ctrl_str start_date end_date
              {| fs := ∅; stdout := []; popen_calls := O; history := [] |})
    as (w'' & Hrun' & _).
  rewrite Hrun in Hrun'. injection Hrun' as -> _. exact Hlines.
Qed.

Section Rewritten.
Variables start_date end_date : string.
Hypothesis Hs : is_date start_date.
Hypothesis He : is_date end_date.

Local Notation rw := (rewrite_line start_date end_date).

(** What a rewritten line is, by the field the line assigns. *)
Lemma rewrite_line_cases line :
(exists rest, Re.match_line "END_DATE" line = Some rest
              /\ Re.match_line "START_DATE" line = None
              /\ rw line = "END_DATE " +:+ end_date +:+ rest)
\/ (exists rest, Re.match_line "END_DATE" line = None
                 /\ Re.match_line "START_DATE" line = Some rest
                 /\ rw line = "START_DATE " +:+ start_date +:+ rest)
\/ (Re.match_line "END_DATE" line = None
    /\ Re.match_line "START_DATE" line = None
    /\ rw line = line).
Proof.
unfold rewrite_line.
destruct (Re.match_line "END_DATE" line) as [r|] eqn:E.
- left. exists r. split; [reflexivity|]. split; [|reflexivity].
  eapply end_line_not_start. exact E.
- destruct (Re.match_line "START_DATE" line) as [r|] eqn:S.
  + right. left. exists r. auto.
  + right. right. auto.
Qed.

(** A rewritten line assigns the fields the line assigns, to the new
  dates. *)
Lemma match_rewritten line :
Re.match_line "START_DATE" (rw line) = Re.match_line "START_DATE" line
/\ Re.match_line "END_DATE" (rw line) = Re.match_line "END_DATE" line.
Proof.
destruct (rewrite_line_cases line)
  as [(r & E & S & ->)|[(r & E & S & ->)|(E & S & ->)]].
- rewrite E, S. split; [reflexivity|].
  apply (match_new_line "END_DATE" end_date r He).
- rewrite E, S. split; [|reflexivity].
  apply (match_new_line "START_DATE" start_date r Hs).
- auto.
Qed.

Lemma assigns_rewritten field L :
field = "START_DATE" \/ field = "END_DATE" ->
existsb (assigns field) (map rw L) = existsb (assigns field) L.
Proof.
intros Hf. induction L as [|x L IH]; [reflexivity|].
cbn [map existsb]. rewrite IH. f_equal. unfold assigns.
destruct (match_rewritten x) as [H1 H2].
destruct Hf as [-> | ->]; [rewrite H1|rewrite H2]; reflexivity.
Qed.

(** After the rewrite both fields are assigned. *)
Lemma rewritten_assigns_both L :
existsb (assigns "START_DATE")
  (inserted "START_DATE" start_date L ++ inserted "END_DATE" end_date L
   ++ map rw L)%list = true
/\ existsb (assigns "END_DATE")
     (inserted "START_DATE" start_date L ++ inserted "END_DATE" end_date L
      ++ map rw L)%list = true.
Proof.
rewrite !existsb_app, !assigns_rewritten by auto.
split.
- unfold inserted at 1.
  destruct (existsb (assigns "START_DATE") L); [apply orb_true_r|].
  cbn [existsb]. rewrite (assigns_new "START_DATE" start_date Hs). reflexivity.
- unfold inserted at 2.
  destruct (existsb (assigns "END_DATE") L);
    [rewrite !orb_true_r; reflexivity|].
  cbn [existsb]. rewrite (assigns_new "END_DATE" end_date He).
  rewrite !orb_true_r. reflexivity.
Qed.

End Rewritten.

Lemma inserted_nil field value L :
  existsb (assigns field) L = true -> inserted field value L = [].
Proof. unfold inserted. intros ->. reflexivity. Qed.

(** Rewriting a rewritten line is rewriting the line. *)
Lemma rewrite_line_twice s e s' e' line :
  is_date s -> is_date e ->
  rewrite_line s' e' (rewrite_line s e line) = rewrite_line s' e' line.
Proof.
  intros Hs He.
  destruct (rewrite_line_cases s e line)
    as [(r & E & S & ->)|[(r & E & S & ->)|(E & S & ->)]].
  - unfold rewrite_line.
    rewrite (match_new_end e r He), E. reflexivity.
  - unfold rewrite_line.
    rewrite (new_start_line_not_end s r).
    rewrite (match_new_start s r Hs), E, S. reflexivity.
  - reflexivity.
Qed.

Lemma rewrite_inserted s e s' e' L :
  is_date s -> is_date e ->
  map (rewrite_line s' e') (inserted "START_DATE" s L)
  = inserted "START_DATE" s' L
  /\ map (rewrite_line s' e') (inserted "END_DATE" e L)
     = inserted "END_DATE" e' L.
Proof.
  intros Hs He. unfold inserted. split.
  - destruct (existsb (assigns "START_DATE") L); [reflexivity|].
    cbn [map]. f_equal. unfold rewrite_line.
    change ("START_DATE" +:+ " " +:+ s) with ("START_DATE " +:+ s).
    rewrite <- (append_nil_r s).
    rewrite (new_start_line_not_end s "").
    rewrite (match_new_start s "" Hs).
    rewrite append_nil_r. reflexivity.
  - destruct (existsb (assigns "END_DATE") L); [reflexivity|].
    cbn [map]. f_equal. unfold rewrite_line.
    change ("END_DATE" +:+ " " +:+ e) with ("END_DATE " +:+ e).
    rewrite <- (append_nil_r e).
    rewrite (match_new_end e "" He).
    rewrite append_nil_r. reflexivity.
Qed.

(** X19: rewriting a CONTROL text that was already rewritten overrides the
    earlier dates and nothing else: the result is the one of rewriting the
    original text for the new dates; so the rewrite is idempotent. *)
Theorem replaceControlDates_overrides ctrl_str s e s' e' :
  is_date s -> is_date e -> is_date s' -> is_date e' ->
  control_text (control_text ctrl_str s e) s' e' = control_text ctrl_str s' e'
  /\ control_text (control_text ctrl_str s e) s e = control_text ctrl_str s e
  /\ (forall w w1 w2 out1 out2,
        replaceControlDates ctrl_str s e w = (Val out1, w1) ->
        replaceControlDates out1 s' e' w1 = (Val out2, w2) ->
        (replaceControlDates ctrl_str s' e' w).1 = Val out2).
Proof.
  intros Hs He Hs' He'.
  assert (Hover : forall a b, is_date a -> is_date b ->
            control_text (control_text ctrl_str s e) a b = control_text ctrl_str a b).
  { intros a b Ha Hb. apply line_list_inj.
    rewrite (control_text_lines _ a b Ha Hb).
    rewrite (control_text_lines ctrl_str s e Hs He).
    rewrite (control_text_lines ctrl_str a b Ha Hb).
    destruct (rewritten_assigns_both s e Hs He (line_list ctrl_str)) as [HS HE].
    rewrite (inserted_nil _ _ _ HS), (inserted_nil _ _ _ HE). cbn [app].
    rewrite !map_app.
    destruct (rewrite_inserted s e a b (line_list ctrl_str) Hs He) as [-> ->].
    rewrite map_map. do 2 f_equal.
    apply map_ext. intros x. apply rewrite_line_twice; assumption. }
  split; [apply Hover; assumption|]. split; [apply Hover; assumption|].
  intros w w1 w2 out1 out2 H1 H2.
  destruct (replaceControlDates_text ctrl_str s e w) as (? & E1 & _).
  rewrite E1 in H1. injection H1 as <- _.
  destruct (replaceControlDates_text (control_text ctrl_str s e) s' e' w1)
    as (? & E2 & _).
  rewrite E2 in H2. injection H2 as <- _.
  destruct (replaceControlDates_text ctrl_str s' e' w) as (? & -> & _).
  simpl. f_equal. symmetry. apply Hover; assumption.
Qed.

Lemma replaceControlDates_overrides_witness :
  control_text (control_text sample_control "20130205" "20130206")
    "20130207" "20130207"
  = control_text sample_control "20130207" "20130207".
Proof.
  apply (proj1 (replaceControlDates_overrides sample_control "20130205"
                  "20130206" "20130207" "20130207" eq_refl eq_refl eq_refl
                  eq_refl)).
Defined.

(** X20: the rewritten CONTROL text assigns both fields, and only to the
    requested dates: some line assigns START_DATE and some line assigns
    END_DATE, and every line that assigns a field is the field name, one
    space, the new date and the rest of the line. *)
Theorem replaceControlDates_assigns_both ctrl_str start_date end_date w :
  is_date start_date -> is_date end_date ->
  exists out w',
    replaceControlDates ctrl_str start_date end_date w = (Val out, w')
    /\ Re.search "START_DATE" out = true
    /\ Re.search "END_DATE" out = true
    /\ (forall line rest,
          line ∈ line_list out ->
          Re.match_line "START_DATE" line = Some rest ->
          line = "START_DATE " +:+ start_date +:+ rest)
    /\ (forall line rest,
          line ∈ line_list out ->
          Re.match_line "END_DATE" line = Some rest ->
          line = "END_DATE " +:+ end_date +:+ rest).
Proof.
  intros Hs He.
  destruct (replaceControlDates_lines start_date end_date Hs He ctrl_str w)
    as (out & w' & Hrun & Hlines & _).
  exists out, w'. split; [exact Hrun|].
  destruct (rewritten_assigns_both start_date end_date Hs He (line_list ctrl_str))
    as [HS HE].
  rewrite !search_lines, Hlines. split; [exact HS|]. split; [exact HE|].
  assert (Hrw : forall x,
            (forall rest, Re.match_line "START_DATE" (rewrite_line start_date end_date x)
                          = Some rest ->
                          rewrite_line start_date end_date x
                          = "START_DATE " +:+ start_date +:+ rest)
            /\ (forall rest, Re.match_line "END_DATE" (rewrite_line start_date end_date x)
                             = Some rest ->
                             rewrite_line start_date end_date x
                             = "END_DATE " +:+ end_date +:+ rest)).
  { intros x.
    destruct (match_rewritten start_date end_date Hs He x) as [M1 M2].
    rewrite M1, M2.
    destruct (rewrite_line_cases start_date end_date x)
      as [(r & E & S & ->)|[(r & E & S & ->)|(E & S & ->)]];
      rewrite E, S; split; intros rest; try discriminate;
      intros [= ->]; reflexivity. }
  split.
  - intros line rest Hin Hm. rewrite !elem_of_app in Hin.
    destruct Hin as [Hin|[Hin|Hin]].
    + unfold inserted in Hin.
      destruct (existsb (assigns "START_DATE") (line_list ctrl_str));
        [inversion Hin|].
      apply list_elem_of_singleton in Hin. subst line.
      change ("START_DATE" +:+ " " +:+ start_date)
        with ("START_DATE " +:+ start_date) in *.
      rewrite <- (append_nil_r start_date) in Hm.
      rewrite (match_new_start start_date "" Hs) in Hm.
      injection Hm as <-. rewrite append_nil_r. reflexivity.
    + unfold inserted in Hin.
      destruct (existsb (assigns "END_DATE") (line_list ctrl_str));
        [inversion Hin|].
      apply list_elem_of_singleton in Hin. subst line. discriminate.
    + change (map ?f ?l) with (f <$> l) in Hin.
      apply list_elem_of_fmap in Hin as (x & -> & _). apply Hrw. exact Hm.
  - intros line rest Hin Hm. rewrite !elem_of_app in Hin.
    destruct Hin as [Hin|[Hin|Hin]].
    + unfold inserted in Hin.
      destruct (existsb (assigns "START_DATE") (line_list ctrl_str));
        [inversion Hin|].
      apply list_elem_of_singleton in Hin. subst line. discriminate.
    + unfold inserted in Hin.
      destruct (existsb (assigns "END_DATE") (line_list ctrl_str));
        [inversion Hin|].
      apply list_elem_of_singleton in Hin. subst line.
      change ("END_DATE" +:+ " " +:+ end_date)
        with ("END_DATE " +:+ end_date) in *.
      rewrite <- (append_nil_r end_date) in Hm.
      rewrite (match_new_end end_date "" He) in Hm.
      injection Hm as <-. rewrite append_nil_r. reflexivity.
    + change (map ?f ?l) with (f <$> l) in Hin.
      apply list_elem_of_fmap in Hin as (x & -> & _). apply Hrw. exact Hm.
Qed.

Lemma replaceControlDates_assigns_both_witness :
  exists out w',
    replaceControlDates sample_control "20130205" "20130206" sample_world
    = (Val out, w')
    /\ Re.search "START_DATE" out = true
    /\ Re.search "END_DATE" out = true.
Proof.
  destruct (replaceControlDates_assigns_both sample_control "20130205"
              "20130206" sample_world eq_refl eq_refl)
    as (out & w' & Hrun & HS & HE & _).
  exists out, w'. auto.
Defined.

(** ** More on the partitioner *)









(** ** Dates as strings and as days *)



































